(** * CaptainJackSparrow: calculator tool, conversation memory, retrieval
      and the chat orchestrator

    A shallow embedding of [src/tools.py], [src/memory.py],
    [src/vector_store.py], [src/chatbot.py] and [main.py].

    Conventions.
    - A Python [str] is a [string]; its characters are read as the code
      points 0..255.
    - A Python [int] is a [Z]; floats and complex numbers belong to the
      interpreter and are reached through the class [PyRuntime].
    - A call that may raise returns an [outcome]; [try]/[except] is a
      [match] on it.
    - Collaborators of the program that are not Python code of the
      repository (the parser [ast.parse], the embedding model, the
      vector collection, the language model, the clock, the random
      generator) are parameters.
    - What the program prints is left out, apart from what [main] prints
      in its loop, and so are two limits of the machine: recursion depth
      and memory. *)

From Stdlib Require Import ZArith List String Ascii Bool Lia DecimalString.
From Stdlib Require Import DecimalPos DecimalZ Floats.
Import ListNotations.
Local Open Scope list_scope.
Local Open Scope string_scope.

Set Implicit Arguments.
Set Warnings "-register-all".

(* ================================================================== *)
(** ** Python strings *)

Module PyStr.

(** [c.isspace()], which is also what [\s] matches in a [str] pattern. *)
Definition isspace (c : ascii) : bool :=
  let n := nat_of_ascii c in
  (((9 <=? n) && (n <=? 13)) || ((28 <=? n) && (n <=? 32))
   || (n =? 133) || (n =? 160))%nat.

Definition lower_char (c : ascii) : ascii :=
  let n := nat_of_ascii c in
  if (((65 <=? n) && (n <=? 90))
      || ((192 <=? n) && (n <=? 222) && negb (n =? 215)))%nat
  then ascii_of_nat (n + 32) else c.

(** [s.lower()] *)
Fixpoint lower (s : string) : string :=
  match s with
  | EmptyString => EmptyString
  | String c s' => String (lower_char c) (lower s')
  end.

(** [s.lstrip()] *)
Fixpoint lstrip (s : string) : string :=
  match s with
  | EmptyString => EmptyString
  | String c s' => if isspace c then lstrip s' else s
  end.

(** [s.rstrip()] *)
Fixpoint rstrip (s : string) : string :=
  match s with
  | EmptyString => EmptyString
  | String c s' =>
      match rstrip s' with
      | EmptyString => if isspace c then EmptyString else String c EmptyString
      | t => String c t
      end
  end.

(** [s.strip()] *)
Definition strip (s : string) : string := rstrip (lstrip s).

(** [s.replace(old, new)] for a one-character [old]. *)
Fixpoint replace (old : ascii) (new : string) (s : string) : string :=
  match s with
  | EmptyString => EmptyString
  | String c s' =>
      if Ascii.eqb c old then new ++ replace old new s'
      else String c (replace old new s')
  end.

Definition newline : string := String (ascii_of_nat 10) EmptyString.

(** [sep.join(parts)] *)
Definition join (sep : string) (parts : list string) : string :=
  String.concat sep parts.

(** [str(n)] for an [int]. *)
Definition of_int (z : Z) : string := NilZero.string_of_int (Z.to_int z).

(** Truth value of a [str]: non-empty. *)
Definition truthy (s : string) : bool :=
  match s with EmptyString => false | _ => true end.

End PyStr.

(* ================================================================== *)
(** ** Exceptions and outcomes *)

Inductive exception : Type :=
| SyntaxError (msg : string)
| ValueError (msg : string)
| TypeError (msg : string)
| ZeroDivisionError (msg : string)
| OverflowError (msg : string)
| Unauthenticated (msg : string)        (* google.api_core.exceptions *)
| ResourceExhausted (msg : string)      (* google.api_core.exceptions *)
| OtherException (cls msg : string).    (* any other subclass of Exception *)

(** [str(e)] *)
Definition str_exception (e : exception) : string :=
  match e with
  | SyntaxError m | ValueError m | TypeError m | ZeroDivisionError m
  | OverflowError m | Unauthenticated m | ResourceExhausted m
  | OtherException _ m => m
  end.

Inductive outcome (A : Type) : Type :=
| Ok (a : A)
| Raise (e : exception).
Arguments Ok {A} a.
Arguments Raise {A} e.

Definition is_zero_division (e : exception) : bool :=
  match e with ZeroDivisionError _ => true | _ => false end.

(* ================================================================== *)
(** ** Numbers and the functions of the [operator] module *)

(** The values of [operator.*] that the program can name. *)
Inductive pyfun : Type :=
| operator_add | operator_sub | operator_mul
| operator_truediv | operator_pow | operator_neg.

Section Numbers.
Variables float complex : Type.

(** What [ast.Num] accepts as [node.n]. *)
Inductive number : Type :=
| PyInt (z : Z)
| PyFloat (x : float)
| PyComplex (c : complex).

(** The interpreter's side of the numbers.  [inexact_binop f l r] is
    [f(l, r)] when the result is not an exact integer operation: one
    operand is a float or complex, or an integer quotient or negative
    integer power.  When it is called for a quotient, the divisor is
    not zero and the operands have been converted.  [int_to_float z] is
    [float(z)], which raises [OverflowError] when [z] is too large, and
    [int_max_str_digits] is [sys.get_int_max_str_digits()]: the largest
    number of digits of an [int] that [str] renders, 0 for no limit
    (4300 unless the interpreter is told otherwise; never between 1 and
    639). *)
Class PyRuntime : Type := {
  float_is_zero : float -> bool;
  complex_is_zero : complex -> bool;
  inexact_binop : pyfun -> number -> number -> outcome (float + complex);
  float_neg : float -> float;
  complex_neg : complex -> complex;
  float_repr : float -> string;
  complex_repr : complex -> string;
  float_of_literal : string -> float;
  int_to_float : Z -> outcome float;
  int_max_str_digits : Z
}.
End Numbers.

Arguments PyInt {float complex} z.
Arguments PyFloat {float complex} x.
Arguments PyComplex {float complex} c.
Arguments int_to_float {float complex _} z.
Arguments int_max_str_digits {float complex _}.

Section Operators.
Context {float complex : Type} {RT : PyRuntime float complex}.

Definition of_inexact (v : float + complex) : number float complex :=
  match v with inl x => PyFloat x | inr c => PyComplex c end.

Definition lift_inexact (r : outcome (float + complex))
  : outcome (number float complex) :=
  match r with Ok v => Ok (of_inexact v) | Raise e => Raise e end.

(** [x == 0] *)
Definition is_zero (n : number float complex) : bool :=
  match n with
  | PyInt z => (z =? 0)%Z
  | PyFloat x => float_is_zero x
  | PyComplex c => complex_is_zero c
  end.

Definition is_floating (n : number float complex) : bool :=
  match n with PyInt _ => false | _ => true end.

Definition zero_division_message (l r : number float complex) : string :=
  match l, r with
  | PyInt _, PyInt _ => "division by zero"
  | PyComplex _, _ | _, PyComplex _ => "complex division by zero"
  | _, _ => "float division by zero"
  end.

(** What the conversion of an operand of a quotient with a float or a
    complex raises: an [int] is converted with [float]; the other
    numbers are taken as they are. *)
Definition converted (n : number float complex) : outcome unit :=
  match n with
  | PyInt z =>
      match int_to_float z with
      | Ok _ => Ok tt
      | Raise e => Raise e
      end
  | _ => Ok tt
  end.

(** [f(left, right)] for a function of the [operator] module.  A
    quotient of two [int]s looks at the divisor first; any other
    quotient converts the left operand, then the right one, and only
    then looks at the divisor. *)
Definition call2 (f : pyfun) (left right : number float complex)
  : outcome (number float complex) :=
  match f with
  | operator_add =>
      match left, right with
      | PyInt a, PyInt b => Ok (PyInt (a + b))
      | _, _ => lift_inexact (inexact_binop f left right)
      end
  | operator_sub =>
      match left, right with
      | PyInt a, PyInt b => Ok (PyInt (a - b))
      | _, _ => lift_inexact (inexact_binop f left right)
      end
  | operator_mul =>
      match left, right with
      | PyInt a, PyInt b => Ok (PyInt (a * b))
      | _, _ => lift_inexact (inexact_binop f left right)
      end
  | operator_truediv =>
      match left, right with
      | PyInt _, PyInt _ =>
          if is_zero right
          then Raise (ZeroDivisionError (zero_division_message left right))
          else lift_inexact (inexact_binop f left right)
      | _, _ =>
          match converted left with
          | Raise e => Raise e
          | Ok _ =>
              match converted right with
              | Raise e => Raise e
              | Ok _ =>
                  if is_zero right
                  then Raise (ZeroDivisionError
                                (zero_division_message left right))
                  else lift_inexact (inexact_binop f left right)
              end
          end
      end
  | operator_pow =>
      match left, right with
      | PyInt a, PyInt b =>
          if (0 <=? b)%Z then Ok (PyInt (a ^ b))
          else lift_inexact (inexact_binop f left right)
      | _, _ => lift_inexact (inexact_binop f left right)
      end
  | operator_neg =>
      Raise (TypeError "neg expected 1 argument, got 2")
  end.

(** [f(operand)] *)
Definition call1 (f : pyfun) (operand : number float complex)
  : outcome (number float complex) :=
  match f with
  | operator_neg =>
      match operand with
      | PyInt a => Ok (PyInt (- a))
      | PyFloat x => Ok (PyFloat (float_neg x))
      | PyComplex c => Ok (PyComplex (complex_neg c))
      end
  | _ => Raise (TypeError "expected 2 arguments, got 1")
  end.

(** The number of decimal digits of an [int]. *)
Definition digits (z : Z) : Z :=
  Z.of_nat (String.length (PyStr.of_int (Z.abs z))).

Definition exceeds_the_limit : string :=
  "Exceeds the limit (" ++ PyStr.of_int int_max_str_digits
  ++ " digits) for integer string conversion; "
  ++ "use sys.set_int_max_str_digits() to increase the limit".

(** [str(z)] for an [int]: a [ValueError] when [z] has more digits
    than the limit allows. *)
Definition str_int (z : Z) : outcome string :=
  if (0 <? int_max_str_digits)%Z && (int_max_str_digits <? digits z)%Z
  then Raise (ValueError exceeds_the_limit)
  else Ok (PyStr.of_int z).

(** [str(value)], as an f-string renders [{value}]. *)
Definition str_number (n : number float complex) : outcome string :=
  match n with
  | PyInt z => str_int z
  | PyFloat x => Ok (float_repr x)
  | PyComplex c => Ok (complex_repr c)
  end.
End Operators.

(* ================================================================== *)
(** ** The syntax trees of the [ast] module *)

Module ast.
Inductive operator : Type :=
| Add | Sub | Mult | MatMult | Div | Mod | Pow
| LShift | RShift | BitOr | BitXor | BitAnd | FloorDiv.

Inductive unaryop : Type := Invert | Not | UAdd | USub.

(** The class of an operator node, [type(node.op)]. *)
Inductive op_class : Type :=
| binary (o : operator)
| unary (u : unaryop).

Section Expr.
Variables float complex : Type.

Inductive expr : Type :=
| Num (n : number float complex)
    (* a Constant holding an int, a float or a complex *)
| Constant (kind : string)
    (* any other Constant: str, bytes, bool, None, Ellipsis *)
| BinOp (left : expr) (op : operator) (right : expr)
| UnaryOp (op : unaryop) (operand : expr)
| Name (id : string)
| Call (func : expr) (args : list expr)
| Attribute (value : expr) (attr : string)
| Tuple (elts : list expr)
| Other (cls : string).
    (* a node of any other class: Compare, IfExp, Lambda, ... *)
End Expr.

Arguments Num {float complex} n.
Arguments Constant {float complex} kind.
Arguments BinOp {float complex} left op right.
Arguments UnaryOp {float complex} op operand.
Arguments Name {float complex} id.
Arguments Call {float complex} func args.
Arguments Attribute {float complex} value attr.
Arguments Tuple {float complex} elts.
Arguments Other {float complex} cls.

Definition operator_name (o : operator) : string :=
  match o with
  | Add => "Add" | Sub => "Sub" | Mult => "Mult" | MatMult => "MatMult"
  | Div => "Div" | Mod => "Mod" | Pow => "Pow" | LShift => "LShift"
  | RShift => "RShift" | BitOr => "BitOr" | BitXor => "BitXor"
  | BitAnd => "BitAnd" | FloorDiv => "FloorDiv"
  end.

Definition unaryop_name (u : unaryop) : string :=
  match u with
  | Invert => "Invert" | Not => "Not" | UAdd => "UAdd" | USub => "USub"
  end.

Definition class_name (c : op_class) : string :=
  match c with binary o => operator_name o | unary u => unaryop_name u end.

Definition node_class {float complex} (e : expr float complex) : string :=
  match e with
  | Num _ | Constant _ => "Constant"
  | BinOp _ _ _ => "BinOp"
  | UnaryOp _ _ => "UnaryOp"
  | Name _ => "Name"
  | Call _ _ => "Call"
  | Attribute _ _ => "Attribute"
  | Tuple _ => "Tuple"
  | Other cls => cls
  end.

(** What an f-string shows for a class of the module: [{type(node)}]. *)
Definition class_repr (name : string) : string :=
  "<class 'ast." ++ name ++ "'>".

Definition op_class_eqb (a b : op_class) : bool :=
  String.eqb (class_name a) (class_name b)
  && match a, b with
     | binary _, binary _ | unary _, unary _ => true
     | _, _ => false
     end.
End ast.

(* ================================================================== *)
(** ** [Calculator] ([src/tools.py]) *)

Module Calculator.
Section Calculator.
Context {float complex : Type} {RT : PyRuntime float complex}.

(** [ast.parse(expression, mode='eval').body] *)
Variable ast_parse : string -> outcome (ast.expr float complex).

(** One application [op(...)] made by [_safe_eval]: the class of the
    operator node, the function found for it and the arguments. *)
Record applied : Type := Applied {
  applied_class : ast.op_class;
  applied_fun : pyfun;
  applied_args : list (number float complex)
}.

(** A computation of the evaluator: what it applied, in order, and how
    it ended. *)
Definition eval (A : Type) : Type := (list applied * outcome A)%type.

Definition ret {A} (a : A) : eval A := ([], Ok a).
Definition raise {A} (e : exception) : eval A := ([], Raise e).
Definition bind {A B} (m : eval A) (k : A -> eval B) : eval B :=
  match m with
  | (t, Ok a) => let (t', r) := k a in ((t ++ t')%list, r)
  | (t, Raise e) => (t, Raise e)
  end.
Definition apply (c : ast.op_class) (f : pyfun) (args : list (number float complex))
  : eval (number float complex) :=
  ([Applied c f args],
   match args with
   | [x] => call1 f x
   | [x; y] => call2 f x y
   | _ => Raise (TypeError "wrong number of arguments")
   end).

(** The class attribute [OPERATORS]. *)
Definition OPERATORS : list (ast.op_class * pyfun) :=
  [ (ast.binary ast.Add, operator_add);
    (ast.binary ast.Sub, operator_sub);
    (ast.binary ast.Mult, operator_mul);
    (ast.binary ast.Div, operator_truediv);
    (ast.binary ast.Pow, operator_pow);
    (ast.unary ast.USub, operator_neg) ].

(** [d.get(key)] *)
Fixpoint dict_get (d : list (ast.op_class * pyfun)) (key : ast.op_class)
  : option pyfun :=
  match d with
  | [] => None
  | (k, v) :: d' => if ast.op_class_eqb k key then Some v else dict_get d' key
  end.

Fixpoint _safe_eval (node : ast.expr float complex) : eval (number float complex) :=
  match node with
  | ast.Num n => ret n
  | ast.BinOp l o r =>
      bind (_safe_eval l) (fun left =>
      bind (_safe_eval r) (fun right =>
      match dict_get OPERATORS (ast.binary o) with
      | None =>
          raise (ValueError ("Unsupported operation: "
                             ++ ast.class_repr (ast.operator_name o)))
      | Some op => apply (ast.binary o) op [left; right]
      end))
  | ast.UnaryOp u e =>
      bind (_safe_eval e) (fun operand =>
      match dict_get OPERATORS (ast.unary u) with
      | None =>
          raise (ValueError ("Unsupported operation: "
                             ++ ast.class_repr (ast.unaryop_name u)))
      | Some op => apply (ast.unary u) op [operand]
      end)
  | _ =>
      raise (ValueError ("Unsupported expression: "
                         ++ ast.class_repr (ast.node_class node)))
  end.

(** The dictionary [calculate] returns. *)
Record CalculationResult : Type := {
  success : bool;
  result : option (number float complex);
  error : option string
}.

Definition division_by_zero_error : string := "Cannot divide by zero, mate!".
Definition invalid_expression (detail : string) : string :=
  "Invalid expression: " ++ detail.

(** The body of the [try] of [calculate]. *)
Definition calculate_body (expression : string) : eval (number float complex) :=
  let expression := PyStr.strip expression in
  match ast_parse expression with
  | Ok tree => _safe_eval tree
  | Raise e => raise e
  end.

(** The [except] clauses of [calculate], in their order. *)
Definition calculate_result (r : outcome (number float complex)) : CalculationResult :=
  match r with
  | Ok value =>
      {| success := true; result := Some value; error := None |}
  | Raise (ZeroDivisionError _) =>
      {| success := false; result := None;
         error := Some division_by_zero_error |}
  | Raise e =>
      {| success := false; result := None;
         error := Some (invalid_expression (str_exception e)) |}
  end.

Definition calculate (expression : string) : CalculationResult :=
  calculate_result (snd (calculate_body expression)).

(** What [calculate] applied on the way. *)
Definition calculate_trace (expression : string) : list applied :=
  fst (calculate_body expression).

End Calculator.
End Calculator.

(* ================================================================== *)
(** ** A model of [ast.parse(source, mode='eval')]

    The parser belongs to the interpreter.  [Calculator] takes it as a
    parameter; this module gives a model of it for a fragment of the
    expression grammar: decimal integers without leading zeros and of
    no more digits than [str] renders, point floats, names, the
    arithmetic, shift and bitwise operators, parentheses, tuples, calls
    with positional arguments and attribute access.  On a source
    outside the fragment it answers [NotModelled]. *)

Module PyParser.

Inductive parsed (A : Type) : Type :=
| Parsed (a : A)
| Invalid          (* SyntaxError *)
| NotModelled.
Arguments Parsed {A} a.
Arguments Invalid {A}.
Arguments NotModelled {A}.

Definition pbind {A B} (m : parsed A) (k : A -> parsed B) : parsed B :=
  match m with
  | Parsed a => k a
  | Invalid => Invalid
  | NotModelled => NotModelled
  end.

Definition is_digit (c : ascii) : bool :=
  let n := nat_of_ascii c in ((48 <=? n) && (n <=? 57))%nat.

Definition is_name_start (c : ascii) : bool :=
  let n := nat_of_ascii c in
  (((65 <=? n) && (n <=? 90)) || ((97 <=? n) && (n <=? 122)) || (n =? 95))%nat.

Definition is_name_char (c : ascii) : bool := is_name_start c || is_digit c.

(** The longest prefix of [s] made of characters in [p], and the rest. *)
Fixpoint span (p : ascii -> bool) (s : string) : string * string :=
  match s with
  | EmptyString => (EmptyString, EmptyString)
  | String c s' =>
      if p c then let (a, b) := span p s' in (String c a, b)
      else (EmptyString, s)
  end.

Definition starts_with (p : ascii -> bool) (s : string) : bool :=
  match s with String c _ => p c | EmptyString => false end.

Fixpoint digits_value (acc : Z) (s : string) : Z :=
  match s with
  | EmptyString => acc
  | String c s' =>
      digits_value (10 * acc + Z.of_nat (nat_of_ascii c - 48))%Z s'
  end.

Fixpoint all_zero (s : string) : bool :=
  match s with
  | EmptyString => true
  | String c s' => Ascii.eqb c "0" && all_zero s'
  end.

Definition keywords : list string :=
  [ "and"; "as"; "assert"; "async"; "await"; "break"; "class"; "continue";
    "def"; "del"; "elif"; "else"; "except"; "finally"; "for"; "from";
    "global"; "if"; "import"; "in"; "is"; "lambda"; "nonlocal"; "not";
    "or"; "pass"; "raise"; "return"; "try"; "while"; "with"; "yield" ].

Definition constant_keywords : list string := [ "True"; "False"; "None" ].

Definition mem (x : string) (l : list string) : bool :=
  existsb (String.eqb x) l.

Section PyParser.
Context {float complex : Type} {RT : PyRuntime float complex}.

Inductive token : Type :=
  | NUMBER (n : number float complex)
  | NAME (id : string)
  | KEYCONST (kind : string)
  | OP (o : string)
  | LPAR | RPAR | COMMA | DOT | ELLIPSIS.

Definition cons_token (t : token) (r : parsed (list token))
  : parsed (list token) :=
  pbind r (fun ts => Parsed (t :: ts)).

Fixpoint lex (fuel : nat) (s : string) : parsed (list token) :=
  match fuel with
  | O => NotModelled
  | S fuel' =>
  match s with
  | EmptyString => Parsed []
  | String c s' =>
      if Ascii.eqb c " " || Ascii.eqb c (ascii_of_nat 9) then lex fuel' s'
      else if is_digit c then
        let (d, r) := span is_digit s in
        match r with
        | String "." r' =>
            let (f, r'') := span is_digit r' in
            if starts_with is_name_start r'' then NotModelled
            else cons_token
                   (NUMBER (PyFloat (float_of_literal (d ++ "." ++ f))))
                   (lex fuel' r'')
        | _ =>
            if starts_with is_name_start r then NotModelled
            else if Ascii.eqb c "0" && negb (all_zero d) then NotModelled
            else if (0 <? int_max_str_digits)%Z
                    && (int_max_str_digits <? Z.of_nat (String.length d))%Z
            then NotModelled
            else cons_token (NUMBER (PyInt (digits_value 0 d))) (lex fuel' r)
        end
      else if Ascii.eqb c "." then
        if starts_with is_digit s' then
          let (f, r) := span is_digit s' in
          if starts_with is_name_start r then NotModelled
          else cons_token
                 (NUMBER (PyFloat (float_of_literal ("." ++ f))))
                 (lex fuel' r)
        else
          match s' with
          | String "." (String "." r) => cons_token ELLIPSIS (lex fuel' r)
          | _ => cons_token DOT (lex fuel' s')
          end
      else if is_name_start c then
        let (id, r) := span is_name_char s in
        if mem id keywords then NotModelled
        else if mem id constant_keywords
             then cons_token (KEYCONST id) (lex fuel' r)
             else cons_token (NAME id) (lex fuel' r)
      else
        let two (o : string) :=
          match s' with
          | String _ r => cons_token (OP o) (lex fuel' r)
          | EmptyString => NotModelled
          end in
        let one (o : string) := cons_token (OP o) (lex fuel' s') in
        match c with
        | "+"%char => one "+"
        | "-"%char => one "-"
        | "*"%char => if starts_with (Ascii.eqb "*") s' then two "**" else one "*"
        | "/"%char => if starts_with (Ascii.eqb "/") s' then two "//" else one "/"
        | "%"%char => one "%"
        | "@"%char => one "@"
        | "&"%char => one "&"
        | "|"%char => one "|"
        | "^"%char => one "^"
        | "~"%char => one "~"
        | "<"%char => if starts_with (Ascii.eqb "<") s' then two "<<" else NotModelled
        | ">"%char => if starts_with (Ascii.eqb ">") s' then two ">>" else NotModelled
        | "("%char => cons_token LPAR (lex fuel' s')
        | ")"%char => cons_token RPAR (lex fuel' s')
        | ","%char => cons_token COMMA (lex fuel' s')
        | _ => NotModelled
        end
  end
  end.

(** The binary operators by binding strength: level 1 binds tightest. *)
Definition binop_at (lvl : nat) (o : string) : option ast.operator :=
  match lvl with
  | 1 => if String.eqb o "*" then Some ast.Mult
         else if String.eqb o "/" then Some ast.Div
         else if String.eqb o "//" then Some ast.FloorDiv
         else if String.eqb o "%" then Some ast.Mod
         else if String.eqb o "@" then Some ast.MatMult
         else None
  | 2 => if String.eqb o "+" then Some ast.Add
         else if String.eqb o "-" then Some ast.Sub
         else None
  | 3 => if String.eqb o "<<" then Some ast.LShift
         else if String.eqb o ">>" then Some ast.RShift
         else None
  | 4 => if String.eqb o "&" then Some ast.BitAnd else None
  | 5 => if String.eqb o "^" then Some ast.BitXor else None
  | 6 => if String.eqb o "|" then Some ast.BitOr else None
  | _ => None
  end.

Definition top_level : nat := 6.

Definition unaryop_of (o : string) : option ast.unaryop :=
  if String.eqb o "-" then Some ast.USub
  else if String.eqb o "+" then Some ast.UAdd
  else if String.eqb o "~" then Some ast.Invert
  else None.

Definition is_star (o : string) : bool :=
  String.eqb o "*" || String.eqb o "**".

Definition result : Type := parsed (ast.expr float complex * list token).
Definition results : Type :=
  parsed (list (ast.expr float complex) * list token).

(** Recursive descent; [fuel] bounds the depth of the descent. *)
Fixpoint parse_level (fuel lvl : nat) (ts : list token) {struct fuel}
  : result :=
  match fuel with
  | O => NotModelled
  | S fuel' =>
      match lvl with
      | O => parse_factor fuel' ts
      | S lvl' =>
          pbind (parse_level fuel' lvl' ts) (fun '(lhs, rest) =>
          parse_level_rest fuel' lvl lhs rest)
      end
  end
with parse_level_rest (fuel lvl : nat) (lhs : ast.expr float complex)
       (ts : list token) {struct fuel} : result :=
  match fuel with
  | O => NotModelled
  | S fuel' =>
      match ts with
      | OP o :: ts' =>
          match binop_at lvl o with
          | Some op =>
              pbind (parse_level fuel' (pred lvl) ts') (fun '(rhs, rest) =>
              parse_level_rest fuel' lvl (ast.BinOp lhs op rhs) rest)
          | None => Parsed (lhs, ts)
          end
      | _ => Parsed (lhs, ts)
      end
  end
with parse_factor (fuel : nat) (ts : list token) {struct fuel} : result :=
  match fuel with
  | O => NotModelled
  | S fuel' =>
      match ts with
      | OP o :: ts' =>
          match unaryop_of o with
          | Some u =>
              pbind (parse_factor fuel' ts') (fun '(e, rest) =>
              Parsed (ast.UnaryOp u e, rest))
          | None => Invalid
          end
      | _ =>
          pbind (parse_atom fuel' ts) (fun '(a, rest) =>
          pbind (parse_trailers fuel' a rest) (fun '(p, rest') =>
          match rest' with
          | OP "**" :: ts' =>
              pbind (parse_factor fuel' ts') (fun '(e, rest'') =>
              Parsed (ast.BinOp p ast.Pow e, rest''))
          | _ => Parsed (p, rest')
          end))
      end
  end
with parse_trailers (fuel : nat) (e : ast.expr float complex)
       (ts : list token) {struct fuel} : result :=
  match fuel with
  | O => NotModelled
  | S fuel' =>
      match ts with
      | LPAR :: ts' =>
          pbind (parse_args fuel' ts') (fun '(args, rest) =>
          parse_trailers fuel' (ast.Call e args) rest)
      | DOT :: NAME a :: ts' => parse_trailers fuel' (ast.Attribute e a) ts'
      | DOT :: _ => Invalid
      | _ => Parsed (e, ts)
      end
  end
with parse_atom (fuel : nat) (ts : list token) {struct fuel} : result :=
  match fuel with
  | O => NotModelled
  | S fuel' =>
      match ts with
      | NUMBER n :: rest => Parsed (ast.Num n, rest)
      | NAME id :: rest => Parsed (ast.Name id, rest)
      | KEYCONST k :: rest => Parsed (ast.Constant k, rest)
      | ELLIPSIS :: rest => Parsed (ast.Constant "Ellipsis", rest)
      | LPAR :: RPAR :: rest => Parsed (ast.Tuple [], rest)
      | LPAR :: OP o :: inner =>
          if is_star o then NotModelled
          else parse_parenthesized fuel' (OP o :: inner)
      | LPAR :: ts' => parse_parenthesized fuel' ts'
      | _ => Invalid
      end
  end
with parse_parenthesized (fuel : nat) (ts : list token) {struct fuel}
  : result :=
  match fuel with
  | O => NotModelled
  | S fuel' =>
      pbind (parse_level fuel' top_level ts) (fun '(e, rest) =>
      match rest with
      | RPAR :: rest' => Parsed (e, rest')
      | COMMA :: rest' =>
          pbind (parse_args fuel' rest') (fun '(es, rest'') =>
          Parsed (ast.Tuple (e :: es), rest''))
      | _ => Invalid
      end)
  end
with parse_args (fuel : nat) (ts : list token) {struct fuel} : results :=
  match fuel with
  | O => NotModelled
  | S fuel' =>
      match ts with
      | RPAR :: rest => Parsed ([], rest)
      | OP o :: _ =>
          if is_star o then NotModelled
          else
            pbind (parse_level fuel' top_level ts) (fun '(e, rest) =>
            match rest with
            | RPAR :: rest' => Parsed ([e], rest')
            | COMMA :: rest' =>
                pbind (parse_args fuel' rest') (fun '(es, rest'') =>
                Parsed (e :: es, rest''))
            | _ => Invalid
            end)
      | _ =>
          pbind (parse_level fuel' top_level ts) (fun '(e, rest) =>
          match rest with
          | RPAR :: rest' => Parsed ([e], rest')
          | COMMA :: rest' =>
              pbind (parse_args fuel' rest') (fun '(es, rest'') =>
              Parsed (e :: es, rest''))
          | _ => Invalid
          end)
      end
  end.

(** [ast.parse(source, mode='eval').body] on the fragment. *)
Definition py_parse (source : string) : parsed (ast.expr float complex) :=
  pbind (lex (S (String.length source)) source) (fun ts =>
  pbind (parse_level (16 * S (List.length ts)) top_level ts)
    (fun '(e, rest) =>
     match rest with
     | [] => Parsed e
     | COMMA :: _ => NotModelled
     | _ => Invalid
     end)).

Definition is_parenthesis (c : ascii) : bool :=
  Ascii.eqb c "(" || Ascii.eqb c ")".

Definition is_blank (c : ascii) : bool :=
  Ascii.eqb c " " || Ascii.eqb c (ascii_of_nat 9).

Fixpoint has_char (p : ascii -> bool) (s : string) : bool :=
  match s with
  | EmptyString => false
  | String c s' => p c || has_char p s'
  end.

Definition not_modelled : exception :=
  OtherException "NotModelled" "source outside the modelled grammar".

(** The parser handed to [Calculator] when the model is run: a source
    outside the fragment is refused, so that nothing is concluded from
    it.  The interpreter reports an indented source and a parenthesis
    without its partner in words of their own, so these are refused
    too; the other sources that are not expressions are reported as
    "invalid syntax", on line 1, or on line 0 for the empty source. *)
Definition ast_parse (source : string) : outcome (ast.expr float complex) :=
  if starts_with is_blank source then Raise not_modelled
  else
    match py_parse source with
    | Parsed tree => Ok tree
    | Invalid =>
        match source with
        | EmptyString =>
            Raise (SyntaxError "invalid syntax (<unknown>, line 0)")
        | _ =>
            if has_char is_parenthesis source then Raise not_modelled
            else Raise (SyntaxError "invalid syntax (<unknown>, line 1)")
        end
    | NotModelled => Raise not_modelled
    end.

End PyParser.
End PyParser.

(* ================================================================== *)
(** ** The three patterns of [extract_and_calculate] and [re.search] *)

Module Regex.

(** The patterns of the program have the shape
    [item ... item ([class]+)]: literal characters and [\s+], then one
    capturing group, a greedy run over a character class. *)
Inductive item : Type :=
| Lit (c : ascii)
| Plus (cls : ascii -> bool).

Record pattern : Type := {
  head : list item;
  group_class : ascii -> bool
}.

(** The final group [([class]+)] at [s]: the longest run, at least one
    character. *)
Definition capture (cls : ascii -> bool) (s : string) : option string :=
  match fst (PyParser.span cls s) with
  | EmptyString => None
  | run => Some run
  end.

(** [cls+] followed by [k]: the longest run first, then shorter ones. *)
Fixpoint plus (cls : ascii -> bool) (k : string -> option string)
  (s : string) : option string :=
  match s with
  | EmptyString => None
  | String c s' =>
      if cls c then
        match plus cls k s' with
        | Some g => Some g
        | None => k s'
        end
      else None
  end.

(** A match that starts at the first character of [s]; the result is
    [group(1)]. *)
Fixpoint match_here (items : list item) (cls : ascii -> bool) (s : string)
  : option string :=
  match items with
  | [] => capture cls s
  | Lit c :: items' =>
      match s with
      | String c' s' =>
          if Ascii.eqb c c' then match_here items' cls s' else None
      | EmptyString => None
      end
  | Plus ws :: items' => plus ws (match_here items' cls) s
  end.

(** [re.search(pattern, s)]: the leftmost start that matches. *)
Fixpoint search (p : pattern) (s : string) : option string :=
  match match_here (head p) (group_class p) s with
  | Some g => Some g
  | None =>
      match s with
      | EmptyString => None
      | String _ s' => search p s'
      end
  end.

Fixpoint lit (s : string) : list item :=
  match s with
  | EmptyString => []
  | String c s' => Lit c :: lit s'
  end.

End Regex.

Module Tools.
Section Tools.
Context {float complex : Type} {RT : PyRuntime float complex}.
Variable ast_parse : string -> outcome (ast.expr float complex).

(** The class [[0-9+\-*/().^ ]]. *)
Definition expression_char (c : ascii) : bool :=
  PyParser.is_digit c
  || existsb (Ascii.eqb c)
       [ "+"; "-"; "*"; "/"; "("; ")"; "."; "^"; " " ]%char.

Definition trigger (words : list string) : Regex.pattern :=
  {| Regex.head :=
       flat_map (fun w => (Regex.lit w ++ [Regex.Plus PyStr.isspace])%list) words;
     Regex.group_class := expression_char |}.

Definition patterns : list Regex.pattern :=
  [ trigger ["calculate"];        (* calculate\s+([0-9+\-*/().^ ]+) *)
    trigger ["what"; "is"];       (* what\s+is\s+([0-9+\-*/().^ ]+) *)
    trigger ["compute"] ].        (* compute\s+([0-9+\-*/().^ ]+) *)

(** The [for] loop of [extract_and_calculate] up to [match.group(1)]:
    the group of the first pattern, in the order of the list, that is
    found in [text]. *)
Fixpoint first_match (ps : list Regex.pattern) (text : string)
  : option string :=
  match ps with
  | [] => None
  | p :: ps' =>
      match Regex.search p text with
      | Some g => Some g
      | None => first_match ps' text
      end
  end.

(** The string handed to [calculate]. *)
Definition extract_expression (text : string) : option string :=
  match first_match patterns (PyStr.lower text) with
  | Some g => Some (PyStr.replace "^" "**" (PyStr.strip g))
  | None => None
  end.

Definition extract_and_calculate (text : string)
  : option (Calculator.CalculationResult (float := float) (complex := complex)) :=
  match extract_expression text with
  | Some expression => Some (Calculator.calculate ast_parse expression)
  | None => None
  end.

(** The f-strings render the value with [str], which can raise. *)
Definition format_calculator_response
  (result : Calculator.CalculationResult (float := float) (complex := complex))
  (pirate_style : bool) : outcome string :=
  if Calculator.success result then
    match Calculator.result result with
    | Some value =>
        match str_number value with
        | Raise e => Raise e
        | Ok shown =>
            if pirate_style
            then Ok ("By me calculations, that be **" ++ shown ++ "**, savvy?")
            else Ok ("The result is " ++ shown)
        end
    | None =>
        if pirate_style
        then Ok "By me calculations, that be **None**, savvy?"
        else Ok "The result is None"
    end
  else
    let shown :=
      match Calculator.error result with Some e => e | None => "None" end in
    if pirate_style
    then Ok ("Arr, there be a problem with yer sum: " ++ shown)
    else Ok ("Error: " ++ shown).

End Tools.
End Tools.

(* ================================================================== *)
(** ** [Memory] ([src/memory.py]) *)

Module Memory.

Record message : Type := {
  role : string;
  content : string;
  timestamp : string
}.

Record t : Type := {
  max_turns : Z;
  conversation_history : list message
}.

Definition __init__ (max_turns : Z) : t :=
  {| max_turns := max_turns; conversation_history := [] |}.

(** [l[start:]] *)
Definition slice_from {A} (start : Z) (l : list A) : list A :=
  let n := Z.of_nat (List.length l) in
  let i := if (start <? 0)%Z then Z.max (start + n) 0 else Z.min start n in
  skipn (Z.to_nat i) l.

(** [now] is the value of [datetime.now().isoformat()] at the call. *)
Definition add_message (now : string) (role content : string) (self : t) : t :=
  let message := {| role := role; content := content; timestamp := now |} in
  let history := (conversation_history self ++ [message])%list in
  let max_messages := (max_turns self * 2)%Z in
  if (Z.of_nat (List.length history) >? max_messages)%Z
  then {| max_turns := max_turns self;
          conversation_history := slice_from (- max_messages) history |}
  else {| max_turns := max_turns self; conversation_history := history |}.

Definition get_context_string (self : t) : string :=
  match conversation_history self with
  | [] => "No previous conversation."
  | history =>
      PyStr.join PyStr.newline
        (map (fun msg =>
                (if String.eqb (role msg) "user" then "User" else "Jack")
                ++ ": " ++ content msg)
             history)
  end.

Definition clear (self : t) : t :=
  {| max_turns := max_turns self; conversation_history := [] |}.

Definition get_turn_count (self : t) : Z :=
  (Z.of_nat (List.length (conversation_history self)) / 2)%Z.

(** An entry of the list [get_conversation_history] returns: a stored
    message, or a dictionary with its role and content alone. *)
Inductive entry : Type :=
| Stored (msg : message)
| RoleContent (r c : string).

Definition get_conversation_history (format_for_llm : bool) (self : t)
  : list entry :=
  if format_for_llm
  then map (fun msg => RoleContent (role msg) (content msg))
         (conversation_history self)
  else map Stored (conversation_history self).

End Memory.

(* ================================================================== *)
(** ** [VectorStore.query] ([src/vector_store.py]) *)

Module VectorStore.
Section VectorStore.
Variable embedding : Type.

(** The answer of [collection.query]; only ['documents'] is read. *)
Record QueryResult : Type := {
  documents : option (list (list string))
}.

(** The two collaborators of a store: the sentence-embedding model and
    the collection.  [collection_query e n] may answer an empty
    dictionary ([None]). *)
Record t : Type := {
  encode : string -> outcome embedding;
  collection_query : embedding -> Z -> outcome (option QueryResult)
}.

Definition query (self : t) (query_text : string) (n_results : Z)
  : outcome (list string) :=
  match encode self query_text with
  | Raise e => Raise e
  | Ok query_embedding =>
      match collection_query self query_embedding n_results with
      | Raise e => Raise e
      | Ok results =>
          match results with
          | Some r =>
              match documents r with
              | Some (first :: _) => Ok first
              | _ => Ok []
              end
          | None => Ok []
          end
      end
  end.

(** The collaborators of [add_documents] and [load_from_file]:
    [encode_all documents] is [embedding_model.encode(documents, ...)]
    as a list, [collection_add embeddings documents ids] is
    [collection.add], and [read_lines filepath] is the lines the file
    yields once it is opened, or what opening or reading it raises. *)
Record Loader : Type := {
  encode_all : list string -> outcome (list embedding);
  collection_add :
    list embedding -> list string -> list string -> outcome unit;
  read_lines : string -> outcome (list string)
}.

(** The calls made to the embedding model and to the collection. *)
Inductive load_event : Type :=
| Encoded (documents : list string)
| Added (embeddings : list embedding) (documents ids : list string).

(** [[f"doc_{i}" for i in range(n)]] *)
Definition doc_ids (n : nat) : list string :=
  map (fun i => "doc_" ++ PyStr.of_int (Z.of_nat i)) (seq 0 n).

Definition add_documents (self : Loader) (documents : list string)
  : list load_event * outcome unit :=
  match documents with
  | [] => ([], Ok tt)
  | _ =>
      match encode_all self documents with
      | Raise e => ([Encoded documents], Raise e)
      | Ok embeddings =>
          let ids := doc_ids (List.length documents) in
          ([Encoded documents; Added embeddings documents ids],
           collection_add self embeddings documents ids)
      end
  end.

(** [[line.strip() for line in f if line.strip()]] *)
Definition documents_of (lines : list string) : list string :=
  map PyStr.strip
    (filter (fun line => PyStr.truthy (PyStr.strip line)) lines).

(** Both [except] clauses only print: the calls made are all that is
    left of a call of [load_from_file]. *)
Definition load_from_file (self : Loader) (filepath : string)
  : list load_event :=
  match read_lines self filepath with
  | Raise _ => []
  | Ok lines => fst (add_documents self (documents_of lines))
  end.

End VectorStore.

Arguments Encoded {embedding} documents.
Arguments Added {embedding} embeddings documents ids.
End VectorStore.

(* ================================================================== *)
(** ** [SparrowBot] ([src/chatbot.py]) *)

Module SparrowBot.
Section SparrowBot.
Context {float complex : Type} {RT : PyRuntime float complex}.
Variable ast_parse : string -> outcome (ast.expr float complex).
Variable embedding : Type.

(** [self.model]: [generate_content prompt] is the [text] of the
    response, or what the call or the access to [text] raises. *)
Record Backend : Type := {
  generate_content : string -> outcome string
}.

Record t : Type := {
  model : option Backend;
  vector_store : VectorStore.t embedding;
  memory : Memory.t
}.

(** [__init__] once the model is configured (or not, without a key) and
    the store is built and loaded: the memory starts empty with room for
    ten turns. *)
Definition __init__ (model : option Backend)
  (vector_store : VectorStore.t embedding) : t :=
  {| model := model;
     vector_store := vector_store;
     memory := Memory.__init__ 10 |}.

(** What one call of [chat] reads from outside the program: the clock
    ([now n] is the [n]-th reading) and the generator behind
    [random.choice] ([randbelow n] is the index drawn among [n]). *)
Record World : Type := {
  now : nat -> string;
  randbelow : nat -> nat
}.

(** The calls [chat] makes to the other components. *)
Inductive event : Type :=
| Retrieved (query : string) (n_results : Z)  (* vector_store.query *)
| Generated (prompt : string)                 (* model.generate_content *)
| Chose (among : list string).                (* random.choice *)

(** One call of [chat]: the calls made, what came back to the caller
    and the memory it left. *)
Record run : Type := {
  events : list event;
  returned : outcome string;
  memory_after : Memory.t
}.

Definition _retrieve_relevant_facts (self : t) (query : string)
  (n_results : Z) : outcome (list string) :=
  VectorStore.query (vector_store self) query n_results.

Definition _check_for_calculation (user_message : string)
  : outcome (option string) :=
  match Tools.extract_and_calculate ast_parse user_message with
  | Some result =>
      match Tools.format_calculator_response result true with
      | Ok response => Ok (Some response)
      | Raise e => Raise e
      end
  | None => Ok None
  end.

(** [f"{i}. {fact}" for i, fact in enumerate(facts, i)] *)
Fixpoint numbered (i : Z) (facts : list string) : list string :=
  match facts with
  | [] => []
  | fact :: rest =>
      (PyStr.of_int i ++ ". " ++ fact) :: numbered (i + 1) rest
  end.

(** [_build_context_prompt] once the facts are retrieved. *)
Definition context_prompt (relevant_facts : list string) (mem : Memory.t)
  (user_message : string) : string :=
  let facts_part :=
    match relevant_facts with
    | [] => []
    | _ => "Relevant facts from your memory:" :: numbered 1 relevant_facts
    end in
  let history_part :=
    if (Memory.get_turn_count mem >? 0)%Z
    then [ PyStr.newline ++ "Recent conversation:";
           Memory.get_context_string mem ]
    else [] in
  let message_part :=
    [ PyStr.newline ++ "Current user message: " ++ user_message ] in
  PyStr.join PyStr.newline (facts_part ++ history_part ++ message_part)%list.

Definition _build_context_prompt (self : t) (user_message : string)
  : outcome string :=
  match _retrieve_relevant_facts self user_message 2 with
  | Raise e => Raise e
  | Ok relevant_facts =>
      Ok (context_prompt relevant_facts (memory self) user_message)
  end.

Definition templates : list string :=
  [ "Arr, me compass points to this fact: {fact}";
    "By the powers! Did ye know? {fact}";
    "Savvy? {fact}";
    "The Black Pearl's logbook says: {fact}";
    "Interesting... remarkably like this: {fact}";
    "Aye, that reminds me of when {fact}" ].

Definition fallbacks : list string :=
  [ "Arr! I be Cap'n Jack Sparrow!";
    "Why is the rum always gone?";
    "Did no one come to save me just because they missed me?";
    "I'm Captain Jack Sparrow. Savvy?";
    "Take what you can, give nothing back!";
    "Me compass is pointing to... rum!" ].

Definition offline_tag : string := " [Offline Mode]".

(** [template.format(fact=fact)] for a template whose only replacement
    field is [{fact}]. *)
Fixpoint format_fact (template fact : string) : string :=
  match template with
  | String "{" (String "f" (String "a" (String "c" (String "t"
      (String "}" rest))))) => fact ++ format_fact rest fact
  | String c rest => String c (format_fact rest fact)
  | EmptyString => EmptyString
  end.

(** [random.choice(seq)] *)
Definition random_choice (w : World) (seq : list string) : outcome string :=
  match nth_error seq (randbelow w (List.length seq)) with
  | Some x => Ok x
  | None => Raise (OtherException "IndexError" "list index out of range")
  end.

Definition auth_apology : string :=
  "Arr! The Google guards blocked me. Check yer API key, savvy?".
Definition quota_apology : string :=
  "Blimey! I've talked too much. Need a moment to catch me breath (Quota exceeded).".
Definition other_apology (e : exception) : string :=
  "Curse the black spot! Something went wrong: " ++ str_exception e.

(** The three [except] clauses around the call of the model. *)
Definition apology (e : exception) : string :=
  match e with
  | Unauthenticated _ => auth_apology
  | ResourceExhausted _ => quota_apology
  | _ => other_apology e
  end.

Definition set_memory (self : t) (m : Memory.t) : t :=
  {| model := model self; vector_store := vector_store self; memory := m |}.

(** [chat] after the calculator declined: offline templates, or the
    model.  [self] already holds the user's message. *)
Definition chat_reply (w : World) (self : t) (user_message : string) : run :=
  match model self with
  | None =>
      match _retrieve_relevant_facts self user_message 1 with
      | Raise e =>
          {| events := [Retrieved user_message 1];
             returned := Raise e;
             memory_after := memory self |}
      | Ok facts =>
          let among :=
            match facts with [] => fallbacks | _ => templates end in
          let chosen :=
            match facts with
            | [] => random_choice w fallbacks
            | fact :: _ =>
                match random_choice w templates with
                | Ok template => Ok (format_fact template fact)
                | Raise e => Raise e
                end
            end in
          match chosen with
          | Raise e =>
              {| events := [Retrieved user_message 1; Chose among];
                 returned := Raise e;
                 memory_after := memory self |}
          | Ok response =>
              {| events := [Retrieved user_message 1; Chose among];
                 returned := Ok (response ++ offline_tag);
                 memory_after :=
                   Memory.add_message (now w 1) "assistant"
                     (response ++ offline_tag) (memory self) |}
          end
      end
  | Some backend =>
      match _build_context_prompt self user_message with
      | Raise e =>
          {| events := [Retrieved user_message 2];
             returned := Raise e;
             memory_after := memory self |}
      | Ok prompt =>
          match generate_content backend prompt with
          | Ok assistant_message =>
              {| events := [Retrieved user_message 2; Generated prompt];
                 returned := Ok assistant_message;
                 memory_after :=
                   Memory.add_message (now w 1) "assistant"
                     assistant_message (memory self) |}
          | Raise e =>
              {| events := [Retrieved user_message 2; Generated prompt];
                 returned := Ok (apology e);
                 memory_after := memory self |}
          end
      end
  end.

Definition chat (w : World) (self : t) (user_message : string) : run :=
  let self :=
    set_memory self
      (Memory.add_message (now w 0) "user" user_message (memory self)) in
  let calc_response := _check_for_calculation user_message in
  match calc_response with
  | Raise e =>
      {| events := []; returned := Raise e; memory_after := memory self |}
  | Ok (Some response) =>
      if PyStr.truthy response then
        {| events := [];
           returned := Ok response;
           memory_after :=
             Memory.add_message (now w 1) "assistant" response (memory self) |}
      else chat_reply w self user_message
  | Ok None => chat_reply w self user_message
  end.

Definition reset_conversation (self : t) : t :=
  set_memory self (Memory.clear (memory self)).

(** [self.api_key = api_key or os.getenv("GEMINI_API_KEY")]: the
    argument when it is a non-empty string, the value of the
    environment otherwise. *)
Definition init_api_key (api_key getenv : option string) : option string :=
  match api_key with
  | Some key => if PyStr.truthy key then Some key else getenv
  | None => getenv
  end.

(** [self.model] as [__init__] leaves it, and the keys it configured.
    [configure key] is [genai.configure(api_key=key)] followed by
    [genai.GenerativeModel(...)]. *)
Definition init_model (configure : string -> outcome Backend)
  (api_key getenv : option string) : list string * option Backend :=
  match init_api_key api_key getenv with
  | None => ([], None)
  | Some key =>
      if PyStr.truthy key then
        match configure key with
        | Ok model => ([key], Some model)
        | Raise _ => ([key], None)
        end
      else ([], None)
  end.

End SparrowBot.
End SparrowBot.

(* ================================================================== *)
(** ** [main] ([main.py]) *)

Module Main.
Section Main.
Context {float complex : Type} {RT : PyRuntime float complex}.
Variable ast_parse : string -> outcome (ast.expr float complex).
Variable embedding : Type.

(** What a call of [input] does: it returns a line, or it raises
    [EOFError] because the input has ended, or [KeyboardInterrupt]. *)
Inductive read : Type :=
| Line (text : string)
| EndOfInput
| Interrupt.

(** [stdin n] is what the [n]-th call of [input] does, and [worlds n]
    is the world of the [n]-th call of [bot.chat]. *)
Variable stdin : nat -> read.
Variable worlds : nat -> SparrowBot.World.

(** What [main] prints after the banner, the fixed notices left out. *)
Inductive shown : Type :=
| Jack (says : string)         (* the greeting or a response *)
| Farewell (says : string)     (* the farewell, then "Fair winds ..." *)
| Help                         (* print_help() *)
| Cleared                      (* "Conversation history cleared!" *)
| Error (message : string)     (* "Error: {e}" *)
| Interrupted.                 (* "Interrupted! Farewell, mate!" *)

(** The state of a run: the bot, the calls of [input] and of
    [bot.chat] made so far, the messages passed to [bot.chat] and what
    was printed, oldest first. *)
Record session : Type := {
  bot : SparrowBot.t embedding;
  reads : nat;
  chats : nat;
  asked : list string;
  output : list shown
}.

Definition start (b : SparrowBot.t embedding) : session :=
  {| bot := b; reads := 0; chats := 0; asked := []; output := [] |}.

Definition print (line : shown) (s : session) : session :=
  {| bot := bot s; reads := reads s; chats := chats s; asked := asked s;
     output := (output s ++ [line])%list |}.

(** [input("You: ")] *)
Definition input (s : session) : read * session :=
  (stdin (reads s),
   {| bot := bot s; reads := S (reads s); chats := chats s;
      asked := asked s; output := output s |}).

(** [bot.chat(message)]: the bot keeps the memory the call left, also
    when the call raises. *)
Definition bot_chat (message : string) (s : session)
  : outcome string * session :=
  let r := SparrowBot.chat ast_parse (worlds (chats s)) (bot s) message in
  (SparrowBot.returned r,
   {| bot := SparrowBot.set_memory (bot s) (SparrowBot.memory_after r);
      reads := reads s; chats := S (chats s);
      asked := (asked s ++ [message])%list; output := output s |}).

(** [bot.reset_conversation()] *)
Definition bot_reset (s : session) : session :=
  {| bot := SparrowBot.reset_conversation (bot s);
     reads := reads s; chats := chats s; asked := asked s;
     output := output s |}.

Inductive control : Type := Continue | Break.

(** One pass through the body of [while True], with its two [except]
    clauses. *)
Definition iteration (s : session) : control * session :=
  let (line, s) := input s in
  match line with
  | Interrupt => (Break, print Interrupted s)
  | EndOfInput => (Continue, print (Error "EOF when reading a line") s)
  | Line text =>
      let user_input := PyStr.strip text in
      if negb (PyStr.truthy user_input) then (Continue, s)
      else if PyParser.mem (PyStr.lower user_input) ["quit"; "exit"; "bye"]
      then
        match bot_chat "Goodbye!" s with
        | (Ok farewell, s) => (Break, print (Farewell farewell) s)
        | (Raise e, s) => (Continue, print (Error (str_exception e)) s)
        end
      else if PyParser.mem (PyStr.lower user_input) ["help"; "?"]
      then (Continue, print Help s)
      else if String.eqb (PyStr.lower user_input) "reset"
      then (Continue, print Cleared (bot_reset s))
      else
        match bot_chat user_input s with
        | (Ok response, s) => (Continue, print (Jack response) s)
        | (Raise e, s) => (Continue, print (Error (str_exception e)) s)
        end
  end.

(** [while True]: [None] when the loop is still running after [fuel]
    passes. *)
Fixpoint loop (fuel : nat) (s : session) : option session :=
  match fuel with
  | O => None
  | S fuel' =>
      match iteration s with
      | (Break, s') => Some s'
      | (Continue, s') => loop fuel' s'
      end
  end.

(** How [main] ends: it returns, or [sys.exit(1)] ends it, or an
    exception leaves it. *)
Inductive ending : Type :=
| Returned (s : session)
| Exited (code : Z)
| Raised (e : exception) (s : session).

(** [construct] is [SparrowBot(knowledge_base_path=kb_path)]. *)
Definition main (fuel : nat) (construct : outcome (SparrowBot.t embedding))
  : option ending :=
  match construct with
  | Raise _ => Some (Exited 1)
  | Ok b =>
      match bot_chat "Hello!" (start b) with
      | (Raise e, s) => Some (Raised e s)
      | (Ok greeting, s) =>
          match loop fuel (print (Jack greeting) s) with
          | Some s' => Some (Returned s')
          | None => None
          end
      end
  end.

End Main.

Arguments Exited {embedding} code.
End Main.

(* ================================================================== *)
(** ** A runtime to run the model: IEEE binary64 floats

    [float] is the binary64 format.  Sums, differences, products and
    quotients are the IEEE operations, conversions from integers and from
    decimal literals round to nearest, and [repr] is the shortest decimal
    that reads back as the same float.  Powers with a float operand (or a
    negative integer exponent) are computed by the platform's [pow] and
    are not modelled, a zero raised to a negative power apart, which
    the interpreter refuses itself: they are reported by an exception of
    class [NotModelled].  The limit on the digits of an [int] is the
    interpreter's default, 4300.  No complex value arises from what is
    modelled (the parser's fragment has no imaginary literal), so the
    instance has none. *)

Module Binary64.

Definition float : Type := PrimFloat.float.
Definition complex : Type := Empty_set.

Definition sf_div (a b : spec_float) : spec_float := SFdiv prec emax a b.

(** The integer [z], exactly, as an unrounded float. *)
Definition exact (z : Z) : spec_float :=
  match z with
  | Z0 => S754_zero false
  | Zpos p => S754_finite false p 0
  | Zneg p => S754_finite true p 0
  end.

(** [float(z)] before the overflow check. *)
Definition round_int (z : Z) : float :=
  SF2Prim (binary_normalize prec emax z 0 false).

(** [a / b] for integers, [b] non-zero, before the overflow check. *)
Definition round_quotient (a b : Z) : float := SF2Prim (sf_div (exact a) (exact b)).

Definition float_of_int (z : Z) : outcome float :=
  let x := round_int z in
  if PrimFloat.is_infinity x
  then Raise (OverflowError "int too large to convert to float")
  else Ok x.

Definition int_true_divide (a b : Z) : outcome float :=
  let x := round_quotient a b in
  if PrimFloat.is_infinity x
  then Raise (OverflowError "integer division result too large for a float")
  else Ok x.

(** The value of a literal [digits.digits]. *)
Definition of_literal (lexeme : string) : float :=
  let (int_part, rest) := PyParser.span PyParser.is_digit lexeme in
  let frac_part :=
    match rest with String _ f => f | EmptyString => EmptyString end in
  round_quotient (PyParser.digits_value 0 (int_part ++ frac_part))
                 (10 ^ Z.of_nat (String.length frac_part)).

(** *** [repr] *)

(** [num/den >= 10^k] *)
Definition ge_pow10 (num den k : Z) : bool :=
  if (0 <=? k)%Z then (den * 10 ^ k <=? num)%Z
  else (den <=? num * 10 ^ (- k))%Z.

(** The least [k] from [k0] on with [num/den < 10^k]. *)
Fixpoint decimal_point (fuel : nat) (num den k0 : Z) : Z :=
  match fuel with
  | O => k0
  | S fuel' =>
      if ge_pow10 num den k0 then decimal_point fuel' num den (k0 + 1)%Z
      else k0
  end.

(** [num/den / 10^j] as a fraction. *)
Definition scaled (num den j : Z) : Z * Z :=
  if (0 <=? j)%Z then (num, den * 10 ^ j)%Z else (num * 10 ^ (- j), den)%Z.

(** The float nearest to [n * 10^j]. *)
Definition of_decimal (n j : Z) : float :=
  if (0 <=? j)%Z then round_int (n * 10 ^ j) else round_quotient n (10 ^ (- j)).

(** The [digits]-digit decimal nearest to [num/den] that reads back as
    [x], if there is one: its digits as an integer, and its scale. *)
Definition candidate (x : float) (num den k : Z) (digits : Z)
  : option (Z * Z) :=
  let j := (k - digits)%Z in
  let (a, b) := scaled num den j in
  let lo := (a / b)%Z in
  let hi := (lo + 1)%Z in
  let r := (a mod b)%Z in
  let lo_first := (2 * r <? b)%Z || ((2 * r =? b)%Z && Z.even lo) in
  let ok n := PrimFloat.eqb (of_decimal n j) x in
  let (first, second) := if lo_first then (lo, hi) else (hi, lo) in
  if ok first then Some (first, j)
  else if ok second then Some (second, j)
  else None.

Fixpoint shortest (fuel : nat) (x : float) (num den k digits : Z)
  : Z * Z :=
  match fuel with
  | O => (0, 0)%Z
  | S fuel' =>
      match candidate x num den k digits with
      | Some d => d
      | None => shortest fuel' x num den k (digits + 1)%Z
      end
  end.

(** Drop the zeros at the end of [n * 10^j]. *)
Fixpoint strip_zeros (fuel : nat) (n j : Z) : Z * Z :=
  match fuel with
  | O => (n, j)
  | S fuel' =>
      if (n mod 10 =? 0)%Z && negb (n =? 0)%Z
      then strip_zeros fuel' (n / 10)%Z (j + 1)%Z
      else (n, j)
  end.

Fixpoint zeros (n : nat) : string :=
  match n with O => EmptyString | S n' => String "0" (zeros n') end.

Definition exponent_digits (e : Z) : string :=
  let s := PyStr.of_int (Z.abs e) in
  (if (e <? 0)%Z then "-" else "+")
  ++ (if (Z.abs e <? 10)%Z then "0" ++ s else s).

(** The layout of [repr]: [digits] are the significant digits and the
    value is [0.digits * 10^decpt]. *)
Definition layout (digits : string) (decpt : Z) : string :=
  let n := Z.of_nat (String.length digits) in
  if (decpt <=? -4)%Z || (16 <? decpt)%Z then
    String.substring 0 1 digits
    ++ (if (1 <? n)%Z
        then "." ++ String.substring 1 (String.length digits - 1) digits
        else EmptyString)
    ++ "e" ++ exponent_digits (decpt - 1)
  else if (decpt <=? 0)%Z then
    "0." ++ zeros (Z.to_nat (- decpt)) ++ digits
  else if (n <=? decpt)%Z then
    digits ++ zeros (Z.to_nat (decpt - n)) ++ ".0"
  else
    String.substring 0 (Z.to_nat decpt) digits ++ "."
    ++ String.substring (Z.to_nat decpt) (Z.to_nat (n - decpt)) digits.

Definition repr (x : float) : string :=
  match Prim2SF x with
  | S754_nan => "nan"
  | S754_infinity s => if s then "-inf" else "inf"
  | S754_zero s => if s then "-0.0" else "0.0"
  | S754_finite s m e =>
      let num := if (0 <=? e)%Z then (Zpos m * 2 ^ e)%Z else Zpos m in
      let den := if (0 <=? e)%Z then 1%Z else (2 ^ (- e))%Z in
      let k := decimal_point 700 num den (-330) in
      let (n0, j0) := shortest 17 (PrimFloat.abs x) num den k 1 in
      let (n, j) := strip_zeros 20 n0 j0 in
      let digits := PyStr.of_int n in
      (if s then "-" else EmptyString)
      ++ layout digits (Z.of_nat (String.length digits) + j)
  end.

Definition to_float (n : number float complex) : outcome float :=
  match n with
  | PyInt z => float_of_int z
  | PyFloat x => Ok x
  | PyComplex c => match c with end
  end.

Definition float_binop (op : float -> float -> float)
  (l r : number float complex) : outcome (float + complex) :=
  match to_float l with
  | Raise e => Raise e
  | Ok x =>
      match to_float r with
      | Raise e => Raise e
      | Ok y => Ok (inl (op x y))
      end
  end.

Definition binop (f : pyfun) (l r : number float complex)
  : outcome (float + complex) :=
  match f with
  | operator_add => float_binop PrimFloat.add l r
  | operator_sub => float_binop PrimFloat.sub l r
  | operator_mul => float_binop PrimFloat.mul l r
  | operator_truediv =>
      match l, r with
      | PyInt a, PyInt b =>
          match int_true_divide a b with
          | Ok x => Ok (inl x)
          | Raise e => Raise e
          end
      | _, _ => float_binop PrimFloat.div l r
      end
  | operator_pow =>
      match to_float l with
      | Raise e => Raise e
      | Ok x =>
          match to_float r with
          | Raise e => Raise e
          | Ok y =>
              if PrimFloat.is_zero x && PrimFloat.ltb y 0
                 && negb (PrimFloat.is_infinity y)
              then Raise (ZeroDivisionError
                            "0.0 cannot be raised to a negative power")
              else Raise (OtherException "NotModelled" "pow of the platform")
          end
      end
  | operator_neg =>
      Raise (TypeError "neg expected 1 argument, got 2")
  end.

#[global] Instance runtime : PyRuntime float complex := {
  float_is_zero := PrimFloat.is_zero;
  complex_is_zero := fun c => match c with end;
  inexact_binop := binop;
  float_neg := PrimFloat.opp;
  complex_neg := fun c => c;
  float_repr := repr;
  complex_repr := fun c => match c with end;
  float_of_literal := of_literal;
  int_to_float := float_of_int;
  int_max_str_digits := 4300
}.

(** The model parser over this runtime. *)
Definition parse : string -> outcome (ast.expr float complex) :=
  PyParser.ast_parse.

End Binary64.

(* ================================================================== *)
(** ** What the specification says, as definitions *)

Module Spec.
Section Spec.
Context {float complex : Type} {RT : PyRuntime float complex}.

(** The permitted node set: numeric literals, the binary operators
    [+ - * / **] and unary negation. *)
Definition allowed_binary (o : ast.operator) : bool :=
  match o with
  | ast.Add | ast.Sub | ast.Mult | ast.Div | ast.Pow => true
  | _ => false
  end.

Definition allowed_unary (u : ast.unaryop) : bool :=
  match u with ast.USub => true | _ => false end.

Fixpoint whitelisted (e : ast.expr float complex) : bool :=
  match e with
  | ast.Num _ => true
  | ast.BinOp l o r => whitelisted l && allowed_binary o && whitelisted r
  | ast.UnaryOp u e' => allowed_unary u && whitelisted e'
  | _ => false
  end.

(** An application is whitelisted when its operator class is a key of
    [OPERATORS] and the function applied is the one stored for it. *)
Definition whitelisted_application
  (a : Calculator.applied (float := float) (complex := complex)) : Prop :=
  In (Calculator.applied_class a, Calculator.applied_fun a)
     Calculator.OPERATORS.

(** How the application [a] ended. *)
Definition applied_outcome
  (a : Calculator.applied (float := float) (complex := complex))
  : outcome (number float complex) :=
  match Calculator.applied_args a with
  | [x] => call1 (Calculator.applied_fun a) x
  | [x; y] => call2 (Calculator.applied_fun a) x y
  | _ => Raise (TypeError "wrong number of arguments")
  end.

Definition both_int (l r : number float complex) : bool :=
  match l, r with
  | PyInt _, PyInt _ => true
  | _, _ => false
  end.

(** The operands of a quotient reach the division: two [int]s are
    divided as they are, other operands are converted first. *)
Definition operands_convert (l r : number float complex) : Prop :=
  both_int l r = true \/ (converted l = Ok tt /\ converted r = Ok tt).

(** [a] is a quotient whose operands reach the division and whose
    divisor is zero. *)
Definition divides_by_zero
  (a : Calculator.applied (float := float) (complex := complex)) : Prop :=
  Calculator.applied_fun a = operator_truediv /\
  exists l r, Calculator.applied_args a = [l; r] /\ is_zero r = true
              /\ operands_convert l r.

(** The failure [calculate] returns for a division by zero. *)
Definition division_by_zero_failure
  : Calculator.CalculationResult (float := float) (complex := complex) :=
  {| Calculator.success := false;
     Calculator.result := None;
     Calculator.error := Some Calculator.division_by_zero_error |}.

Definition invalid_expression_failure (detail : string)
  : Calculator.CalculationResult (float := float) (complex := complex) :=
  {| Calculator.success := false;
     Calculator.result := None;
     Calculator.error := Some (Calculator.invalid_expression detail) |}.

Definition succeeds_with (value : number float complex)
  : Calculator.CalculationResult (float := float) (complex := complex) :=
  {| Calculator.success := true;
     Calculator.result := Some value;
     Calculator.error := None |}.


End Spec.
End Spec.

(** What it means for a pattern of the program to be found in a text. *)
Module RegexSpec.

Fixpoint all_in (cls : ascii -> bool) (s : string) : bool :=
  match s with
  | EmptyString => true
  | String c s' => cls c && all_in cls s'
  end.

(** [consumes items m]: the items before the group match exactly [m]. *)
Inductive consumes : list Regex.item -> string -> Prop :=
| consumes_nil : consumes [] EmptyString
| consumes_lit c items m :
    consumes items m -> consumes (Regex.Lit c :: items) (String c m)
| consumes_plus cls items w m :
    w <> EmptyString -> all_in cls w = true -> consumes items m ->
    consumes (Regex.Plus cls :: items) (w ++ m).

(** [p] is found in [s] and its group is [g]: the trigger, then a
    longest non-empty run [g] of characters of the class. *)
Definition occurs (p : Regex.pattern) (s g : string) : Prop :=
  exists before matched after,
    s = before ++ matched ++ g ++ after
    /\ consumes (Regex.head p) matched
    /\ g <> EmptyString
    /\ all_in (Regex.group_class p) g = true
    /\ PyParser.starts_with (Regex.group_class p) after = false.

Definition found (p : Regex.pattern) (s : string) : Prop :=
  exists g, occurs p s g.

End RegexSpec.

(** The newest [n] elements of a list, oldest first. *)
Definition lastn {A} (n : nat) (l : list A) : list A :=
  skipn (List.length l - n) l.

(** Fixtures: collaborators with a fixed behaviour, to run [chat]. *)
Module Fixtures.

Definition world : SparrowBot.World :=
  {| SparrowBot.now := fun n => if Nat.eqb n 0 then "t0" else "t1";
     SparrowBot.randbelow := fun _ => 2 |}.

(** A store whose embedding model fails. *)
Definition broken_store : VectorStore.t unit :=
  {| VectorStore.encode :=
       fun _ => Raise (OtherException "RuntimeError" "embedding model unavailable");
     VectorStore.collection_query := fun _ _ => Ok None |}.

(** A store over an empty collection that answers no documents. *)
Definition empty_store : VectorStore.t unit :=
  {| VectorStore.encode := fun _ => Ok tt;
     VectorStore.collection_query :=
       fun _ _ => Ok (Some {| VectorStore.documents := Some [[]] |}) |}.

(** A store that answers one fact to every query. *)
Definition pearl_store : VectorStore.t unit :=
  {| VectorStore.encode := fun _ => Ok tt;
     VectorStore.collection_query :=
       fun _ _ =>
         Ok (Some {| VectorStore.documents :=
                       Some [["The Black Pearl is the fastest ship."]] |}) |}.


Definition failing_backend (e : exception) : SparrowBot.Backend :=
  {| SparrowBot.generate_content := fun _ => Raise e |}.

Definition echo_backend : SparrowBot.Backend :=
  {| SparrowBot.generate_content := fun _ => Ok "Aye, savvy?" |}.

Definition bot (model : option SparrowBot.Backend)
  (store : VectorStore.t unit) : SparrowBot.t unit :=
  SparrowBot.__init__ model store.

Definition chat (b : SparrowBot.t unit) (user_message : string)
  : SparrowBot.run :=
  SparrowBot.chat Binary64.parse world b user_message.

(** A one followed by [n] zeros. *)
Definition power_of_ten (n : nat) : string := String "1" (Binary64.zeros n).

(** What the offline bot over [pearl_store] answers in [world]. *)
Definition offline_reply : string :=
  "Savvy? The Black Pearl is the fastest ship. [Offline Mode]".

(** The same generator as [world], read at a later time. *)
Definition later_world : SparrowBot.World :=
  {| SparrowBot.now := fun n => if Nat.eqb n 0 then "t2" else "t3";
     SparrowBot.randbelow := fun _ => 2 |}.

(** A knowledge base of four lines, two of them blank, behind an
    embedding model and a collection that accept everything. *)
Definition loader : VectorStore.Loader unit :=
  {| VectorStore.encode_all := fun documents => Ok (map (fun _ => tt) documents);
     VectorStore.collection_add := fun _ _ _ => Ok tt;
     VectorStore.read_lines :=
       fun _ =>
         Ok [ "Jack Sparrow is the captain of the Black Pearl." ++ PyStr.newline;
              PyStr.newline;
              "  The Black Pearl is the fastest ship.  " ++ PyStr.newline;
              "   " ] |}.

(** An input that has ended. *)
Definition ended_input : nat -> Main.read := fun _ => Main.EndOfInput.

(** An input of the lines [typed], which then ends. *)
Definition lines (typed : list string) : nat -> Main.read :=
  fun n =>
    match nth_error typed n with
    | Some text => Main.Line text
    | None => Main.EndOfInput
    end.

End Fixtures.

(** Sequences of [add_message] calls. *)
Module MemorySpec.

(** One call [add_message(role, content)], made at the time [at_time]. *)
Record call : Type := {
  at_time : string;
  with_role : string;
  with_content : string
}.

Definition message_of (c : call) : Memory.message :=
  {| Memory.role := with_role c;
     Memory.content := with_content c;
     Memory.timestamp := at_time c |}.

Definition add_all (calls : list call) (self : Memory.t) : Memory.t :=
  fold_left
    (fun m c => Memory.add_message (at_time c) (with_role c) (with_content c) m)
    calls self.

(** [n] calls, numbered from [i]. *)
Fixpoint numbered_calls (i n : nat) : list call :=
  match n with
  | O => []
  | S n' =>
      {| at_time := "t"; with_role := "user";
         with_content := PyStr.of_int (Z.of_nat i) |}
      :: numbered_calls (S i) n'
  end.

End MemorySpec.

Module ChatSpec.
(** The memory of [self] once [chat] has recorded the user's message. *)
Definition recorded {embedding : Type} (w : SparrowBot.World)
  (self : SparrowBot.t embedding) (user_message : string) : Memory.t :=
  Memory.add_message (SparrowBot.now w 0) "user" user_message
    (SparrowBot.memory self).

(** The number of results [chat] asks the store for. *)
Definition n_results {embedding : Type} (self : SparrowBot.t embedding) : Z :=
  match SparrowBot.model self with Some _ => 2%Z | None => 1%Z end.
End ChatSpec.

(** The operator nodes of a tree. *)
Module EvalSpec.
Section EvalSpec.
Context {float complex : Type} {RT : PyRuntime float complex}.

(** The [BinOp] and [UnaryOp] nodes [_safe_eval] can reach: it does not
    go below a node of another class. *)
Fixpoint operator_nodes (e : ast.expr float complex) : nat :=
  match e with
  | ast.BinOp l _ r => S (operator_nodes l + operator_nodes r)
  | ast.UnaryOp _ e' => S (operator_nodes e')
  | _ => 0
  end.

(** The application [a] returned a value. *)
Definition returned_a_value
  (a : Calculator.applied (float := float) (complex := complex)) : Prop :=
  exists value, Spec.applied_outcome a = Ok value.

End EvalSpec.
End EvalSpec.

Module ToolsSpec.

(** The characters of an extracted expression: those of the class of
    the patterns, the caret apart. *)
Definition arithmetic_char (c : ascii) : bool :=
  PyParser.is_digit c
  || existsb (Ascii.eqb c) [ "+"; "-"; "*"; "/"; "("; ")"; "."; " " ]%char.

(** White space or a character of the class of the patterns: what can
    follow a trigger in a match. *)
Definition run_char (c : ascii) : bool :=
  PyStr.isspace c || Tools.expression_char c.

(** The characters of the class of the patterns, one by one. *)
Definition expression_chars : list ascii :=
  [ "0"; "1"; "2"; "3"; "4"; "5"; "6"; "7"; "8"; "9";
    "+"; "-"; "*"; "/"; "("; ")"; "."; "^"; " " ]%char.

(** The characters [\s] matches, by code point: tab, line feed,
    vertical tab, form feed, carriage return, the four separators, the
    space, next line and the no-break space. *)
Definition space_chars : list ascii :=
  map ascii_of_nat [9; 10; 11; 12; 13; 28; 29; 30; 31; 32; 133; 160]%nat.

(** What the part of a pattern before its group matches: every word of
    the trigger, each followed by white space, one character at
    least. *)
Fixpoint trigger_text (words : list string) (matched : string) : Prop :=
  match words with
  | [] => matched = EmptyString
  | word :: words' =>
      exists space rest,
        matched = word ++ space ++ rest
        /\ space <> EmptyString
        /\ RegexSpec.all_in PyStr.isspace space = true
        /\ trigger_text words' rest
  end.

(** The rule in the words of the specification: the phrase, followed
    at once by a run of characters of the class. *)
Definition phrase_then_run (phrase text run : string) : Prop :=
  exists before after,
    PyStr.lower text = before ++ phrase ++ run ++ after
    /\ run <> EmptyString
    /\ RegexSpec.all_in Tools.expression_char run = true.

End ToolsSpec.

(** Conversations. *)
Module DialogueSpec.

(** A message without its timestamp. *)
Definition untimed (m : Memory.message) : string * string :=
  (Memory.role m, Memory.content m).

(** The same capacity and the same messages, timestamps apart. *)
Definition same_dialogue (a b : Memory.t) : Prop :=
  Memory.max_turns a = Memory.max_turns b
  /\ map untimed (Memory.conversation_history a)
     = map untimed (Memory.conversation_history b).

(** The invariant of a memory with room for at least one turn. *)
Definition within_capacity (m : Memory.t) : Prop :=
  (0 < Memory.max_turns m)%Z
  /\ (Z.of_nat (List.length (Memory.conversation_history m))
      <= Memory.max_turns m * 2)%Z.

Section DialogueSpec.
Context {float complex : Type} {RT : PyRuntime float complex}.
Variable ast_parse : string -> outcome (ast.expr float complex).
Variable embedding : Type.

(** What a caller does with a bot: [bot.chat(message)] in some world,
    or [bot.reset_conversation()]. *)
Inductive action : Type :=
| Say (w : SparrowBot.World) (message : string)
| Reset.

(** The bot after the call, whether it returned or raised. *)
Definition perform (b : SparrowBot.t embedding) (a : action)
  : SparrowBot.t embedding :=
  match a with
  | Say w message =>
      SparrowBot.set_memory b
        (SparrowBot.memory_after (SparrowBot.chat ast_parse w b message))
  | Reset => SparrowBot.reset_conversation b
  end.

Definition perform_all (actions : list action) (b : SparrowBot.t embedding)
  : SparrowBot.t embedding :=
  fold_left perform actions b.

End DialogueSpec.
End DialogueSpec.

Module MainSpec.

(** The lines [main] treats as commands, once stripped and lowered. *)
Definition commands : list string :=
  [ "quit"; "exit"; "bye"; "help"; "?"; "reset" ].

(** A message [main] passes to [bot.chat] for a line of the user: the
    line stripped, not empty and not a command. *)
Definition user_text (message : string) : Prop :=
  PyStr.strip message = message
  /\ message <> EmptyString
  /\ PyParser.mem (PyStr.lower message) commands = false.

End MainSpec.

(* ================================================================== *)
(** * Properties *)

Module StringFacts.
Lemma append_assoc (a b c : string) : (a ++ b) ++ c = a ++ (b ++ c).
Proof. induction a; simpl; congruence. Qed.

Lemma append_nil_r (a : string) : a ++ "" = a.
Proof. induction a; simpl; congruence. Qed.

Lemma span_spec cls s :
  s = fst (PyParser.span cls s) ++ snd (PyParser.span cls s)
  /\ RegexSpec.all_in cls (fst (PyParser.span cls s)) = true
  /\ PyParser.starts_with cls (snd (PyParser.span cls s)) = false.
Proof.
  induction s as [| c s IH]; simpl; [auto |].
  destruct (cls c) eqn:E.
  - destruct (PyParser.span cls s) as [a b]; simpl in *.
    destruct IH as [H1 [H2 H3]]. rewrite E, H2. repeat split; congruence.
  - simpl. rewrite E. auto.
Qed.
End StringFacts.

Module RegexFacts.
Import Regex RegexSpec StringFacts.

Lemma capture_sound cls s g :
  capture cls s = Some g ->
  exists after, s = g ++ after /\ g <> "" /\ all_in cls g = true
                /\ PyParser.starts_with cls after = false.
Proof.
  unfold capture. intro H.
  destruct (span_spec cls s) as [H1 [H2 H3]].
  destruct (fst (PyParser.span cls s)) eqn:E; [discriminate |].
  inversion H; subst. eexists; repeat split; eauto. discriminate.
Qed.

Lemma capture_complete cls c rest :
  cls c = true -> capture cls (String c rest) <> None.
Proof.
  intro H. unfold capture. simpl. rewrite H.
  destruct (PyParser.span cls rest). simpl. discriminate.
Qed.

Lemma plus_sound cls k s g :
  plus cls k s = Some g ->
  exists w t, s = w ++ t /\ w <> "" /\ all_in cls w = true /\ k t = Some g.
Proof.
  induction s as [| c s IH]; simpl; [discriminate |].
  destruct (cls c) eqn:E; [| discriminate].
  destruct (plus cls k s) as [g' |] eqn:P.
  - intro H; inversion H; subst.
    destruct (IH eq_refl) as [w [t [H1 [H2 [H3 H4]]]]].
    exists (String c w), t. simpl. rewrite E, H3. repeat split; try congruence.
  - intro H. exists (String c ""), s. simpl. rewrite E.
    repeat split; try congruence.
Qed.

Lemma plus_complete cls k w t :
  w <> "" -> all_in cls w = true -> k t <> None -> plus cls k (w ++ t) <> None.
Proof.
  induction w as [| c w IH]; [congruence |].
  intros _ Hall Hk. simpl in *. apply andb_true_iff in Hall.
  destruct Hall as [Hc Hw]. rewrite Hc.
  destruct w as [| c' w'].
  - simpl. destruct (plus cls k t); [discriminate | exact Hk].
  - assert (Hne : plus cls k (String c' w' ++ t) <> None)
      by (apply IH; [discriminate | exact Hw | exact Hk]).
    destruct (plus cls k (String c' w' ++ t)); [discriminate | congruence].
Qed.

Lemma match_here_sound items cls s g :
  match_here items cls s = Some g ->
  exists matched after,
    s = matched ++ g ++ after /\ consumes items matched /\ g <> ""
    /\ all_in cls g = true /\ PyParser.starts_with cls after = false.
Proof.
  revert s. induction items as [| [c | ws] items IH]; intros s H; simpl in H.
  - destruct (@capture_sound _ _ _ H) as [after [H1 [H2 [H3 H4]]]].
    exists "", after. simpl. repeat split; auto. constructor.
  - destruct s as [| c' s']; [discriminate |].
    destruct (Ascii.eqb c c') eqn:E; [| discriminate].
    apply Ascii.eqb_eq in E. subst c'.
    destruct (IH _ H) as [m [after [H1 [H2 [H3 [H4 H5]]]]]].
    exists (String c m), after. simpl. repeat split; auto; [congruence |].
    constructor; assumption.
  - destruct (@plus_sound _ _ _ _ H) as [w [t [H1 [H2 [H3 H4]]]]].
    destruct (IH _ H4) as [m [after [H5 [H6 [H7 [H8 H9]]]]]].
    exists (w ++ m), after. rewrite append_assoc. repeat split; auto; [congruence |].
    constructor; assumption.
Qed.

Lemma match_here_complete items cls matched c rest :
  consumes items matched -> cls c = true ->
  match_here items cls (matched ++ String c rest) <> None.
Proof.
  intros H Hc. induction H; simpl.
  - apply capture_complete; assumption.
  - rewrite Ascii.eqb_refl. assumption.
  - rewrite append_assoc. apply plus_complete; assumption.
Qed.

(** [re.search] finds the pattern exactly when it occurs. *)
Lemma search_sound p s g : search p s = Some g -> occurs p s g.
Proof.
  induction s as [| c s IH]; simpl.
  - destruct (match_here (head p) (group_class p) "") as [g' |] eqn:M;
      [| discriminate].
    intro H; inversion H; subst.
    destruct (@match_here_sound _ _ _ _ M) as [m [after [H1 [H2 [H3 [H4 H5]]]]]].
    exists "", m, after. auto.
  - destruct (match_here (head p) (group_class p) (String c s)) as [g' |] eqn:M.
    + intro H; inversion H; subst.
      destruct (@match_here_sound _ _ _ _ M) as [m [after [H1 [H2 [H3 [H4 H5]]]]]].
      exists "", m, after. auto.
    + intro H. destruct (IH H) as [b [m [after [H1 H2]]]].
      exists (String c b), m, after. simpl. split; [congruence | exact H2].
Qed.

Lemma search_here p s g :
  match_here (head p) (group_class p) s = Some g -> search p s = Some g.
Proof. intro H. destruct s; simpl; rewrite H; reflexivity. Qed.

Lemma search_complete p s : found p s -> search p s <> None.
Proof.
  intros [g [before [m [after [H1 [H2 [H3 [H4 H5]]]]]]]]. subst s.
  destruct g as [| c g']; [congruence |].
  simpl in H4. apply andb_true_iff in H4. destruct H4 as [Hc _].
  induction before as [| b before IH].
  - pose proof (@match_here_complete _ _ _ _ (g' ++ after) H2 Hc) as M.
    simpl.
    destruct (match_here (head p) (group_class p) (m ++ String c (g' ++ after)))
      as [g0 |] eqn:E; [| congruence].
    rewrite (@search_here _ _ _ E). discriminate.
  - simpl.
    match goal with
    | |- context [match ?x with Some _ => _ | None => _ end] => destruct x
    end; [discriminate | exact IH].
Qed.

Lemma search_none p s : search p s = None <-> ~ found p s.
Proof.
  split.
  - intros H F. apply (@search_complete _ _ F). exact H.
  - intro NF. destruct (search p s) as [g |] eqn:E; [| reflexivity].
    exfalso. apply NF. exists g. apply search_sound. exact E.
Qed.
End RegexFacts.

Module CalculatorFacts.
Section CalculatorFacts.
Context {float complex : Type} {RT : PyRuntime float complex}.
Variable ast_parse : string -> outcome (ast.expr float complex).

Import Calculator Spec.
Local Arguments dict_get : simpl never.
Local Arguments OPERATORS : simpl never.

Lemma bind_trace A B (m : eval (float := float) (complex := complex) A)
  (k : A -> eval (float := float) (complex := complex) B) :
  fst (bind m k) =
  match snd m with
  | Ok a => (fst m ++ fst (k a))%list
  | Raise _ => fst m
  end.
Proof.
  destruct m as [t [a | e]]; simpl; [destruct (k a); reflexivity | reflexivity].
Qed.

Lemma bind_outcome A B (m : eval (float := float) (complex := complex) A)
  (k : A -> eval (float := float) (complex := complex) B) :
  snd (bind m k) =
  match snd m with
  | Ok a => snd (k a)
  | Raise e => Raise e
  end.
Proof.
  destruct m as [t [a | e]]; simpl; [destruct (k a); reflexivity | reflexivity].
Qed.

Lemma dict_get_binary o :
  dict_get OPERATORS (ast.binary o) =
  match o with
  | ast.Add => Some operator_add
  | ast.Sub => Some operator_sub
  | ast.Mult => Some operator_mul
  | ast.Div => Some operator_truediv
  | ast.Pow => Some operator_pow
  | _ => None
  end.
Proof. destruct o; reflexivity. Qed.

Lemma dict_get_unary u :
  dict_get OPERATORS (ast.unary u) =
  match u with ast.USub => Some operator_neg | _ => None end.
Proof. destruct u; reflexivity. Qed.

Lemma dict_get_In c f :
  dict_get OPERATORS c = Some f -> In (c, f) OPERATORS.
Proof.
  destruct c as [o | u];
    [rewrite dict_get_binary; destruct o | rewrite dict_get_unary; destruct u];
    intro H; inversion H; subst; simpl; tauto.
Qed.

(** Only whitelisted operations are applied. *)
Lemma safe_eval_applies_whitelisted (e : ast.expr float complex) :
  Forall whitelisted_application (fst (_safe_eval e)).
Proof.
  induction e; simpl; try (constructor).
  - rewrite bind_trace.
    destruct (snd (_safe_eval e1)) as [left |] eqn:E1; [| assumption].
    apply Forall_app; split; [assumption |].
    rewrite bind_trace.
    destruct (snd (_safe_eval e2)) as [right |] eqn:E2; [| assumption].
    apply Forall_app; split; [assumption |].
    destruct (dict_get OPERATORS (ast.binary op)) eqn:D; simpl; [| constructor].
    constructor; [| constructor]. apply dict_get_In; assumption.
  - rewrite bind_trace.
    destruct (snd (_safe_eval e)) as [operand |] eqn:E1; [| assumption].
    apply Forall_app; split; [assumption |].
    destruct (dict_get OPERATORS (ast.unary op)) eqn:D; simpl; [| constructor].
    constructor; [| constructor]. apply dict_get_In; assumption.
Qed.

(** A tree with a node outside the permitted set is never evaluated to
    a value. *)
Lemma safe_eval_rejects (e : ast.expr float complex) :
  whitelisted e = false -> exists x, snd (_safe_eval e) = Raise x.
Proof.
  induction e; simpl; intro W; try discriminate; try (eexists; reflexivity).
  - rewrite bind_outcome.
    destruct (snd (_safe_eval e1)) as [left |] eqn:E1; [| eexists; reflexivity].
    rewrite bind_outcome.
    destruct (snd (_safe_eval e2)) as [right |] eqn:E2; [| eexists; reflexivity].
    rewrite dict_get_binary.
    destruct (whitelisted e1) eqn:W1.
    + destruct (allowed_binary op) eqn:A.
      * simpl in W. destruct (IHe2 W) as [x Hx]. congruence.
      * destruct op; try discriminate; simpl; eexists; reflexivity.
    + destruct (IHe1 eq_refl) as [x Hx]. congruence.
  - rewrite bind_outcome.
    destruct (snd (_safe_eval e)) as [operand |] eqn:E1; [| eexists; reflexivity].
    rewrite dict_get_unary.
    destruct op; simpl in *; try (eexists; reflexivity).
    destruct (IHe W) as [x Hx]. congruence.
Qed.

(** An application that raises ends the evaluation with its exception. *)
Lemma safe_eval_propagates (e : ast.expr float complex) a x :
  In a (fst (_safe_eval e)) -> applied_outcome a = Raise x ->
  snd (_safe_eval e) = Raise x.
Proof.
  revert a x. induction e; simpl; intros a x HIn Hx; try contradiction.
  - rewrite bind_trace in HIn. rewrite bind_outcome.
    destruct (snd (_safe_eval e1)) as [left |] eqn:E1.
    + apply in_app_or in HIn. destruct HIn as [HIn | HIn].
      * specialize (IHe1 _ _ HIn Hx). congruence.
      * rewrite bind_trace in HIn. rewrite bind_outcome.
        destruct (snd (_safe_eval e2)) as [right |] eqn:E2.
        -- apply in_app_or in HIn. destruct HIn as [HIn | HIn].
           ++ specialize (IHe2 _ _ HIn Hx). congruence.
           ++ destruct (dict_get OPERATORS (ast.binary op)) eqn:D; simpl in *;
                [| contradiction].
              destruct HIn as [<- | []]. exact Hx.
        -- specialize (IHe2 _ _ HIn Hx). congruence.
    + specialize (IHe1 _ _ HIn Hx). congruence.
  - rewrite bind_trace in HIn. rewrite bind_outcome.
    destruct (snd (_safe_eval e)) as [operand |] eqn:E1.
    + apply in_app_or in HIn. destruct HIn as [HIn | HIn].
      * specialize (IHe _ _ HIn Hx). congruence.
      * destruct (dict_get OPERATORS (ast.unary op)) eqn:D; simpl in *;
          [| contradiction].
        destruct HIn as [<- | []]. exact Hx.
    + specialize (IHe _ _ HIn Hx). congruence.
Qed.

(** A [ZeroDivisionError] comes from an application. *)
Lemma safe_eval_zero_division (e : ast.expr float complex) m :
  snd (_safe_eval e) = Raise (ZeroDivisionError m) ->
  exists a, In a (fst (_safe_eval e))
            /\ applied_outcome a = Raise (ZeroDivisionError m).
Proof.
  induction e; simpl; intro H; try discriminate.
  - rewrite bind_outcome in H. rewrite bind_trace.
    destruct (snd (_safe_eval e1)) as [left |] eqn:E1.
    + rewrite bind_outcome in H. rewrite bind_trace.
      destruct (snd (_safe_eval e2)) as [right |] eqn:E2.
      * destruct (dict_get OPERATORS (ast.binary op)) eqn:D; simpl in *;
          [| discriminate].
        eexists; split;
          [apply in_or_app; right; apply in_or_app; right; left; reflexivity |].
        exact H.
      * destruct (IHe2 H) as [a [Ha Hx]]. exists a; split; [| exact Hx].
        apply in_or_app; right; exact Ha.
    + destruct (IHe1 H) as [a [Ha Hx]]. exists a; split; assumption.
  - rewrite bind_outcome in H. rewrite bind_trace.
    destruct (snd (_safe_eval e)) as [operand |] eqn:E1.
    + destruct (dict_get OPERATORS (ast.unary op)) eqn:D; simpl in *;
        [| discriminate].
      eexists; split; [apply in_or_app; right; left; reflexivity | exact H].
    + destruct (IHe H) as [a [Ha Hx]]. exists a; split; assumption.
Qed.

(** The quotient by cases: two [int]s, or operands to convert. *)
Lemma truediv_of_ints a b :
  call2 operator_truediv (PyInt (float := float) (complex := complex) a)
    (PyInt b)
  = if (b =? 0)%Z
    then Raise (ZeroDivisionError "division by zero")
    else lift_inexact (inexact_binop operator_truediv (PyInt a) (PyInt b)).
Proof. reflexivity. Qed.

Lemma truediv_converts (l r : number float complex) :
  both_int l r = false ->
  call2 operator_truediv l r
  = match converted l with
    | Raise e => Raise e
    | Ok _ =>
        match converted r with
        | Raise e => Raise e
        | Ok _ =>
            if is_zero r
            then Raise (ZeroDivisionError (zero_division_message l r))
            else lift_inexact (inexact_binop operator_truediv l r)
        end
    end.
Proof. destruct l, r; intro H; try discriminate H; reflexivity. Qed.

Lemma both_int_cases (l r : number float complex) :
  both_int l r = true -> exists a b, l = PyInt a /\ r = PyInt b.
Proof.
  destruct l, r; intro H; try discriminate H. eexists; eexists; split; reflexivity.
Qed.

Lemma truediv_by_zero (l r : number float complex) :
  is_zero r = true -> operands_convert l r ->
  call2 operator_truediv l r
  = Raise (ZeroDivisionError (zero_division_message l r)).
Proof.
  intros Hz [B | [Cl Cr]].
  - destruct (@both_int_cases _ _ B) as [a [b [-> ->]]].
    rewrite truediv_of_ints. simpl in Hz. rewrite Hz. reflexivity.
  - destruct (both_int l r) eqn:B.
    + destruct (@both_int_cases _ _ B) as [a [b [-> ->]]].
      rewrite truediv_of_ints. simpl in Hz. rewrite Hz. reflexivity.
    + rewrite (@truediv_converts _ _ B), Cl, Cr, Hz. reflexivity.
Qed.

Lemma divides_by_zero_raises a :
  divides_by_zero a -> exists m, applied_outcome a = Raise (ZeroDivisionError m).
Proof.
  intros [Hf [l [r [Hargs [Hz Hc]]]]]. unfold applied_outcome.
  rewrite Hargs, Hf, (@truediv_by_zero _ _ Hz Hc). eexists; reflexivity.
Qed.



Lemma calculate_on_tree s tree :
  ast_parse (PyStr.strip s) = Ok tree ->
  calculate_body ast_parse s = _safe_eval tree.
Proof. intro H. unfold calculate_body. rewrite H. reflexivity. Qed.

Lemma calculate_on_exception s x :
  snd (calculate_body ast_parse s) = Raise x ->
  is_zero_division x = false ->
  calculate ast_parse s = invalid_expression_failure (str_exception x).
Proof.
  intros H Hx. unfold calculate. rewrite H.
  destruct x; try discriminate; reflexivity.
Qed.

Lemma calculate_on_zero_division s m :
  snd (calculate_body ast_parse s) = Raise (ZeroDivisionError m) ->
  calculate ast_parse s = division_by_zero_failure.
Proof. intro H. unfold calculate. rewrite H. reflexivity. Qed.

(** C1 (amended).  Whatever the input string, every operation
    [calculate] applies is one stored in [OPERATORS] for the class of
    its operator node.  A string that does not parse is answered by an
    "Invalid expression" failure.  A string whose tree holds a node
    outside numeric literals, binary [+ - * / **] and unary negation is
    answered by a failure without a value: an "Invalid expression"
    failure, or the division-by-zero failure when a whitelisted
    operation evaluated before the offending node raised
    [ZeroDivisionError]. *)
Theorem only_whitelisted_operations_run (s : string) :
  Forall whitelisted_application (calculate_trace ast_parse s)
  /\ (forall x,
        ast_parse (PyStr.strip s) = Raise x -> is_zero_division x = false ->
        calculate ast_parse s = invalid_expression_failure (str_exception x))
  /\ (forall tree,
        ast_parse (PyStr.strip s) = Ok tree -> whitelisted tree = false ->
        (exists detail,
            calculate ast_parse s = invalid_expression_failure detail)
        \/ (calculate ast_parse s = division_by_zero_failure
            /\ exists a m,
                 In a (calculate_trace ast_parse s)
                 /\ whitelisted_application a
                 /\ applied_outcome a = Raise (ZeroDivisionError m))).
Proof.
  split; [| split].
  - unfold calculate_trace, calculate_body.
    destruct (ast_parse (PyStr.strip s)) as [tree | x]; simpl.
    + apply safe_eval_applies_whitelisted.
    + constructor.
  - intros x Hx Hz. apply calculate_on_exception; [| exact Hz].
    unfold calculate_body. rewrite Hx. reflexivity.
  - intros tree Ht Hw.
    destruct (safe_eval_rejects tree Hw) as [x Hx].
    pose proof (calculate_on_tree s Ht) as Hb.
    destruct (is_zero_division x) eqn:Hz.
    + right. destruct x; try discriminate.
      split; [apply calculate_on_zero_division with (m := msg); congruence |].
      destruct (safe_eval_zero_division tree Hx) as [a [Ha Hout]].
      exists a, msg. unfold calculate_trace. rewrite Hb.
      repeat split; try assumption.
      pose proof (safe_eval_applies_whitelisted tree) as F.
      rewrite Forall_forall in F. apply F; assumption.
    + left. exists (str_exception x). apply calculate_on_exception;
        [congruence | exact Hz].
Qed.

Lemma truediv_is_inexact (l r : number float complex) :
  is_zero r = false -> operands_convert l r ->
  call2 operator_truediv l r = lift_inexact (inexact_binop operator_truediv l r).
Proof.
  intros Hz [B | [Cl Cr]].
  - destruct (@both_int_cases _ _ B) as [a [b [-> ->]]].
    rewrite truediv_of_ints. simpl in Hz. rewrite Hz. reflexivity.
  - destruct (both_int l r) eqn:B.
    + destruct (@both_int_cases _ _ B) as [a [b [-> ->]]].
      rewrite truediv_of_ints. simpl in Hz. rewrite Hz. reflexivity.
    + rewrite (@truediv_converts _ _ B), Cl, Cr, Hz. reflexivity.
Qed.

Lemma lift_inexact_floating (x : outcome (float + complex)) v :
  lift_inexact x = Ok v -> is_floating v = true.
Proof.
  destruct x as [[f | c] | e]; simpl; intro H; inversion H; reflexivity.
Qed.

(** A quotient that returns has returned a floating-point number. *)
Lemma truediv_floating (l r v : number float complex) :
  call2 operator_truediv l r = Ok v -> is_floating v = true.
Proof.
  destruct (both_int l r) eqn:B.
  - destruct (@both_int_cases _ _ B) as [a [b [-> ->]]].
    rewrite truediv_of_ints. destruct (b =? 0)%Z; [discriminate |].
    apply lift_inexact_floating.
  - rewrite (@truediv_converts _ _ B).
    destruct (converted l); [| discriminate].
    destruct (converted r); [| discriminate].
    destruct (is_zero r); [discriminate |].
    apply lift_inexact_floating.
Qed.

(** C3 (amended).  [calculate] always returns one of its three
    dictionaries.  When the evaluation applies a quotient whose
    operands reach the division and whose divisor is zero, or raises
    [ZeroDivisionError] in any other way, the result is the
    division-by-zero failure: no success, no value, the
    division-by-zero message.  Any other exception of an operation is
    answered by the invalid-expression failure with its text.  A
    quotient of two [int]s looks at the divisor first.  Any other
    quotient converts its operands first, the left one and then the
    right one: when a conversion raises, the quotient raises that
    exception, whether the divisor is zero or not.  A quotient whose
    operands reach the division and whose divisor is not zero is the
    interpreter's floating-point quotient, for integer operands too;
    a quotient never returns an integer. *)
Theorem division_by_zero_is_a_failure (s : string) :
  ((exists value, calculate ast_parse s = succeeds_with value)
   \/ calculate ast_parse s = division_by_zero_failure
   \/ exists detail, calculate ast_parse s = invalid_expression_failure detail)
  /\ (forall a,
        In a (calculate_trace ast_parse s) -> divides_by_zero a ->
        calculate ast_parse s = division_by_zero_failure)
  /\ (forall m,
        snd (calculate_body ast_parse s) = Raise (ZeroDivisionError m) ->
        calculate ast_parse s = division_by_zero_failure)
  /\ (forall a x,
        In a (calculate_trace ast_parse s) ->
        applied_outcome a = Raise x -> is_zero_division x = false ->
        calculate ast_parse s = invalid_expression_failure (str_exception x))
  /\ (forall l r : number float complex,
        (is_zero r = true -> operands_convert l r ->
         call2 operator_truediv l r
         = Raise (ZeroDivisionError (zero_division_message l r)))
        /\ (forall x,
              both_int l r = false -> converted l = Raise x ->
              call2 operator_truediv l r = Raise x)
        /\ (forall x,
              both_int l r = false ->
              converted l = Ok tt -> converted r = Raise x ->
              call2 operator_truediv l r = Raise x)
        /\ (is_zero r = false -> operands_convert l r ->
            call2 operator_truediv l r
            = lift_inexact (inexact_binop operator_truediv l r))
        /\ forall v,
             call2 operator_truediv l r = Ok v -> is_floating v = true).
Proof.
  split; [| split; [| split; [| split]]].
  - unfold calculate.
    destruct (snd (calculate_body ast_parse s)) as [v | x] eqn:E.
    + left. exists v. reflexivity.
    + right. destruct (is_zero_division x) eqn:Hz.
      * left. destruct x; try discriminate. reflexivity.
      * right. exists (str_exception x).
        destruct x; try discriminate; reflexivity.
  - intros a Ha Hd.
    destruct (divides_by_zero_raises Hd) as [m Hm].
    apply calculate_on_zero_division with (m := m).
    unfold calculate_trace, calculate_body in *.
    destruct (ast_parse (PyStr.strip s)) as [tree | x]; [| contradiction].
    apply safe_eval_propagates with (a := a); assumption.
  - intros m Hm. apply calculate_on_zero_division with (m := m). exact Hm.
  - intros a x Ha Hx Hz. apply calculate_on_exception; [| exact Hz].
    unfold calculate_trace, calculate_body in *.
    destruct (ast_parse (PyStr.strip s)) as [tree | y]; [| contradiction].
    apply safe_eval_propagates with (a := a); assumption.
  - intros l r. split; [apply truediv_by_zero |].
    split; [intros x B C; rewrite (@truediv_converts _ _ B), C; reflexivity |].
    split; [intros x B Cl Cr;
            rewrite (@truediv_converts _ _ B), Cl, Cr; reflexivity |].
    split; [apply truediv_is_inexact | apply truediv_floating].
Qed.


End CalculatorFacts.
End CalculatorFacts.

Module MemoryFacts.
Import Memory.

Lemma lastn_all A (n : nat) (l : list A) :
  (List.length l <= n)%nat -> lastn n l = l.
Proof.
  intro H. unfold lastn. replace (List.length l - n)%nat with 0%nat by lia.
  reflexivity.
Qed.

Lemma lastn_length A (n : nat) (l : list A) :
  List.length (lastn n l) = Nat.min n (List.length l).
Proof. unfold lastn. rewrite length_skipn. lia. Qed.

(** Dropping the oldest elements early or late gives the same window. *)
Lemma lastn_app_lastn A (n : nat) (l : list A) (x : A) :
  (0 < n)%nat -> lastn n (lastn n l ++ [x]) = lastn n (l ++ [x]).
Proof.
  intro Hn. destruct (Nat.le_gt_cases (List.length l) n) as [H | H].
  - rewrite (lastn_all l H). reflexivity.
  - unfold lastn at 1 3.
    rewrite !length_app, lastn_length. simpl.
    rewrite !skipn_app.
    unfold lastn. rewrite skipn_skipn, !length_skipn.
    replace (Nat.min n (List.length l) + 1 - n
             + (List.length l - n))%nat
      with (List.length l + 1 - n)%nat by lia.
    replace (Nat.min n (List.length l) + 1 - n
             - (List.length l - (List.length l - n)))%nat
      with (List.length l + 1 - n - List.length l)%nat by lia.
    reflexivity.
Qed.

Lemma lastn_app_lastn_two A (n : nat) (l : list A) (x y : A) :
  (0 < n)%nat -> lastn n (lastn n (l ++ [x]) ++ [y]) = lastn n (l ++ [x; y]).
Proof.
  intro Hn. rewrite lastn_app_lastn by exact Hn.
  rewrite <- app_assoc. reflexivity.
Qed.

Lemma slice_from_lastn A (m : Z) (l : list A) :
  (0 < m)%Z -> (Z.of_nat (List.length l) > m)%Z ->
  slice_from (- m) l = lastn (Z.to_nat m) l.
Proof.
  intros Hm Hl. unfold slice_from, lastn.
  destruct (- m <? 0)%Z eqn:E; [| apply Z.ltb_ge in E; lia].
  f_equal. lia.
Qed.

(** With room for at least one turn, [add_message] keeps the newest
    [2 * max_turns] messages. *)
Lemma add_message_history now role content self :
  (0 < max_turns self)%Z ->
  conversation_history (add_message now role content self) =
  lastn (Z.to_nat (max_turns self * 2))
    (conversation_history self
     ++ [{| Memory.role := role; content := content; timestamp := now |}]).
Proof.
  intro Hm. unfold add_message.
  destruct (Z.of_nat _ >? max_turns self * 2)%Z eqn:E; simpl.
  - apply slice_from_lastn; [lia |]. apply Z.gtb_lt in E. lia.
  - symmetry. apply lastn_all.
    assert (H : (Z.of_nat (List.length (conversation_history self
              ++ [{| Memory.role := role; content := content; timestamp := now |}]))
            <= max_turns self * 2)%Z).
    { destruct (Z.gtb_spec (Z.of_nat (List.length (conversation_history self
              ++ [{| Memory.role := role; content := content; timestamp := now |}])))
                (max_turns self * 2)%Z); [discriminate | assumption]. }
    lia.
Qed.

Lemma add_message_max_turns now role content self :
  max_turns (add_message now role content self) = max_turns self.
Proof. unfold add_message. destruct (_ >? _)%Z; reflexivity. Qed.

(** Without a negative capacity the message just added is the last
    one. *)
Lemma add_message_last now role content self :
  (0 <= max_turns self)%Z ->
  exists older,
    conversation_history (add_message now role content self) =
    (older ++ [{| Memory.role := role; content := content; timestamp := now |}])%list.
Proof.
  intro Hm. unfold add_message.
  destruct (Z.of_nat _ >? max_turns self * 2)%Z eqn:E; simpl.
  - unfold slice_from. apply Z.gtb_lt in E. rewrite length_app in *. simpl in *.
    destruct (- (max_turns self * 2) <? 0)%Z eqn:F.
    + rewrite skipn_app.
      replace (Z.to_nat _ - List.length (conversation_history self))%nat
        with 0%nat.
      * simpl. eexists; reflexivity.
      * apply Z.ltb_lt in F. lia.
    + apply Z.ltb_ge in F.
      replace (Z.to_nat _) with 0%nat by lia. simpl. eexists; reflexivity.
  - eexists; reflexivity.
Qed.

Lemma lastn_app_short A (n : nat) (l tail : list A) :
  (List.length tail <= n)%nat ->
  exists older, lastn n (l ++ tail) = (older ++ tail)%list.
Proof.
  intro H. unfold lastn. rewrite length_app, skipn_app.
  replace (List.length l + List.length tail - n - List.length l)%nat
    with 0%nat by lia.
  simpl. eexists; reflexivity.
Qed.

(** A memory without room for a turn never drops a message. *)
Lemma add_message_zero_capacity now role content self :
  max_turns self = 0%Z ->
  conversation_history (add_message now role content self)
  = (conversation_history self
     ++ [{| Memory.role := role; content := content; timestamp := now |}])%list.
Proof.
  intro H. unfold add_message. rewrite H. simpl.
  destruct (_ >? 0)%Z; [| reflexivity].
  simpl. unfold slice_from. simpl. rewrite Z.min_l by lia. reflexivity.
Qed.

(** Without a negative capacity the two messages just added are the
    last two. *)
Lemma add_two_messages_last t1 r1 c1 t2 r2 c2 self :
  (0 <= max_turns self)%Z ->
  exists older,
    conversation_history
      (add_message t2 r2 c2 (add_message t1 r1 c1 self))
    = (older
       ++ [ {| Memory.role := r1; content := c1; timestamp := t1 |};
            {| Memory.role := r2; content := c2; timestamp := t2 |} ])%list.
Proof.
  intro H. destruct (Z.eq_dec (max_turns self) 0) as [E | N].
  - rewrite add_message_zero_capacity
      by (rewrite add_message_max_turns; exact E).
    rewrite add_message_zero_capacity by exact E.
    rewrite <- app_assoc. eexists; reflexivity.
  - assert (Hm : (0 < max_turns self)%Z) by lia.
    rewrite add_message_history by (rewrite add_message_max_turns; exact Hm).
    rewrite add_message_max_turns.
    rewrite add_message_history by exact Hm.
    rewrite lastn_app_lastn_two by lia.
    apply lastn_app_short. simpl. lia.
Qed.
End MemoryFacts.

Module CalculatorCases.
Import Calculator Spec.

(** C1 as stated fails on ["1/0 + x"]: the tree holds an identifier,
    and the failure is the division-by-zero one, not an "invalid
    expression" one, because [1/0] is evaluated before the name is
    reached. *)
Lemma name_after_division_by_zero :
  Binary64.parse (PyStr.strip "1/0 + x")
  = Ok (ast.BinOp
          (ast.BinOp (ast.Num (PyInt 1)) ast.Div (ast.Num (PyInt 0)))
          ast.Add (ast.Name "x"))
  /\ whitelisted
       (ast.BinOp
          (ast.BinOp (ast.Num (PyInt 1)) ast.Div (ast.Num (PyInt 0)))
          ast.Add (ast.Name (float := Binary64.float)
                     (complex := Binary64.complex) "x")) = false
  /\ calculate Binary64.parse "1/0 + x" = division_by_zero_failure
  /\ ~ (exists detail,
           calculate Binary64.parse "1/0 + x"
           = invalid_expression_failure detail).
Proof.
  split; [vm_compute; reflexivity |].
  split; [reflexivity |].
  split; [vm_compute; reflexivity |].
  intros [detail H].
  assert (E : calculate Binary64.parse "1/0 + x" = division_by_zero_failure)
    by (vm_compute; reflexivity).
  rewrite E in H. discriminate H.
Qed.

(** [only_whitelisted_operations_run] at ["2 +"], which does not parse,
    and at ["abs(1)"], a call. *)
Lemma call_is_rejected :
  (Binary64.parse (PyStr.strip "2 +")
   = Raise (SyntaxError "invalid syntax (<unknown>, line 1)")
   /\ calculate Binary64.parse "2 +"
      = invalid_expression_failure "invalid syntax (<unknown>, line 1)")
  /\ (Binary64.parse (PyStr.strip "abs(1)")
      = Ok (ast.Call (ast.Name "abs") [ast.Num (PyInt 1)])
      /\ ((exists detail,
             calculate Binary64.parse "abs(1)"
             = invalid_expression_failure detail)
          \/ (calculate Binary64.parse "abs(1)" = division_by_zero_failure
              /\ exists a m,
                   In a (calculate_trace Binary64.parse "abs(1)")
                   /\ whitelisted_application a
                   /\ applied_outcome a = Raise (ZeroDivisionError m)))).
Proof.
  split.
  - split; [vm_compute; reflexivity |].
    apply (proj1 (proj2
             (CalculatorFacts.only_whitelisted_operations_run
                Binary64.parse "2 +"))
             (SyntaxError "invalid syntax (<unknown>, line 1)"));
      [vm_compute; reflexivity | reflexivity].
  - split; [vm_compute; reflexivity |].
    apply (proj2 (proj2
             (CalculatorFacts.only_whitelisted_operations_run
                Binary64.parse "abs(1)"))
             (ast.Call (ast.Name "abs") [ast.Num (PyInt 1)]));
      [vm_compute; reflexivity | reflexivity].
Defined.

(** C3 as stated fails on a quotient of non-zero integers that is too
    large for a float: a one followed by 400 zeros, divided by 3, is
    answered by a failure and not by a floating-point value.  It fails
    on a zero divisor too: the same integer divided by [0.0] is
    converted to a float first, and the failure is an "Invalid
    expression" one, not the division-by-zero one. *)
Lemma huge_quotient_is_a_failure :
  (is_zero (PyInt (float := Binary64.float) (complex := Binary64.complex) 3)
   = false
   /\ call2 operator_truediv
        (PyInt (float := Binary64.float) (complex := Binary64.complex)
           (10 ^ 400))
        (PyInt 3)
      = Raise (OverflowError "integer division result too large for a float")
   /\ Binary64.parse (PyStr.strip (Fixtures.power_of_ten 400 ++ " / 3"))
      = Ok (ast.BinOp (ast.Num (PyInt (10 ^ 400))) ast.Div (ast.Num (PyInt 3)))
   /\ calculate Binary64.parse (Fixtures.power_of_ten 400 ++ " / 3")
      = invalid_expression_failure
          "integer division result too large for a float")
  /\ (is_zero (PyFloat (float := Binary64.float) (complex := Binary64.complex)
                 0%float) = true
      /\ call2 operator_truediv
           (PyInt (float := Binary64.float) (complex := Binary64.complex)
              (10 ^ 400))
           (PyFloat 0%float)
         = Raise (OverflowError "int too large to convert to float")
      /\ Binary64.parse (PyStr.strip (Fixtures.power_of_ten 400 ++ " / 0.0"))
         = Ok (ast.BinOp (ast.Num (PyInt (10 ^ 400))) ast.Div
                 (ast.Num (PyFloat 0%float)))
      /\ calculate Binary64.parse (Fixtures.power_of_ten 400 ++ " / 0.0")
         = invalid_expression_failure "int too large to convert to float"
      /\ calculate Binary64.parse (Fixtures.power_of_ten 400 ++ " / 0.0")
         <> division_by_zero_failure).
Proof.
  split; [repeat split; vm_compute; reflexivity |].
  split; [vm_compute; reflexivity |].
  split; [vm_compute; reflexivity |].
  split; [vm_compute; reflexivity |].
  split; [vm_compute; reflexivity |].
  vm_compute. discriminate.
Qed.

(** [division_by_zero_is_a_failure] at ["10 / 0"] and at [100 / 4]. *)
Lemma ten_by_zero :
  (Binary64.parse (PyStr.strip "10 / 0")
   = Ok (ast.BinOp (ast.Num (PyInt 10)) ast.Div (ast.Num (PyInt 0)))
   /\ In (Applied (ast.binary ast.Div) operator_truediv [PyInt 10; PyInt 0])
        (calculate_trace Binary64.parse "10 / 0")
   /\ calculate Binary64.parse "10 / 0" = division_by_zero_failure)
  /\ (is_zero (PyInt (float := Binary64.float)
                 (complex := Binary64.complex) 4) = false
      /\ call2 operator_truediv
           (PyInt (float := Binary64.float) (complex := Binary64.complex) 100)
           (PyInt 4)
         = Ok (PyFloat 25%float)
      /\ is_floating
           (PyFloat (float := Binary64.float) (complex := Binary64.complex)
              25%float) = true).
Proof.
  pose proof (CalculatorFacts.division_by_zero_is_a_failure
                Binary64.parse "10 / 0") as [_ [H [_ [_ Q]]]].
  split.
  - assert (P : Binary64.parse (PyStr.strip "10 / 0")
                = Ok (ast.BinOp (ast.Num (PyInt 10)) ast.Div (ast.Num (PyInt 0))))
      by (vm_compute; reflexivity).
    assert (I : In (Applied (ast.binary ast.Div) operator_truediv
                      [PyInt 10; PyInt 0])
                   (calculate_trace Binary64.parse "10 / 0"))
      by (vm_compute; left; reflexivity).
    split; [exact P | split; [exact I |]].
    apply (H _ I). split; [reflexivity |].
    exists (PyInt 10), (PyInt 0).
    split; [reflexivity | split; [reflexivity | left; reflexivity]].
  - assert (Z : is_zero (PyInt (float := Binary64.float)
                           (complex := Binary64.complex) 4) = false)
      by reflexivity.
    assert (C : call2 operator_truediv
                  (PyInt (float := Binary64.float)
                     (complex := Binary64.complex) 100) (PyInt 4)
                = Ok (PyFloat 25%float))
      by (vm_compute; reflexivity).
    split; [exact Z | split; [exact C |]].
    exact (proj2 (proj2 (proj2 (proj2 (Q (PyInt 100) (PyInt 4))))) _ C).
Defined.




End CalculatorCases.

Module ToolsFacts.
Import Regex RegexSpec.

Lemma first_match_sound ps text g :
  Tools.first_match ps text = Some g ->
  exists before p after,
    ps = (before ++ p :: after)%list
    /\ (forall q, In q before -> ~ found q text)
    /\ occurs p text g.
Proof.
  induction ps as [| p ps IH]; simpl; [discriminate |].
  destruct (search p text) as [g' |] eqn:E.
  - intro H; inversion H; subst.
    exists [], p, ps. split; [reflexivity |]. split; [intros q [] |].
    apply RegexFacts.search_sound. exact E.
  - intro H. destruct (IH H) as [before [q [after [H1 [H2 H3]]]]].
    exists (p :: before), q, after. split; [simpl; congruence |].
    split; [| exact H3].
    intros q' [<- | Hq]; [apply RegexFacts.search_none; exact E | auto].
Qed.

Lemma first_match_none ps text :
  Tools.first_match ps text = None <-> forall p, In p ps -> ~ found p text.
Proof.
  induction ps as [| p ps IH]; simpl.
  - split; [intros _ q [] | reflexivity].
  - destruct (search p text) as [g |] eqn:E.
    + split; [discriminate |]. intro H. exfalso.
      apply (H p (or_introl eq_refl)). exists g.
      apply RegexFacts.search_sound. exact E.
    + rewrite IH. split.
      * intros H q [<- | Hq]; [apply RegexFacts.search_none; exact E | auto].
      * intros H q Hq. apply H. right. exact Hq.
Qed.

Lemma consumes_words w items m :
  consumes (lit w ++ items) m
  <-> exists rest, m = w ++ rest /\ consumes items rest.
Proof.
  revert m. induction w as [| c w IH]; intro m; simpl.
  - split; [intro H; exists m; auto | intros [rest [-> H]]; exact H].
  - split.
    + intro H. inversion H; subst.
      match goal with
      | K : consumes (lit w ++ items) _ |- _ =>
          apply IH in K; destruct K as [rest [-> K]]
      end.
      exists rest. auto.
    + intros [rest [-> H]]. constructor. apply IH. exists rest. auto.
Qed.

Lemma consumes_space cls items m :
  consumes (Plus cls :: items) m
  <-> exists space rest,
        m = space ++ rest /\ space <> "" /\ all_in cls space = true
        /\ consumes items rest.
Proof.
  split.
  - intro H. inversion H; subst. eexists; eexists; eauto.
  - intros [space [rest [-> [H1 [H2 H3]]]]]. constructor; assumption.
Qed.

(** The part of a pattern before its group matches the words of the
    trigger, each followed by white space. *)
Lemma consumes_trigger words m :
  consumes (Regex.head (Tools.trigger words)) m
  <-> ToolsSpec.trigger_text words m.
Proof.
  unfold Tools.trigger. simpl. revert m.
  induction words as [| w words IH]; intro m; simpl.
  - split; [intro H; inversion H; reflexivity | intros ->; constructor].
  - rewrite <- app_assoc. rewrite consumes_words. simpl. split.
    + intros [rest [-> H]]. apply consumes_space in H.
      destruct H as [space [rest' [-> [H1 [H2 H3]]]]].
      exists space, rest'. repeat split; auto. apply IH. exact H3.
    + intros [space [rest [-> [H1 [H2 H3]]]]].
      exists (space ++ rest). split; [reflexivity |].
      apply consumes_space. exists space, rest. repeat split; auto.
      apply IH. exact H3.
Qed.

Lemma expression_char_listed c :
  Tools.expression_char c = existsb (Ascii.eqb c) ToolsSpec.expression_chars.
Proof. destruct c as [[] [] [] [] [] [] [] []]; reflexivity. Qed.

Lemma isspace_listed c :
  PyStr.isspace c = existsb (Ascii.eqb c) ToolsSpec.space_chars.
Proof. destruct c as [[] [] [] [] [] [] [] []]; reflexivity. Qed.

Lemma listed_spec c chars :
  existsb (Ascii.eqb c) chars = true <-> In c chars.
Proof.
  rewrite existsb_exists. split.
  - intros [x [H E]]. apply Ascii.eqb_eq in E. subst. exact H.
  - intro H. exists c. split; [exact H | apply Ascii.eqb_refl].
Qed.

(** C4 (amended).  [extract_and_calculate] lowercases the text and
    looks for the triggers "calculate", "what is" and "compute".  A
    trigger is found where its words stand, each followed by at least
    one white-space character of any kind (a tab or a line feed as well
    as a space), and then a character of the class
    [[0-9+\-*/().^ ]]: the digits, [+ - * / ( ) . ^] and the space.  A
    trigger that is followed at once by a character of the class is not
    found.  The first of the three patterns, in that order, that is
    found anywhere in the text wins; its run is the longest one from
    the first character after the white space, and that run, stripped
    and with every caret rewritten to [**], is the expression handed to
    [calculate]; without any match the result is [None].  On "Can you
    calculate 25 * 4 for me?" the expression is "25 * 4" and its value
    is 100. *)
Theorem extraction_follows_the_triggers :
  (forall (float complex : Type) (RT : PyRuntime float complex)
          (ast_parse : string -> outcome (ast.expr float complex))
          (text : string),
      (Tools.extract_and_calculate ast_parse text = None
       <-> forall p, In p Tools.patterns -> ~ found p (PyStr.lower text))
      /\ (forall r,
            Tools.extract_and_calculate ast_parse text = Some r ->
            exists before p after g,
              Tools.patterns = (before ++ p :: after)%list
              /\ (forall q, In q before -> ~ found q (PyStr.lower text))
              /\ occurs p (PyStr.lower text) g
              /\ Tools.extract_expression text
                 = Some (PyStr.replace "^" "**" (PyStr.strip g))
              /\ r = Calculator.calculate ast_parse
                       (PyStr.replace "^" "**" (PyStr.strip g))))
  /\ Tools.patterns
     = [ Tools.trigger ["calculate"]; Tools.trigger ["what"; "is"];
         Tools.trigger ["compute"] ]
  /\ Tools.extract_expression "Can you calculate 25 * 4 for me?"
     = Some "25 * 4"
  /\ Tools.extract_and_calculate Binary64.parse
       "Can you calculate 25 * 4 for me?"
     = Some (Spec.succeeds_with (PyInt 100))
  /\ Tools.extract_expression "What is 2^3?" = Some "2**3"
  /\ Tools.extract_expression "compute 1+1 and calculate 2+2" = Some "2+2"
  /\ Tools.extract_expression "Tell me about the Black Pearl" = None
  /\ (forall words s g,
        occurs (Tools.trigger words) s g
        <-> exists before matched after,
              s = before ++ matched ++ g ++ after
              /\ ToolsSpec.trigger_text words matched
              /\ g <> ""
              /\ all_in Tools.expression_char g = true
              /\ PyParser.starts_with Tools.expression_char after = false)
  /\ (forall c,
        Tools.expression_char c = true <-> In c ToolsSpec.expression_chars)
  /\ (forall c, PyStr.isspace c = true <-> In c ToolsSpec.space_chars)
  /\ Tools.extract_expression "calculate(2+3)" = None
  /\ Tools.extract_expression "what is2+3" = None
  /\ Tools.extract_expression "whatis 2+3" = None
  /\ Tools.extract_expression ("calculate" ++ String (ascii_of_nat 9) "5")
     = Some "5"
  /\ Tools.extract_expression ("what" ++ PyStr.newline ++ "is  7 - 2 ")
     = Some "7 - 2".
Proof.
  split; [| split; [reflexivity |]].
  - intros float complex RT ast_parse text.
    unfold Tools.extract_and_calculate, Tools.extract_expression.
    split.
    + rewrite <- first_match_none.
      destruct (Tools.first_match Tools.patterns (PyStr.lower text));
        split; intro H; (discriminate || reflexivity).
    + intros r H.
      destruct (Tools.first_match Tools.patterns (PyStr.lower text))
        as [g |] eqn:E; [| discriminate].
      inversion H; subst.
      destruct (first_match_sound _ _ E) as [before [p [after [H1 [H2 H3]]]]].
      exists before, p, after, g. auto.
  - do 5 (split; [vm_compute; reflexivity |]).
    split.
    { intros words s g. unfold occurs. split.
      - intros [before [matched [after [H1 [H2 H3]]]]].
        exists before, matched, after. split; [exact H1 |].
        split; [apply consumes_trigger; exact H2 | exact H3].
      - intros [before [matched [after [H1 [H2 H3]]]]].
        exists before, matched, after. split; [exact H1 |].
        split; [apply consumes_trigger; exact H2 | exact H3]. }
    split; [intro c; rewrite expression_char_listed; apply listed_spec |].
    split; [intro c; rewrite isspace_listed; apply listed_spec |].
    repeat split; vm_compute; reflexivity.
Qed.

(** [extraction_follows_the_triggers] at the sentence of the
    specification. *)
Lemma twenty_five_times_four :
  Tools.extract_and_calculate Binary64.parse
    "Can you calculate 25 * 4 for me?"
  = Some (Spec.succeeds_with (PyInt 100))
  /\ exists before p after g,
       Tools.patterns = (before ++ p :: after)%list
       /\ (forall q, In q before -> ~ found q
                       (PyStr.lower "Can you calculate 25 * 4 for me?"))
       /\ occurs p (PyStr.lower "Can you calculate 25 * 4 for me?") g
       /\ Tools.extract_expression "Can you calculate 25 * 4 for me?"
          = Some (PyStr.replace "^" "**" (PyStr.strip g))
       /\ Spec.succeeds_with (PyInt 100)
          = Calculator.calculate Binary64.parse
              (PyStr.replace "^" "**" (PyStr.strip g)).
Proof.
  assert (E : Tools.extract_and_calculate Binary64.parse
                "Can you calculate 25 * 4 for me?"
              = Some (Spec.succeeds_with (PyInt 100)))
    by (vm_compute; reflexivity).
  split; [exact E |].
  exact (proj2 (proj1 extraction_follows_the_triggers _ _ _
                  Binary64.parse "Can you calculate 25 * 4 for me?") _ E).
Defined.

(** C4 as stated fails on "calculate(2+3)": the trigger is followed at
    once by a run of characters of the class, and nothing is
    extracted, because the patterns ask for white space between the
    two.  It fails on "calculate", a tab and "5" the other way round:
    the tab is not of the class, and "5" is extracted.  And the
    expression is not the matched run as it stands: the run of
    "calculate 25 * 4 for me" ends with a space, which the expression
    "25 * 4" has lost. *)
Lemma a_run_right_after_the_trigger :
  (ToolsSpec.phrase_then_run "calculate" "calculate(2+3)" "(2+3)"
   /\ Tools.extract_expression "calculate(2+3)" = None
   /\ Tools.extract_and_calculate Binary64.parse "calculate(2+3)" = None)
  /\ (Tools.expression_char (ascii_of_nat 9) = false
      /\ Tools.extract_expression
           ("calculate" ++ String (ascii_of_nat 9) "5")
         = Some "5")
  /\ (Tools.first_match Tools.patterns
        (PyStr.lower "calculate 25 * 4 for me") = Some "25 * 4 "
      /\ Tools.extract_expression "calculate 25 * 4 for me" = Some "25 * 4").
Proof.
  split; [| split; split; vm_compute; reflexivity].
  split; [| split; vm_compute; reflexivity].
  exists "", "".
  split; [vm_compute; reflexivity | split; [discriminate | reflexivity]].
Qed.
End ToolsFacts.

Module MemoryCases.
Import Memory MemorySpec.

Lemma add_all_app calls calls' self :
  add_all (calls ++ calls') self = add_all calls' (add_all calls self).
Proof. unfold add_all. apply fold_left_app. Qed.

Lemma add_all_max_turns calls self :
  max_turns (add_all calls self) = max_turns self.
Proof.
  revert self. induction calls as [| c calls IH]; intro self; simpl;
    [reflexivity |].
  unfold add_all in IH. rewrite IH. apply MemoryFacts.add_message_max_turns.
Qed.

(** X1.  With room for at least one turn, the history after any sequence
    of [add_message] calls is the newest [2 * max_turns] messages of the
    sequence, in the order of the calls; it never holds more than
    [2 * max_turns] messages, and exactly that many after
    [2 * (max_turns + 3)] calls. *)
Theorem history_is_the_newest_window (max_turns : Z) (calls : list call) :
  (0 < max_turns)%Z ->
  conversation_history (add_all calls (__init__ max_turns))
  = lastn (Z.to_nat (max_turns * 2)) (map message_of calls)
  /\ (List.length (conversation_history (add_all calls (__init__ max_turns)))
      <= Z.to_nat (max_turns * 2))%nat
  /\ (List.length calls = Z.to_nat ((max_turns + 3) * 2) ->
      List.length (conversation_history (add_all calls (__init__ max_turns)))
      = Z.to_nat (max_turns * 2)).
Proof.
  intro Hm.
  assert (H : conversation_history (add_all calls (__init__ max_turns))
              = lastn (Z.to_nat (max_turns * 2)) (map message_of calls)).
  { induction calls as [| c calls IH] using rev_ind; [reflexivity |].
    rewrite add_all_app. simpl.
    rewrite MemoryFacts.add_message_history
      by (rewrite add_all_max_turns; exact Hm).
    rewrite add_all_max_turns, IH. simpl.
    rewrite map_app. simpl.
    apply MemoryFacts.lastn_app_lastn. lia. }
  split; [exact H |].
  rewrite H, MemoryFacts.lastn_length, length_map.
  split; [lia |]. intro L. rewrite L. lia.
Qed.

(** [history_is_the_newest_window] for three turns and twelve calls. *)
Lemma twelve_calls_leave_six :
  (0 < 3)%Z
  /\ List.length
       (conversation_history (add_all (numbered_calls 0 12) (__init__ 3)))
     = 6%nat
  /\ conversation_history (add_all (numbered_calls 0 12) (__init__ 3))
     = map message_of (numbered_calls 6 6).
Proof.
  assert (Hm : (0 < 3)%Z) by lia.
  destruct (history_is_the_newest_window (numbered_calls 0 12) Hm)
    as [H [_ L]].
  split; [exact Hm |]. split; [exact (L eq_refl) |].
  rewrite H. reflexivity.
Defined.

(** C5 on [Memory(max_turns=0)]: the slice [history[-0:]] is the whole
    list, so nothing is evicted and the history outgrows its capacity
    of [2 * 0] messages. *)
Theorem zero_capacity_keeps_everything :
  conversation_history (add_message "t" "user" "Hello Jack!" (__init__ 0))
  = [ {| role := "user"; content := "Hello Jack!"; timestamp := "t" |} ]
  /\ List.length
       (conversation_history (add_all (numbered_calls 0 6) (__init__ 0)))
     = 6%nat
  /\ forall calls,
       conversation_history (add_all calls (__init__ 0))
       = map message_of calls.
Proof.
  split; [reflexivity |]. split; [reflexivity |].
  intro calls. induction calls as [| c calls IH] using rev_ind;
    [reflexivity |].
  rewrite add_all_app, map_app. simpl.
  unfold add_message. rewrite add_all_max_turns, IH. simpl.
  destruct (Z.of_nat _ >? 0)%Z; [| reflexivity].
  simpl. unfold slice_from. simpl. rewrite Z.min_l by lia. reflexivity.
Qed.
(** X3.  On an empty memory [get_context_string] is the placeholder;
    after a user message and an assistant message it is the two lines,
    in that order, labelled "User" and "Jack". *)
Theorem context_string_has_one_line_per_message
  (max_turns : Z) (t1 t2 question answer : string) :
  (0 <= max_turns)%Z ->
  get_context_string (__init__ max_turns) = "No previous conversation."
  /\ get_context_string
       (add_message t2 "assistant" answer
          (add_message t1 "user" question (__init__ max_turns)))
     = "User: " ++ question ++ PyStr.newline ++ "Jack: " ++ answer.
Proof.
  intro Hm. split; [reflexivity |].
  assert (H1 : add_message t1 "user" question (__init__ max_turns)
               = {| Memory.max_turns := max_turns;
                    conversation_history :=
                      [ {| role := "user"; content := question;
                           timestamp := t1 |} ] |}).
  { unfold add_message. simpl.
    destruct (1 >? max_turns * 2)%Z eqn:E; [| reflexivity].
    assert (max_turns = 0%Z) by lia. subst. reflexivity. }
  rewrite H1. unfold add_message. simpl.
  destruct (2 >? max_turns * 2)%Z eqn:E.
  - assert (max_turns = 0%Z) by lia. subst. reflexivity.
  - unfold get_context_string. simpl. reflexivity.
Qed.

(** [context_string_has_one_line_per_message] for three turns. *)
Lemma hello_and_ahoy :
  (0 <= 3)%Z
  /\ get_context_string
       (add_message "t2" "assistant" "Ahoy there, mate!"
          (add_message "t1" "user" "Hello Jack!" (__init__ 3)))
     = "User: Hello Jack!" ++ PyStr.newline ++ "Jack: Ahoy there, mate!".
Proof.
  assert (Hm : (0 <= 3)%Z) by lia.
  split; [exact Hm |].
  exact (proj2 (context_string_has_one_line_per_message
                  "t1" "t2" "Hello Jack!" "Ahoy there, mate!" Hm)).
Defined.

End MemoryCases.

Module SparrowBotFacts.
Section SparrowBotFacts.
Context {float complex : Type} {RT : PyRuntime float complex}.
Variable ast_parse : string -> outcome (ast.expr float complex).
Variable embedding : Type.

Import SparrowBot.

Import ChatSpec.

Lemma format_is_not_empty
  (result : Calculator.CalculationResult (float := float) (complex := complex))
  reply :
  Tools.format_calculator_response result true = Ok reply ->
  PyStr.truthy reply = true.
Proof.
  unfold Tools.format_calculator_response.
  destruct (Calculator.success result);
    [destruct (Calculator.result result) as [value |];
     [destruct (str_number value) |] |];
    intro H; inversion H; reflexivity.
Qed.

(** The calculator path when the value is rendered. *)
Lemma chat_on_calculation w (self : t embedding) user_message result reply :
  Tools.extract_and_calculate ast_parse user_message = Some result ->
  Tools.format_calculator_response result true = Ok reply ->
  chat ast_parse w self user_message
  = {| events := [];
       returned := Ok reply;
       memory_after :=
         Memory.add_message (now w 1) "assistant" reply
           (recorded w self user_message) |}.
Proof.
  intros H F. unfold chat, _check_for_calculation. rewrite H, F.
  rewrite (format_is_not_empty _ F). reflexivity.
Qed.

(** The calculator path when [str] refuses the value. *)
Lemma chat_on_unprintable_value w (self : t embedding) user_message result x :
  Tools.extract_and_calculate ast_parse user_message = Some result ->
  Tools.format_calculator_response result true = Raise x ->
  chat ast_parse w self user_message
  = {| events := [];
       returned := Raise x;
       memory_after := recorded w self user_message |}.
Proof.
  intros H F. unfold chat, _check_for_calculation. rewrite H, F. reflexivity.
Qed.

(** On the calculator path [chat] ends as the formatter does, and
    calls no other component. *)
Lemma chat_calculation_returned w (self : t embedding) user_message result :
  Tools.extract_and_calculate ast_parse user_message = Some result ->
  returned (chat ast_parse w self user_message)
  = Tools.format_calculator_response result true
  /\ events (chat ast_parse w self user_message) = [].
Proof.
  intro H.
  destruct (Tools.format_calculator_response result true) as [reply | x] eqn:F.
  - rewrite (chat_on_calculation w self _ H F). split; reflexivity.
  - rewrite (chat_on_unprintable_value w self _ H F). split; reflexivity.
Qed.

Lemma chat_without_calculation w (self : t embedding) user_message :
  Tools.extract_and_calculate ast_parse user_message = None ->
  chat ast_parse w self user_message
  = chat_reply w (set_memory self (recorded w self user_message)) user_message.
Proof.
  intro H. unfold chat, _check_for_calculation. rewrite H. reflexivity.
Qed.

Lemma query_propagates_encode (store : VectorStore.t embedding) text n x :
  VectorStore.encode store text = Raise x ->
  VectorStore.query store text n = Raise x.
Proof. intro H. unfold VectorStore.query. rewrite H. reflexivity. Qed.

Lemma query_propagates_collection (store : VectorStore.t embedding) text n e x :
  VectorStore.encode store text = Ok e ->
  VectorStore.collection_query store e n = Raise x ->
  VectorStore.query store text n = Raise x.
Proof.
  intros H1 H2. unfold VectorStore.query. rewrite H1, H2. reflexivity.
Qed.

(** C6 (amended).  [query] returns the empty list whenever the
    collection answers without documents (an empty answer, no
    ['documents'], an empty list, or a first list that is empty).  An
    error of the embedding model or of the collection is not caught: it
    is raised by [query], and, for a message that is not a calculation,
    by [chat], offline and online alike, after the user's message was
    recorded and before any reply is. *)
Theorem retrieval_errors_are_raised w (self : t embedding) user_message :
  (forall (store : VectorStore.t embedding) text n e answer,
      VectorStore.encode store text = Ok e ->
      VectorStore.collection_query store e n = Ok answer ->
      (answer = None
       \/ exists r, answer = Some r
                    /\ (VectorStore.documents r = None
                        \/ VectorStore.documents r = Some []
                        \/ exists more,
                             VectorStore.documents r = Some ([] :: more))) ->
      VectorStore.query store text n = Ok [])
  /\ (forall (store : VectorStore.t embedding) text n x,
        VectorStore.encode store text = Raise x ->
        VectorStore.query store text n = Raise x)
  /\ (forall (store : VectorStore.t embedding) text n e x,
        VectorStore.encode store text = Ok e ->
        VectorStore.collection_query store e n = Raise x ->
        VectorStore.query store text n = Raise x)
  /\ (forall x,
        Tools.extract_and_calculate ast_parse user_message = None ->
        VectorStore.query (vector_store self) user_message (n_results self)
        = Raise x ->
        returned (chat ast_parse w self user_message) = Raise x
        /\ memory_after (chat ast_parse w self user_message)
           = recorded w self user_message).
Proof.
  split; [| split; [| split]].
  - intros store text n e answer H1 H2 H.
    unfold VectorStore.query. rewrite H1, H2.
    destruct H as [-> | [r [-> [H | [H | [more H]]]]]];
      try rewrite H; reflexivity.
  - intros; apply query_propagates_encode; assumption.
  - intros; eapply query_propagates_collection; eassumption.
  - intros x Hc Hq. rewrite (chat_without_calculation w self _ Hc).
    unfold chat_reply, _build_context_prompt, _retrieve_relevant_facts.
    unfold n_results in Hq.
    simpl. destruct (model self); rewrite Hq; split; reflexivity.
Qed.

(** What [chat] does with a model configured, once the calculator
    declined and retrieval answered. *)
Lemma chat_with_model w (self : t embedding) user_message backend facts :
  model self = Some backend ->
  Tools.extract_and_calculate ast_parse user_message = None ->
  VectorStore.query (vector_store self) user_message 2 = Ok facts ->
  chat ast_parse w self user_message
  = match generate_content backend
            (context_prompt facts (recorded w self user_message)
               user_message) with
    | Ok assistant_message =>
        {| events :=
             [Retrieved user_message 2;
              Generated
                (context_prompt facts
                   (recorded w self user_message) user_message)];
           returned := Ok assistant_message;
           memory_after :=
             Memory.add_message (now w 1) "assistant"
               assistant_message (recorded w self user_message) |}
    | Raise e =>
        {| events :=
             [Retrieved user_message 2;
              Generated
                (context_prompt facts
                   (recorded w self user_message) user_message)];
           returned := Ok (apology e);
           memory_after := recorded w self user_message |}
    end.
Proof.
  intros Hm Hc Hq. rewrite (chat_without_calculation w self _ Hc).
  unfold chat_reply, _build_context_prompt, _retrieve_relevant_facts.
  simpl. rewrite Hm, Hq. reflexivity.
Qed.









(** C10.  A string [chat] returns is the assistant message it appended
    to the memory, on the calculator, offline and model paths alike:
    the capacity not being negative, the history then ends with the
    user's message followed by an assistant message whose content is
    the returned string.  The exception is a call of the model that
    raised: then the string is the apology, nothing is appended after
    the user's message, and the user's message is the last entry of the
    history. *)
Theorem failed_turns_leave_no_assistant_message w (self : t embedding)
  user_message :
  (forall reply,
      returned (chat ast_parse w self user_message) = Ok reply ->
      (memory_after (chat ast_parse w self user_message)
       = Memory.add_message (now w 1) "assistant" reply
           (recorded w self user_message)
       /\ ((0 <= Memory.max_turns (memory self))%Z ->
           exists older,
             Memory.conversation_history
               (memory_after (chat ast_parse w self user_message))
             = (older ++ [ {| Memory.role := "user";
                              Memory.content := user_message;
                              Memory.timestamp := now w 0 |};
                           {| Memory.role := "assistant";
                              Memory.content := reply;
                              Memory.timestamp := now w 1 |} ])%list))
      \/ exists backend facts e,
           model self = Some backend
           /\ Tools.extract_and_calculate ast_parse user_message = None
           /\ VectorStore.query (vector_store self) user_message 2 = Ok facts
           /\ generate_content backend
                (context_prompt facts (recorded w self user_message)
                   user_message)
              = Raise e
           /\ reply = apology e
           /\ memory_after (chat ast_parse w self user_message)
              = recorded w self user_message)
  /\ (forall backend facts e,
        model self = Some backend ->
        Tools.extract_and_calculate ast_parse user_message = None ->
        VectorStore.query (vector_store self) user_message 2 = Ok facts ->
        generate_content backend
          (context_prompt facts (recorded w self user_message) user_message)
        = Raise e ->
        returned (chat ast_parse w self user_message) = Ok (apology e)
        /\ memory_after (chat ast_parse w self user_message)
           = Memory.add_message (now w 0) "user" user_message (memory self)
        /\ ((0 <= Memory.max_turns (memory self))%Z ->
            exists older,
              Memory.conversation_history
                (memory_after (chat ast_parse w self user_message))
              = (older ++ [ {| Memory.role := "user";
                               Memory.content := user_message;
                               Memory.timestamp := now w 0 |} ])%list))
  /\ (forall backend facts text,
        model self = Some backend ->
        Tools.extract_and_calculate ast_parse user_message = None ->
        VectorStore.query (vector_store self) user_message 2 = Ok facts ->
        generate_content backend
          (context_prompt facts (recorded w self user_message) user_message)
        = Ok text ->
        returned (chat ast_parse w self user_message) = Ok text
        /\ memory_after (chat ast_parse w self user_message)
           = Memory.add_message (now w 1) "assistant" text
               (Memory.add_message (now w 0) "user" user_message
                  (memory self))).
Proof.
  assert (A : forall reply,
             memory_after (chat ast_parse w self user_message)
             = Memory.add_message (now w 1) "assistant" reply
                 (recorded w self user_message) ->
             (0 <= Memory.max_turns (memory self))%Z ->
             exists older,
               Memory.conversation_history
                 (memory_after (chat ast_parse w self user_message))
               = (older ++ [ {| Memory.role := "user";
                                Memory.content := user_message;
                                Memory.timestamp := now w 0 |};
                             {| Memory.role := "assistant";
                                Memory.content := reply;
                                Memory.timestamp := now w 1 |} ])%list).
  { intros reply E Hm. rewrite E. unfold recorded.
    apply MemoryFacts.add_two_messages_last. exact Hm. }
  split; [| split].
  - intros reply H.
    assert (C : memory_after (chat ast_parse w self user_message)
                = Memory.add_message (now w 1) "assistant" reply
                    (recorded w self user_message)
                \/ exists backend facts e,
                     model self = Some backend
                     /\ Tools.extract_and_calculate ast_parse user_message
                        = None
                     /\ VectorStore.query (vector_store self) user_message 2
                        = Ok facts
                     /\ generate_content backend
                          (context_prompt facts (recorded w self user_message)
                             user_message)
                        = Raise e
                     /\ reply = apology e
                     /\ memory_after (chat ast_parse w self user_message)
                        = recorded w self user_message).
    { revert H.
      destruct (Tools.extract_and_calculate ast_parse user_message)
        as [result |] eqn:Hc.
      - destruct (Tools.format_calculator_response result true)
          as [shown | x] eqn:F.
        + rewrite (chat_on_calculation w self _ Hc F). simpl.
          intro H; inversion H; subst. left. reflexivity.
        + rewrite (chat_on_unprintable_value w self _ Hc F). discriminate.
      - rewrite (chat_without_calculation w self _ Hc).
        unfold chat_reply, _build_context_prompt, _retrieve_relevant_facts.
        simpl. destruct (model self) as [backend |] eqn:Hm.
        + destruct (VectorStore.query (vector_store self) user_message 2)
            as [facts | x] eqn:Hq; [| discriminate].
          destruct (generate_content backend _) as [text | e] eqn:Hg; simpl;
            intro H; inversion H; subst.
          * left. reflexivity.
          * right. exists backend, facts, e. repeat split. exact Hg.
        + destruct (VectorStore.query (vector_store self) user_message 1)
            as [[| fact rest] | x]; [| | discriminate].
          * destruct (random_choice w fallbacks); [| discriminate].
            simpl. intro H; inversion H; subst. left. reflexivity.
          * destruct (random_choice w templates); [| discriminate].
            simpl. intro H; inversion H; subst. left. reflexivity. }
    destruct C as [C | C]; [left | right; exact C].
    split; [exact C | apply A; exact C].
  - intros backend facts e Hm Hc Hq Hg.
    rewrite (chat_with_model w self _ Hm Hc Hq), Hg. simpl.
    repeat split.
    intro H. unfold recorded. apply MemoryFacts.add_message_last. exact H.
  - intros backend facts text Hm Hc Hq Hg.
    rewrite (chat_with_model w self _ Hm Hc Hq), Hg. simpl.
    split; reflexivity.
Qed.

(** X2.  [reset_conversation] empties the memory, and doing it twice is
    doing it once. *)
Theorem reset_is_idempotent (self : t embedding) :
  reset_conversation (reset_conversation self) = reset_conversation self
  /\ Memory.conversation_history (memory (reset_conversation self)) = []
  /\ Memory.get_turn_count (memory (reset_conversation self)) = 0%Z
  /\ Memory.get_context_string (memory (reset_conversation self))
     = "No previous conversation.".
Proof. repeat split. Qed.

End SparrowBotFacts.
End SparrowBotFacts.

(** [str] on the powers of ten. *)
Module PowerFacts.







Section PowerFacts.
Context {float complex : Type} {RT : PyRuntime float complex}.



End PowerFacts.


End PowerFacts.

Module SparrowBotCases.
Import SparrowBot ChatSpec.

(** C6 as stated fails when the embedding model fails: the error comes
    out of [chat] as it was raised, offline and with a model
    configured. *)
Lemma embedding_failure_escapes :
  returned (Fixtures.chat (Fixtures.bot None Fixtures.broken_store) "Hello!")
  = Raise (OtherException "RuntimeError" "embedding model unavailable")
  /\ returned
       (Fixtures.chat
          (Fixtures.bot (Some Fixtures.echo_backend) Fixtures.broken_store)
          "Hello!")
     = Raise (OtherException "RuntimeError" "embedding model unavailable")
  /\ ~ (exists reply,
           returned
             (Fixtures.chat (Fixtures.bot None Fixtures.broken_store) "Hello!")
           = Ok reply).
Proof.
  split; [vm_compute; reflexivity |]. split; [vm_compute; reflexivity |].
  intros [reply H]. vm_compute in H. discriminate H.
Qed.

(** [retrieval_errors_are_raised] on a store without documents and on a
    store whose embedding model fails. *)
Lemma empty_and_broken_store :
  VectorStore.query Fixtures.empty_store "Hello!" 1 = Ok []
  /\ returned
       (Fixtures.chat (Fixtures.bot None Fixtures.broken_store) "Hello!")
     = Raise (OtherException "RuntimeError" "embedding model unavailable")
  /\ memory_after
       (Fixtures.chat (Fixtures.bot None Fixtures.broken_store) "Hello!")
     = recorded Fixtures.world (Fixtures.bot None Fixtures.broken_store)
         "Hello!".
Proof.
  pose proof (SparrowBotFacts.retrieval_errors_are_raised
                Binary64.parse Fixtures.world
                (Fixtures.bot None Fixtures.broken_store) "Hello!")
    as [E [_ [_ C]]].
  split.
  - apply (E Fixtures.empty_store "Hello!" 1%Z tt
             (Some {| VectorStore.documents := Some [[]] |}));
      [reflexivity | reflexivity |].
    right. eexists. split; [reflexivity |]. right. right.
    exists []. reflexivity.
  - apply (C (OtherException "RuntimeError" "embedding model unavailable"));
      [vm_compute; reflexivity | reflexivity].
Defined.






(** [failed_turns_leave_no_assistant_message] on a model that refuses
    the key, and on a model that answers. *)
Lemma failed_turn_keeps_the_user_message :
  (returned
     (Fixtures.chat
        (Fixtures.bot (Some (Fixtures.failing_backend (Unauthenticated "401")))
           Fixtures.pearl_store)
        "Hello!")
   = Ok auth_apology
   /\ Memory.conversation_history
        (memory_after
           (Fixtures.chat
              (Fixtures.bot
                 (Some (Fixtures.failing_backend (Unauthenticated "401")))
                 Fixtures.pearl_store)
              "Hello!"))
      = [ {| Memory.role := "user"; Memory.content := "Hello!";
             Memory.timestamp := "t0" |} ])
  /\ (returned
        (Fixtures.chat
           (Fixtures.bot (Some Fixtures.echo_backend) Fixtures.pearl_store)
           "Hello!")
      = Ok "Aye, savvy?"
      /\ exists older,
           Memory.conversation_history
             (memory_after
                (Fixtures.chat
                   (Fixtures.bot (Some Fixtures.echo_backend)
                      Fixtures.pearl_store)
                   "Hello!"))
           = (older ++ [ {| Memory.role := "user"; Memory.content := "Hello!";
                            Memory.timestamp := "t0" |};
                         {| Memory.role := "assistant";
                            Memory.content := "Aye, savvy?";
                            Memory.timestamp := "t1" |} ])%list).
Proof.
  assert (C : Tools.extract_and_calculate Binary64.parse "Hello!" = None)
    by (vm_compute; reflexivity).
  split.
  - destruct (proj1 (proj2 (SparrowBotFacts.failed_turns_leave_no_assistant_message
                       Binary64.parse Fixtures.world
                       (Fixtures.bot
                          (Some (Fixtures.failing_backend
                                   (Unauthenticated "401")))
                          Fixtures.pearl_store)
                       "Hello!"))
                (Fixtures.failing_backend (Unauthenticated "401"))
                ["The Black Pearl is the fastest ship."]
                (Unauthenticated "401") eq_refl C eq_refl eq_refl)
      as [R [M _]].
    split; [exact R |].
    unfold Fixtures.chat. rewrite M. reflexivity.
  - assert (R : returned
                  (Fixtures.chat
                     (Fixtures.bot (Some Fixtures.echo_backend)
                        Fixtures.pearl_store)
                     "Hello!")
                = Ok "Aye, savvy?")
      by (vm_compute; reflexivity).
    split; [exact R |].
    destruct (proj1 (SparrowBotFacts.failed_turns_leave_no_assistant_message
                       Binary64.parse Fixtures.world
                       (Fixtures.bot (Some Fixtures.echo_backend)
                          Fixtures.pearl_store)
                       "Hello!") _ R)
      as [[_ H] | [backend [facts [e [B [_ [_ [G _]]]]]]]].
    + apply H. vm_compute. discriminate.
    + exfalso. inversion B; subst. discriminate G.
Defined.

End SparrowBotCases.

(** Facts on [strip], [lower] and [replace]. *)
Module StripFacts.
Import PyStr RegexSpec.

Lemma lstrip_spaces l x :
  all_in isspace l = true -> lstrip (l ++ x) = lstrip x.
Proof.
  induction l as [| c l IH]; simpl; [reflexivity |].
  intro H. apply andb_true_iff in H. destruct H as [Hc Hl].
  rewrite Hc. auto.
Qed.

Lemma lstrip_all_spaces l : all_in isspace l = true -> lstrip l = "".
Proof.
  intro H. rewrite <- (StringFacts.append_nil_r l).
  rewrite lstrip_spaces by exact H. reflexivity.
Qed.

Lemma rstrip_all_spaces t : all_in isspace t = true -> rstrip t = "".
Proof.
  induction t as [| c t IH]; simpl; [reflexivity |].
  intro H. apply andb_true_iff in H. destruct H as [Hc Ht].
  rewrite (IH Ht), Hc. reflexivity.
Qed.

Lemma rstrip_spaces x t :
  all_in isspace t = true -> rstrip (x ++ t) = rstrip x.
Proof.
  intro H. induction x as [| c x IH]; simpl.
  - apply rstrip_all_spaces. exact H.
  - rewrite IH. reflexivity.
Qed.

Lemma lstrip_app s t :
  lstrip (s ++ t) = match lstrip s with
                    | EmptyString => lstrip t
                    | kept => kept ++ t
                    end.
Proof.
  induction s as [| c s IH]; simpl; [reflexivity |].
  destruct (isspace c); [exact IH | reflexivity].
Qed.

(** White space around a string does not change what [strip] keeps. *)
Lemma strip_padding lead s trail :
  all_in isspace lead = true -> all_in isspace trail = true ->
  strip (lead ++ s ++ trail) = strip s.
Proof.
  intros Hl Ht. unfold strip.
  rewrite lstrip_spaces by exact Hl. rewrite lstrip_app.
  destruct (lstrip s) as [| c kept] eqn:E.
  - rewrite (lstrip_all_spaces _ Ht). reflexivity.
  - apply rstrip_spaces. exact Ht.
Qed.

Lemma lstrip_starts s : PyParser.starts_with isspace (lstrip s) = false.
Proof.
  induction s as [| c s IH]; simpl; [reflexivity |].
  destruct (isspace c) eqn:E; [exact IH | simpl; exact E].
Qed.

Lemma lstrip_fixed s : PyParser.starts_with isspace s = false -> lstrip s = s.
Proof.
  destruct s as [| c s]; simpl; [reflexivity |]. intros ->. reflexivity.
Qed.

Lemma rstrip_starts s :
  PyParser.starts_with isspace s = false ->
  PyParser.starts_with isspace (rstrip s) = false.
Proof.
  destruct s as [| c s]; simpl; [reflexivity |]. intro H.
  destruct (rstrip s); simpl; rewrite ?H; simpl; auto.
Qed.

Lemma rstrip_rstrip s : rstrip (rstrip s) = rstrip s.
Proof.
  induction s as [| c s IH]; simpl; [reflexivity |].
  destruct (rstrip s) as [| d kept] eqn:E.
  - destruct (isspace c) eqn:Hc; simpl; [reflexivity |].
    rewrite Hc. reflexivity.
  - change (rstrip (String c (String d kept)))
      with (match rstrip (String d kept) with
            | EmptyString =>
                if isspace c then EmptyString else String c EmptyString
            | t => String c t
            end).
    rewrite IH. reflexivity.
Qed.

Lemma strip_starts s : PyParser.starts_with isspace (strip s) = false.
Proof. unfold strip. apply rstrip_starts, lstrip_starts. Qed.

Lemma strip_rstrip s : rstrip (strip s) = strip s.
Proof. unfold strip. apply rstrip_rstrip. Qed.

Lemma strip_strip s : strip (strip s) = strip s.
Proof.
  unfold strip at 1. rewrite (lstrip_fixed _ (strip_starts s)).
  apply strip_rstrip.
Qed.

(** A string is stripped when it neither starts nor ends with white
    space. *)
Lemma stripped_iff s :
  strip s = s <-> PyParser.starts_with isspace s = false /\ rstrip s = s.
Proof.
  split.
  - intro H. split.
    + rewrite <- H. apply strip_starts.
    + rewrite <- H at 1. rewrite strip_rstrip. exact H.
  - intros [H1 H2]. unfold strip. rewrite (lstrip_fixed _ H1). exact H2.
Qed.

Lemma all_in_app cls a b :
  all_in cls (a ++ b) = all_in cls a && all_in cls b.
Proof.
  induction a as [| c a IH]; simpl; [reflexivity |].
  rewrite IH. apply andb_assoc.
Qed.

Lemma all_in_weaken (p q : ascii -> bool) s :
  (forall c, p c = true -> q c = true) ->
  all_in p s = true -> all_in q s = true.
Proof.
  intro W. induction s as [| c s IH]; simpl; [reflexivity |].
  intro H. apply andb_true_iff in H. destruct H as [Hc Hs].
  rewrite (W _ Hc), (IH Hs). reflexivity.
Qed.

Lemma all_in_lstrip cls s : all_in cls s = true -> all_in cls (lstrip s) = true.
Proof.
  induction s as [| c s IH]; simpl; [reflexivity |].
  intro H. destruct (isspace c); [| exact H].
  apply andb_true_iff in H. apply IH, H.
Qed.

Lemma all_in_rstrip cls s : all_in cls s = true -> all_in cls (rstrip s) = true.
Proof.
  induction s as [| c s IH]; simpl; [reflexivity |].
  intro H. apply andb_true_iff in H. destruct H as [Hc Hs].
  specialize (IH Hs).
  destruct (rstrip s); [destruct (isspace c) |]; simpl in *; rewrite ?Hc; auto.
Qed.

Lemma all_in_strip cls s : all_in cls s = true -> all_in cls (strip s) = true.
Proof. intro H. unfold strip. apply all_in_rstrip, all_in_lstrip, H. Qed.

Lemma lower_app a b : lower (a ++ b) = lower a ++ lower b.
Proof.
  induction a as [| c a IH]; simpl; [reflexivity |]. rewrite IH. reflexivity.
Qed.

Lemma lower_char_lower_char c : lower_char (lower_char c) = lower_char c.
Proof. destruct c as [[] [] [] [] [] [] [] []]; reflexivity. Qed.

Lemma lower_lower s : lower (lower s) = lower s.
Proof.
  induction s as [| c s IH]; simpl; [reflexivity |].
  rewrite lower_char_lower_char, IH. reflexivity.
Qed.

End StripFacts.

(** [extract_and_calculate]: what reaches [calculate]. *)
Module ExtractionFacts.
Import PyStr Regex RegexSpec ToolsSpec StripFacts.

Lemma expression_char_cases c :
  Tools.expression_char c = true ->
  Ascii.eqb c "^" = true \/ arithmetic_char c = true.
Proof.
  destruct c as [[] [] [] [] [] [] [] []]; vm_compute; intro H;
    solve [discriminate H | left; reflexivity | right; reflexivity].
Qed.

Lemma replace_is_arithmetic x :
  all_in Tools.expression_char x = true ->
  all_in arithmetic_char (replace "^" "**" x) = true.
Proof.
  induction x as [| c x IH]; simpl; [reflexivity |].
  intro H. apply andb_true_iff in H. destruct H as [Hc Hx].
  destruct (Ascii.eqb c "^") eqn:E; simpl.
  - apply IH, Hx.
  - destruct (expression_char_cases _ Hc) as [F | A]; [congruence |].
    rewrite A. apply IH, Hx.
Qed.

Lemma replace_nonempty x : x <> "" -> replace "^" "**" x <> "".
Proof.
  destruct x as [| c x]; [congruence |]. intros _. simpl.
  destruct (Ascii.eqb c "^"); discriminate.
Qed.

Lemma rstrip_cons c y :
  rstrip y = y -> y <> "" -> rstrip (String c y) = String c y.
Proof.
  intros H N. simpl. rewrite H. destruct y; [congruence | reflexivity].
Qed.

Lemma rstrip_fixed_tail c x :
  rstrip (String c x) = String c x -> x <> "" -> rstrip x = x.
Proof.
  simpl. intros H N. destruct (rstrip x) as [| d t] eqn:E.
  - destruct (isspace c); [discriminate |]. inversion H. congruence.
  - inversion H. reflexivity.
Qed.

Lemma replace_rstrip x :
  rstrip x = x -> rstrip (replace "^" "**" x) = replace "^" "**" x.
Proof.
  induction x as [| c x IH]; [reflexivity |]. intro H.
  destruct x as [| d x'].
  - simpl in H. simpl. destruct (Ascii.eqb c "^") eqn:E; [reflexivity |].
    simpl. destruct (isspace c); [discriminate | reflexivity].
  - assert (N : String d x' <> "") by discriminate.
    pose proof (rstrip_fixed_tail H N) as T.
    pose proof (IH T) as R. pose proof (replace_nonempty N) as M.
    change (replace "^" "**" (String c (String d x')))
      with (if Ascii.eqb c "^"
            then "**" ++ replace "^" "**" (String d x')
            else String c (replace "^" "**" (String d x'))).
    destruct (Ascii.eqb c "^").
    + change ("**" ++ replace "^" "**" (String d x'))
        with (String "*" (String "*" (replace "^" "**" (String d x')))).
      apply rstrip_cons; [| discriminate]. apply rstrip_cons; assumption.
    + apply rstrip_cons; assumption.
Qed.

Lemma replace_starts x :
  PyParser.starts_with isspace x = false ->
  PyParser.starts_with isspace (replace "^" "**" x) = false.
Proof.
  destruct x as [| c x]; simpl; [reflexivity |].
  destruct (Ascii.eqb c "^"); simpl; auto.
Qed.

Lemma replace_stripped x :
  strip x = x -> strip (replace "^" "**" x) = replace "^" "**" x.
Proof.
  intro H. apply stripped_iff in H. destruct H as [H1 H2].
  apply stripped_iff.
  split; [apply replace_starts, H1 | apply replace_rstrip, H2].
Qed.

Lemma first_match_class text g :
  Tools.first_match Tools.patterns text = Some g ->
  all_in Tools.expression_char g = true.
Proof.
  intro H.
  destruct (ToolsFacts.first_match_sound _ _ H)
    as [before [p [after [Hp [_ [b [m [a [_ [_ [_ [Hg _]]]]]]]]]]]].
  assert (I : In p Tools.patterns)
    by (rewrite Hp; apply in_or_app; right; left; reflexivity).
  simpl in I. destruct I as [<- | [<- | [<- | []]]]; exact Hg.
Qed.

Section ExtractionFacts.
Context {float complex : Type} {RT : PyRuntime float complex}.
Variable ast_parse : string -> outcome (ast.expr float complex).
Variable embedding : Type.

(** X4.  Whatever the text, the expression [extract_and_calculate]
    hands to [calculate] is made of digits and of the characters
    [+ - * / ( ) .] and the space: no letter and no caret reaches the
    parser.  It neither starts nor ends with white space, so the
    [strip] of [calculate] leaves it as it is and the parser is called
    on this very string. *)
Theorem extracted_expression_is_arithmetic_text (text e : string) :
  Tools.extract_expression text = Some e ->
  all_in arithmetic_char e = true
  /\ strip e = e
  /\ Tools.extract_and_calculate ast_parse text
     = Some (Calculator.calculate ast_parse e)
  /\ Calculator.calculate_body ast_parse e
     = match ast_parse e with
       | Ok tree => Calculator._safe_eval tree
       | Raise x => Calculator.raise x
       end.
Proof.
  unfold Tools.extract_and_calculate, Tools.extract_expression.
  destruct (Tools.first_match Tools.patterns (lower text)) as [g |] eqn:E;
    [| discriminate].
  intro H. inversion H; subst e. clear H.
  pose proof (first_match_class _ E) as C.
  assert (S : strip (replace "^" "**" (strip g)) = replace "^" "**" (strip g))
    by (apply replace_stripped, strip_strip).
  split; [apply replace_is_arithmetic, all_in_strip, C |].
  split; [exact S |]. split; [reflexivity |].
  unfold Calculator.calculate_body. rewrite S. reflexivity.
Qed.

End ExtractionFacts.
End ExtractionFacts.

Module TriggerFacts.
Import PyStr Regex RegexSpec ToolsSpec StripFacts.

(** [cls+] gives back its last character when what follows needs it. *)
Lemma plus_gives_back cls k w c rest g :
  w <> "" -> all_in cls w = true -> cls c = true ->
  PyParser.starts_with cls rest = false ->
  k rest = None -> k (String c rest) = Some g ->
  plus cls k (w ++ String c rest) = Some g.
Proof.
  intros N Hw Hc Hr K0 K1.
  assert (P0 : plus cls k rest = None)
    by (destruct rest as [| d rest]; simpl in *; [| rewrite Hr]; reflexivity).
  assert (P1 : plus cls k (String c rest) = None)
    by (simpl; rewrite Hc, P0; exact K0).
  induction w as [| a w IH]; [congruence |].
  simpl in Hw. apply andb_true_iff in Hw. destruct Hw as [Ha Hw].
  simpl. rewrite Ha. destruct w as [| b w'].
  - simpl. simpl in P1. rewrite P1. exact K1.
  - rewrite IH; [reflexivity | discriminate | exact Hw].
Qed.

Lemma capture_none cls rest :
  PyParser.starts_with cls rest = false -> capture cls rest = None.
Proof.
  destruct rest as [| c rest]; simpl; [reflexivity |].
  unfold capture. simpl. intros ->. reflexivity.
Qed.

Lemma capture_one cls c rest :
  cls c = true -> PyParser.starts_with cls rest = false ->
  capture cls (String c rest) = Some (String c "").
Proof.
  intros Hc Hr. unfold capture. simpl. rewrite Hc.
  destruct rest as [| d rest]; simpl in *; [reflexivity |].
  rewrite Hr. reflexivity.
Qed.

Lemma run_char_split rest :
  PyParser.starts_with run_char rest = false ->
  PyParser.starts_with isspace rest = false
  /\ PyParser.starts_with Tools.expression_char rest = false.
Proof.
  destruct rest as [| c rest]; simpl; [auto |]. unfold run_char.
  intro H. apply orb_false_iff in H. exact H.
Qed.

(** The text of the first pattern, white space that ends with a space,
    and then no character of an expression: the group is that space. *)
Lemma blank_group w rest :
  w <> "" -> all_in isspace w = true ->
  PyParser.starts_with run_char rest = false ->
  Tools.first_match Tools.patterns ("calculate" ++ w ++ " " ++ rest)
  = Some " ".
Proof.
  intros N Hw Hr. destruct (run_char_split _ Hr) as [Hs He].
  assert (M : match_here (head (Tools.trigger ["calculate"]))
                Tools.expression_char ("calculate" ++ w ++ " " ++ rest)
              = Some " ").
  { simpl. apply plus_gives_back; try assumption; try reflexivity.
    - simpl. apply capture_none. exact He.
    - simpl. apply capture_one; [reflexivity | exact He]. }
  unfold Tools.patterns, Tools.first_match.
  rewrite (@RegexFacts.search_here (Tools.trigger ["calculate"]) _ _ M).
  reflexivity.
Qed.

Section TriggerFacts.
Context {float complex : Type} {RT : PyRuntime float complex}.
Variable ast_parse : string -> outcome (ast.expr float complex).
Variable embedding : Type.

(** X5.  The triggers are matched on the lowered text only: a text and
    its lower-case form give the same expression and the same result,
    and so do two texts that differ in the case of their letters. *)
Theorem extraction_ignores_case (text : string) :
  Tools.extract_expression (lower text) = Tools.extract_expression text
  /\ Tools.extract_and_calculate ast_parse (lower text)
     = Tools.extract_and_calculate ast_parse text
  /\ forall other,
       lower other = lower text ->
       Tools.extract_and_calculate ast_parse other
       = Tools.extract_and_calculate ast_parse text.
Proof.
  unfold Tools.extract_and_calculate, Tools.extract_expression.
  rewrite lower_lower. repeat split. intros other ->. reflexivity.
Qed.

(** X6.  When the lowered text starts with "calculate", at least two
    white-space characters of which the last is a space, and then a
    character that is neither white space nor one of an expression (or
    nothing), the pattern still matches: [\s+] gives back its last
    space to the group.  The expression is then empty, and [chat] ends
    as the formatter does on what the calculator says of the empty
    string, without asking the store or the model: when the parser
    refuses the empty string, [chat] returns the sentence of that
    failure. *)
Theorem blank_after_the_trigger_is_an_empty_expression
  (world : SparrowBot.World) (self : SparrowBot.t embedding)
  (text w rest : string) :
  lower text = "calculate" ++ w ++ " " ++ rest ->
  w <> "" -> all_in isspace w = true ->
  PyParser.starts_with run_char rest = false ->
  Tools.extract_expression text = Some ""
  /\ Tools.extract_and_calculate ast_parse text
     = Some (Calculator.calculate ast_parse "")
  /\ SparrowBot.returned (SparrowBot.chat ast_parse world self text)
     = Tools.format_calculator_response
         (Calculator.calculate ast_parse "") true
  /\ SparrowBot.events (SparrowBot.chat ast_parse world self text) = []
  /\ (forall x,
        ast_parse "" = Raise x ->
        SparrowBot.returned (SparrowBot.chat ast_parse world self text)
        = Ok ("Arr, there be a problem with yer sum: "
              ++ match x with
                 | ZeroDivisionError _ => "Cannot divide by zero, mate!"
                 | _ => "Invalid expression: " ++ str_exception x
                 end)).
Proof.
  intros L N Hw Hr.
  assert (E : Tools.extract_expression text = Some "").
  { unfold Tools.extract_expression. rewrite L, (@blank_group w rest N Hw Hr).
    reflexivity. }
  assert (C : Tools.extract_and_calculate ast_parse text
              = Some (Calculator.calculate ast_parse "")).
  { unfold Tools.extract_and_calculate. rewrite E. reflexivity. }
  destruct (@SparrowBotFacts.chat_calculation_returned
              _ _ _ ast_parse embedding world self text _ C) as [R V].
  split; [exact E |]. split; [exact C |].
  split; [exact R |]. split; [exact V |].
  intros x P. rewrite R.
  unfold Calculator.calculate, Calculator.calculate_body.
  change (strip "") with "". rewrite P. simpl.
  destruct x; reflexivity.
Qed.

(** X7.  For a message the extraction matches, [chat] ends in one of
    four ways, by the way the evaluation of the extracted expression
    ends: with the value in the pirate sentence, when [str] renders
    it; by raising the exception of [str], when it does not; with the
    division-by-zero sentence for a [ZeroDivisionError]; and for any
    other exception with the invalid-expression sentence and the text
    of the exception. *)
Theorem calculation_replies_follow_the_evaluation
  (world : SparrowBot.World) (self : SparrowBot.t embedding)
  (message e : string) :
  Tools.extract_expression message = Some e ->
  SparrowBot.returned (SparrowBot.chat ast_parse world self message)
  = match snd (Calculator.calculate_body ast_parse e) with
    | Ok value =>
        match str_number value with
        | Ok shown =>
            Ok ("By me calculations, that be **" ++ shown ++ "**, savvy?")
        | Raise x => Raise x
        end
    | Raise (ZeroDivisionError _) =>
        Ok "Arr, there be a problem with yer sum: Cannot divide by zero, mate!"
    | Raise x =>
        Ok ("Arr, there be a problem with yer sum: Invalid expression: "
            ++ str_exception x)
    end.
Proof.
  intro E.
  assert (C : Tools.extract_and_calculate ast_parse message
              = Some (Calculator.calculate ast_parse e))
    by (unfold Tools.extract_and_calculate; rewrite E; reflexivity).
  rewrite (proj1 (@SparrowBotFacts.chat_calculation_returned
                    _ _ _ ast_parse embedding world self message _ C)).
  unfold Calculator.calculate.
  destruct (snd (Calculator.calculate_body ast_parse e)) as [v | x].
  - unfold Tools.format_calculator_response. simpl.
    destruct (str_number v); reflexivity.
  - destruct x; reflexivity.
Qed.

End TriggerFacts.
End TriggerFacts.

Module TriggerCases.
Import PyStr Regex RegexSpec ToolsSpec.

(** [extracted_expression_is_arithmetic_text] on a power. *)
Lemma two_to_the_third :
  Tools.extract_expression "What is 2^3?" = Some "2**3"
  /\ all_in arithmetic_char "2**3" = true
  /\ strip "2**3" = "2**3"
  /\ Tools.extract_and_calculate Binary64.parse "What is 2^3?"
     = Some (Calculator.calculate Binary64.parse "2**3").
Proof.
  assert (E : Tools.extract_expression "What is 2^3?" = Some "2**3")
    by (vm_compute; reflexivity).
  destruct (ExtractionFacts.extracted_expression_is_arithmetic_text
              Binary64.parse "What is 2^3?" E) as [A [S [C _]]].
  repeat split; assumption.
Defined.

(** [blank_after_the_trigger_is_an_empty_expression] on a question
    typed with two spaces. *)
Lemma two_spaces_make_a_sum :
  lower "Calculate  the odds" = "calculate" ++ " " ++ " " ++ "the odds"
  /\ Tools.extract_expression "Calculate  the odds" = Some ""
  /\ SparrowBot.events
       (Fixtures.chat (Fixtures.bot None Fixtures.broken_store)
          "Calculate  the odds") = []
  /\ SparrowBot.returned
       (Fixtures.chat (Fixtures.bot None Fixtures.broken_store)
          "Calculate  the odds")
     = Ok ("Arr, there be a problem with yer sum: Invalid expression: "
           ++ "invalid syntax (<unknown>, line 0)").
Proof.
  assert (L : lower "Calculate  the odds"
              = "calculate" ++ " " ++ " " ++ "the odds") by reflexivity.
  assert (N : " " <> "") by discriminate.
  destruct (@TriggerFacts.blank_after_the_trigger_is_an_empty_expression
              _ _ _ Binary64.parse unit Fixtures.world
              (Fixtures.bot None Fixtures.broken_store)
              "Calculate  the odds" " " "the odds" L N eq_refl eq_refl)
    as [E [_ [_ [V R]]]].
  split; [exact L |]. split; [exact E |]. split; [exact V |].
  exact (R (SyntaxError "invalid syntax (<unknown>, line 0)") eq_refl).
Defined.

(** [calculation_replies_follow_the_evaluation] on a division by zero. *)
Lemma what_is_ten_by_zero :
  Tools.extract_expression "What is 10 / 0?" = Some "10 / 0"
  /\ SparrowBot.returned
       (Fixtures.chat (Fixtures.bot None Fixtures.broken_store)
          "What is 10 / 0?")
     = Ok "Arr, there be a problem with yer sum: Cannot divide by zero, mate!".
Proof.
  assert (E : Tools.extract_expression "What is 10 / 0?" = Some "10 / 0")
    by (vm_compute; reflexivity).
  split; [exact E |].
  exact (@TriggerFacts.calculation_replies_follow_the_evaluation
           _ _ _ Binary64.parse unit Fixtures.world
           (Fixtures.bot None Fixtures.broken_store) _ _ E).
Defined.

End TriggerCases.

(** The evaluator: how often it applies an operator, and the white
    space around its input. *)
Module EvaluationFacts.
Section EvaluationFacts.
Context {float complex : Type} {RT : PyRuntime float complex}.
Variable ast_parse : string -> outcome (ast.expr float complex).

Import Calculator Spec EvalSpec.
Local Arguments dict_get : simpl never.
Local Arguments OPERATORS : simpl never.

Lemma apply_trace c f (args : list (number float complex)) :
  fst (apply c f args) = [Applied c f args].
Proof. reflexivity. Qed.

(** No operator node is applied twice. *)
Lemma safe_eval_applies_at_most_once (e : ast.expr float complex) :
  (List.length (fst (_safe_eval e)) <= operator_nodes e)%nat.
Proof.
  induction e; simpl; try lia.
  - rewrite CalculatorFacts.bind_trace.
    destruct (snd (_safe_eval e1)) as [left |]; [| lia].
    rewrite length_app, CalculatorFacts.bind_trace.
    destruct (snd (_safe_eval e2)) as [right |]; [| lia].
    rewrite length_app.
    destruct (dict_get OPERATORS (ast.binary op)); simpl; lia.
  - rewrite CalculatorFacts.bind_trace.
    destruct (snd (_safe_eval e)) as [operand |]; [| lia].
    rewrite length_app.
    destruct (dict_get OPERATORS (ast.unary op)); simpl; lia.
Qed.

(** An evaluation that returns has applied every operator node, and
    every application returned. *)
Lemma safe_eval_applies_all (e : ast.expr float complex) value :
  snd (_safe_eval e) = Ok value ->
  List.length (fst (_safe_eval e)) = operator_nodes e
  /\ Forall returned_a_value (fst (_safe_eval e)).
Proof.
  revert value. induction e; simpl; intros value H; try discriminate.
  - split; [reflexivity | constructor].
  - rewrite CalculatorFacts.bind_outcome in H.
    rewrite CalculatorFacts.bind_trace.
    destruct (snd (_safe_eval e1)) as [left |] eqn:E1; [| discriminate].
    rewrite CalculatorFacts.bind_outcome in H.
    rewrite CalculatorFacts.bind_trace.
    destruct (snd (_safe_eval e2)) as [right |] eqn:E2; [| discriminate].
    destruct (IHe1 _ eq_refl) as [L1 F1]. destruct (IHe2 _ eq_refl) as [L2 F2].
    destruct (dict_get OPERATORS (ast.binary op)) as [f |]; [| discriminate].
    rewrite !length_app, L1, L2. simpl. split; [lia |].
    apply Forall_app; split; [exact F1 |].
    apply Forall_app; split; [exact F2 |].
    constructor; [| constructor]. exists value. exact H.
  - rewrite CalculatorFacts.bind_outcome in H.
    rewrite CalculatorFacts.bind_trace.
    destruct (snd (_safe_eval e)) as [operand |] eqn:E1; [| discriminate].
    destruct (IHe _ eq_refl) as [L1 F1].
    destruct (dict_get OPERATORS (ast.unary op)) as [f |]; [| discriminate].
    rewrite length_app, L1. simpl. split; [lia |].
    apply Forall_app; split; [exact F1 |].
    constructor; [| constructor]. exists value. exact H.
Qed.

(** X8.  [calculate] applies an operator node of the tree at most once.
    When it succeeds it has applied every [BinOp] and [UnaryOp] node of
    the tree exactly once, each application returned a value, and the
    value of the result is the one the evaluation of the tree
    returned. *)
Theorem every_operator_is_applied_once (s : string)
  (tree : ast.expr float complex) :
  ast_parse (PyStr.strip s) = Ok tree ->
  (List.length (calculate_trace ast_parse s) <= operator_nodes tree)%nat
  /\ forall value,
       calculate ast_parse s = succeeds_with value ->
       List.length (calculate_trace ast_parse s) = operator_nodes tree
       /\ Forall returned_a_value (calculate_trace ast_parse s)
       /\ snd (_safe_eval tree) = Ok value.
Proof.
  intro P. unfold calculate_trace, calculate.
  rewrite (CalculatorFacts.calculate_on_tree ast_parse s P).
  split; [apply safe_eval_applies_at_most_once |].
  intros value H.
  destruct (snd (_safe_eval tree)) as [v | x] eqn:E.
  - inversion H; subst v.
    destruct (safe_eval_applies_all tree E) as [L F]. auto.
  - destruct x; discriminate H.
Qed.

(** X9.  White space before and after the expression changes neither
    the result of [calculate] nor what it applies. *)
Theorem calculate_ignores_surrounding_space (lead s trail : string) :
  RegexSpec.all_in PyStr.isspace lead = true ->
  RegexSpec.all_in PyStr.isspace trail = true ->
  calculate ast_parse (lead ++ s ++ trail) = calculate ast_parse s
  /\ calculate_trace ast_parse (lead ++ s ++ trail)
     = calculate_trace ast_parse s.
Proof.
  intros Hl Ht. unfold calculate, calculate_trace, calculate_body.
  rewrite (@StripFacts.strip_padding lead s trail Hl Ht). split; reflexivity.
Qed.

End EvaluationFacts.
End EvaluationFacts.

Module EvaluationCases.
Import Calculator Spec EvalSpec.

(** [every_operator_is_applied_once] on a sum inside a product. *)
Lemma three_plus_five_twice :
  Binary64.parse (PyStr.strip "-(3 + 5) * 2")
  = Ok (ast.BinOp
          (ast.UnaryOp ast.USub
             (ast.BinOp (ast.Num (PyInt 3)) ast.Add (ast.Num (PyInt 5))))
          ast.Mult (ast.Num (PyInt 2)))
  /\ calculate Binary64.parse "-(3 + 5) * 2" = succeeds_with (PyInt (-16))
  /\ List.length (calculate_trace Binary64.parse "-(3 + 5) * 2") = 3%nat.
Proof.
  assert (P : Binary64.parse (PyStr.strip "-(3 + 5) * 2")
              = Ok (ast.BinOp
                      (ast.UnaryOp ast.USub
                         (ast.BinOp (ast.Num (PyInt 3)) ast.Add
                            (ast.Num (PyInt 5))))
                      ast.Mult (ast.Num (PyInt 2))))
    by (vm_compute; reflexivity).
  assert (V : calculate Binary64.parse "-(3 + 5) * 2"
              = succeeds_with (PyInt (-16)))
    by (vm_compute; reflexivity).
  split; [exact P |]. split; [exact V |].
  exact (proj1 (proj2 (EvaluationFacts.every_operator_is_applied_once
                         Binary64.parse "-(3 + 5) * 2" P) _ V)).
Defined.

(** [calculate_ignores_surrounding_space] on blanks and a line end. *)
Lemma padded_sum :
  calculate Binary64.parse ("  " ++ "2 + 2" ++ PyStr.newline)
  = calculate Binary64.parse "2 + 2"
  /\ calculate Binary64.parse "2 + 2" = succeeds_with (PyInt 4).
Proof.
  split; [| vm_compute; reflexivity].
  exact (proj1 (@EvaluationFacts.calculate_ignores_surrounding_space
                  _ _ _ Binary64.parse "  " "2 + 2" PyStr.newline
                  eq_refl eq_refl)).
Defined.

End EvaluationCases.

(** The window of [Memory], call by call. *)
Module WindowFacts.
Import Memory MemorySpec DialogueSpec.

Lemma add_all_history max_turns calls :
  (0 < max_turns)%Z ->
  conversation_history (add_all calls (__init__ max_turns))
  = lastn (Z.to_nat (max_turns * 2)) (map message_of calls).
Proof.
  intro Hm. induction calls as [| c calls IH] using rev_ind; [reflexivity |].
  rewrite MemoryCases.add_all_app. simpl.
  rewrite MemoryFacts.add_message_history
    by (rewrite MemoryCases.add_all_max_turns; exact Hm).
  rewrite MemoryCases.add_all_max_turns, IH. simpl.
  rewrite map_app. simpl.
  apply MemoryFacts.lastn_app_lastn. lia.
Qed.

(** X10.  With room for at least one turn, the turn count after any
    sequence of [add_message] calls on a new memory is half the number
    of calls, rounded down, until it reaches [max_turns]; it never
    exceeds [max_turns]. *)
Theorem turn_count_is_bounded (max_turns : Z) (calls : list call) :
  (0 < max_turns)%Z ->
  get_turn_count (add_all calls (__init__ max_turns))
  = Z.min (Z.of_nat (List.length calls) / 2) max_turns
  /\ (0 <= get_turn_count (add_all calls (__init__ max_turns)) <= max_turns)%Z.
Proof.
  intro Hm. unfold get_turn_count.
  rewrite (add_all_history calls Hm), MemoryFacts.lastn_length, length_map.
  assert (E : (Z.of_nat
                 (Nat.min (Z.to_nat (max_turns * 2)) (List.length calls)) / 2
               = Z.min (Z.of_nat (List.length calls) / 2) max_turns)%Z).
  { destruct (Nat.le_gt_cases (Z.to_nat (max_turns * 2)) (List.length calls))
      as [H | H].
    - rewrite Nat.min_l by exact H. rewrite Z2Nat.id by lia.
      rewrite Z.div_mul by lia.
      assert (max_turns <= Z.of_nat (List.length calls) / 2)%Z
        by (apply Z.div_le_lower_bound; lia).
      lia.
    - rewrite Nat.min_r by lia.
      assert (Z.of_nat (List.length calls) / 2 < max_turns)%Z
        by (apply Z.div_lt_upper_bound; lia).
      lia. }
  rewrite E. split; [reflexivity |].
  assert (0 <= Z.of_nat (List.length calls) / 2)%Z
    by (apply Z.div_pos; lia).
  lia.
Qed.

(** X11.  A memory built with a negative [max_turns] keeps nothing:
    after any sequence of [add_message] calls its history is empty. *)
Theorem negative_capacity_keeps_nothing (max_turns : Z) (calls : list call) :
  (max_turns < 0)%Z ->
  conversation_history (add_all calls (__init__ max_turns)) = []
  /\ get_turn_count (add_all calls (__init__ max_turns)) = 0%Z
  /\ get_context_string (add_all calls (__init__ max_turns))
     = "No previous conversation.".
Proof.
  intro Hm.
  assert (H : conversation_history (add_all calls (__init__ max_turns)) = []).
  { induction calls as [| c calls IH] using rev_ind; [reflexivity |].
    rewrite MemoryCases.add_all_app. simpl. unfold add_message.
    rewrite MemoryCases.add_all_max_turns, IH. simpl.
    destruct (1 >? max_turns * 2)%Z eqn:E; [| lia].
    simpl. unfold slice_from. simpl.
    destruct (- (max_turns * 2) <? 0)%Z eqn:F; [lia |].
    rewrite Z.min_r by lia. reflexivity. }
  unfold get_turn_count, get_context_string. rewrite H. repeat split.
Qed.

Lemma lastn_one_more A (l : list A) (x : A) :
  l <> [] -> lastn (List.length l) (l ++ [x]) = (tl l ++ [x])%list.
Proof.
  intro N. unfold lastn. rewrite length_app. simpl.
  replace (List.length l + 1 - List.length l)%nat with 1%nat by lia.
  destruct l; [congruence | reflexivity].
Qed.

Lemma add_message_within_capacity now role content self :
  within_capacity self -> within_capacity (add_message now role content self).
Proof.
  intros [Hm Hl]. split; rewrite MemoryFacts.add_message_max_turns;
    [exact Hm |].
  rewrite MemoryFacts.add_message_history by exact Hm.
  rewrite MemoryFacts.lastn_length. lia.
Qed.

(** X12.  One call of [add_message] on a memory within its capacity,
    with room for at least one turn: below the capacity the message is
    appended and nothing is dropped; at the capacity the oldest message,
    and only that one, is dropped.  The memory stays within its
    capacity. *)
Theorem a_full_memory_drops_its_oldest_message
  (now role content : string) (self : Memory.t) :
  within_capacity self ->
  conversation_history (add_message now role content self)
  = ((if (Z.of_nat (List.length (conversation_history self))
          <? max_turns self * 2)%Z
      then conversation_history self
      else tl (conversation_history self))
     ++ [ {| Memory.role := role; Memory.content := content;
             Memory.timestamp := now |} ])%list
  /\ within_capacity (add_message now role content self).
Proof.
  intros [Hm Hl].
  assert (H : conversation_history (add_message now role content self)
              = ((if (Z.of_nat (List.length (conversation_history self))
                      <? max_turns self * 2)%Z
                  then conversation_history self
                  else tl (conversation_history self))
                 ++ [ {| Memory.role := role; Memory.content := content;
                         Memory.timestamp := now |} ])%list).
  { rewrite MemoryFacts.add_message_history by exact Hm.
    destruct (Z.ltb_spec (Z.of_nat (List.length (conversation_history self)))
                (max_turns self * 2)%Z) as [B | B].
    - apply MemoryFacts.lastn_all. rewrite length_app. simpl. lia.
    - replace (Z.to_nat (max_turns self * 2))
        with (List.length (conversation_history self)) by lia.
      apply lastn_one_more. intro E. rewrite E in B. simpl in B. lia. }
  split; [exact H |].
  apply add_message_within_capacity. split; assumption.
Qed.

Lemma same_dialogue_length a b :
  same_dialogue a b ->
  List.length (conversation_history a) = List.length (conversation_history b).
Proof.
  intros [_ H]. apply (f_equal (@List.length _)) in H.
  rewrite !length_map in H. exact H.
Qed.

Lemma context_lines (h : list message) :
  map (fun msg =>
         (if String.eqb (role msg) "user" then "User" else "Jack")
         ++ ": " ++ content msg) h
  = map (fun rc =>
           (if String.eqb (fst rc) "user" then "User" else "Jack")
           ++ ": " ++ snd rc) (map untimed h).
Proof. rewrite map_map. reflexivity. Qed.

Lemma same_dialogue_context a b :
  same_dialogue a b -> get_context_string a = get_context_string b.
Proof.
  intros [_ H]. unfold get_context_string.
  destruct (conversation_history a) as [| x h] eqn:Ea;
    destruct (conversation_history b) as [| y k] eqn:Eb;
    try discriminate H; [reflexivity |].
  rewrite (context_lines (x :: h)), (context_lines (y :: k)), H.
  reflexivity.
Qed.

Lemma same_dialogue_turns a b :
  same_dialogue a b -> get_turn_count a = get_turn_count b.
Proof.
  intro H. unfold get_turn_count. rewrite (same_dialogue_length H).
  reflexivity.
Qed.

Lemma same_dialogue_add t1 t2 role content a b :
  same_dialogue a b ->
  same_dialogue (add_message t1 role content a) (add_message t2 role content b).
Proof.
  intro H. pose proof (same_dialogue_length H) as L. destruct H as [M H].
  unfold add_message. rewrite !length_app, L, M. simpl.
  destruct (_ >? _)%Z; split; simpl; try reflexivity.
  - unfold slice_from. rewrite !length_app, L. simpl.
    rewrite <- !skipn_map, !map_app, H. reflexivity.
  - rewrite !map_app, H. reflexivity.
Qed.

(** X13.  Timestamps are only stored.  Two memories with the same
    capacity and the same roles and contents, whatever their
    timestamps, have the same turn count, the same context string and
    the same history in the format for the model, and they still agree
    after a message is added to each at different times. *)
Theorem timestamps_are_only_stored (a b : Memory.t)
  (t1 t2 role content : string) :
  same_dialogue a b ->
  get_turn_count a = get_turn_count b
  /\ get_context_string a = get_context_string b
  /\ get_conversation_history true a = get_conversation_history true b
  /\ same_dialogue (add_message t1 role content a)
       (add_message t2 role content b).
Proof.
  intro H. split; [apply same_dialogue_turns, H |].
  split; [apply same_dialogue_context, H |].
  split; [| apply same_dialogue_add, H].
  destruct H as [_ H]. unfold get_conversation_history.
  transitivity (map (fun rc => RoleContent (fst rc) (snd rc))
                  (map untimed (conversation_history a)));
    [rewrite map_map; reflexivity |].
  rewrite H, map_map. reflexivity.
Qed.

End WindowFacts.

Module WindowCases.
Import Memory MemorySpec DialogueSpec.

(** [turn_count_is_bounded] for three turns: after five calls, and
    after twelve. *)
Lemma five_calls_are_two_turns :
  get_turn_count (add_all (numbered_calls 0 5) (__init__ 3)) = 2%Z
  /\ get_turn_count (add_all (numbered_calls 0 12) (__init__ 3)) = 3%Z.
Proof.
  assert (Hm : (0 < 3)%Z) by lia.
  split.
  - exact (proj1 (WindowFacts.turn_count_is_bounded (numbered_calls 0 5) Hm)).
  - exact (proj1 (WindowFacts.turn_count_is_bounded (numbered_calls 0 12) Hm)).
Defined.

(** [negative_capacity_keeps_nothing] on [Memory(max_turns=-1)]. *)
Lemma minus_one_turn_keeps_nothing :
  conversation_history (add_all (numbered_calls 0 3) (__init__ (-1))) = []
  /\ conversation_history
       (add_message "t" "user" "Hello Jack!" (__init__ (-1))) = [].
Proof.
  assert (Hm : (-1 < 0)%Z) by lia.
  split.
  - exact (proj1 (WindowFacts.negative_capacity_keeps_nothing
                    (numbered_calls 0 3) Hm)).
  - exact (proj1 (WindowFacts.negative_capacity_keeps_nothing
                    [ {| at_time := "t"; with_role := "user";
                         with_content := "Hello Jack!" |} ] Hm)).
Defined.

(** [a_full_memory_drops_its_oldest_message] on a memory of one turn
    that holds two messages. *)
Lemma third_message_pushes_the_first_out :
  conversation_history
    (add_message "t3" "user" "And the rum?"
       {| max_turns := 1;
          conversation_history :=
            [ {| role := "user"; content := "Hello Jack!"; timestamp := "t1" |};
              {| role := "assistant"; content := "Ahoy!"; timestamp := "t2" |} ]
       |})
  = [ {| role := "assistant"; content := "Ahoy!"; timestamp := "t2" |};
      {| role := "user"; content := "And the rum?"; timestamp := "t3" |} ].
Proof.
  assert (W : within_capacity
                {| max_turns := 1;
                   conversation_history :=
                     [ {| role := "user"; content := "Hello Jack!";
                          timestamp := "t1" |};
                       {| role := "assistant"; content := "Ahoy!";
                          timestamp := "t2" |} ] |})
    by (unfold within_capacity; simpl; lia).
  exact (proj1 (WindowFacts.a_full_memory_drops_its_oldest_message
                  "t3" "user" "And the rum?" W)).
Defined.

(** [timestamps_are_only_stored] on the same greeting recorded at two
    times. *)
Lemma same_greeting_at_two_times :
  same_dialogue
    (add_message "t1" "user" "Hello Jack!" (__init__ 3))
    (add_message "t2" "user" "Hello Jack!" (__init__ 3))
  /\ get_context_string (add_message "t1" "user" "Hello Jack!" (__init__ 3))
     = get_context_string (add_message "t2" "user" "Hello Jack!" (__init__ 3))
  /\ add_message "t1" "user" "Hello Jack!" (__init__ 3)
     <> add_message "t2" "user" "Hello Jack!" (__init__ 3).
Proof.
  assert (S : same_dialogue
                (add_message "t1" "user" "Hello Jack!" (__init__ 3))
                (add_message "t2" "user" "Hello Jack!" (__init__ 3)))
    by (split; reflexivity).
  split; [exact S |]. split; [| discriminate].
  exact (proj1 (proj2 (WindowFacts.timestamps_are_only_stored
                         "t" "t" "user" "" S))).
Defined.

End WindowCases.

(** Loading the knowledge base. *)
Module LoadingFacts.
Import PyStr VectorStore.

Lemma to_int_not_nil z :
  Z.to_int z <> Decimal.Pos Decimal.Nil
  /\ Z.to_int z <> Decimal.Neg Decimal.Nil.
Proof.
  destruct z as [| p | p]; simpl; split; try discriminate;
    intro H; inversion H as [E];
    apply (Unsigned.to_uint_nonnil p); exact E.
Qed.

(** [str] tells integers apart. *)
Lemma of_int_injective a b : of_int a = of_int b -> a = b.
Proof.
  unfold of_int. intro H. apply DecimalZ.to_int_inj.
  destruct (to_int_not_nil a) as [A1 A2].
  destruct (to_int_not_nil b) as [B1 B2].
  pose proof (@NilZero.isi _ A1 A2) as IA.
  pose proof (@NilZero.isi _ B1 B2) as IB.
  rewrite H in IA. congruence.
Qed.

Lemma append_injective p a b : p ++ a = p ++ b -> a = b.
Proof.
  induction p as [| c p IH]; simpl; intro H; [exact H |]. inversion H. auto.
Qed.

Lemma doc_ids_length n : List.length (doc_ids n) = n.
Proof. unfold doc_ids. rewrite length_map, length_seq. reflexivity. Qed.

Lemma map_distinct A B (f : A -> B) (l : list A) :
  (forall x y, f x = f y -> x = y) -> NoDup l -> NoDup (map f l).
Proof.
  intros I N. induction N as [| x l H N IH]; simpl; constructor; [| exact IH].
  intro M. apply in_map_iff in M. destruct M as [y [E Hy]].
  apply I in E. subst y. contradiction.
Qed.

Lemma doc_ids_distinct n : NoDup (doc_ids n).
Proof.
  unfold doc_ids. apply map_distinct; [| apply seq_NoDup].
  intros i j H. apply append_injective in H. apply of_int_injective in H. lia.
Qed.

Lemma doc_ids_prefix n m : (n <= m)%nat -> doc_ids n = firstn n (doc_ids m).
Proof.
  intro H. unfold doc_ids. rewrite firstn_map. f_equal.
  replace m with (n + (m - n))%nat at 1 by lia.
  rewrite seq_app, firstn_app, length_seq, Nat.sub_diag. simpl.
  rewrite app_nil_r. symmetry. apply firstn_all2. rewrite length_seq. lia.
Qed.

Lemma documents_of_stripped lines :
  Forall (fun d => d <> "" /\ strip d = d) (documents_of lines).
Proof.
  unfold documents_of.
  induction lines as [| l lines IH]; simpl; [constructor |].
  destruct (truthy (strip l)) eqn:E; [| exact IH].
  simpl. constructor; [| exact IH]. split.
  - destruct (strip l); [discriminate | discriminate].
  - apply StripFacts.strip_strip.
Qed.

Lemma documents_of_length lines :
  (List.length (documents_of lines) <= List.length lines)%nat.
Proof.
  unfold documents_of. rewrite length_map. apply filter_length_le.
Qed.

Lemma documents_of_blank lines :
  Forall (fun l => strip l = "") lines -> documents_of lines = [].
Proof.
  unfold documents_of.
  induction 1 as [| l lines H _ IH]; simpl; [reflexivity |].
  rewrite H. simpl. exact IH.
Qed.

Section LoadingFacts.
Variable embedding : Type.

(** X14.  [add_documents] does nothing for an empty list: neither the
    embedding model nor the collection is called.  For other lists the
    identifiers it passes to the collection are as many as the
    documents and pairwise different; they are numbered from
    [doc_0] in every call, so the identifiers of a call are the first
    ones of any call with as many documents or more. *)
Theorem document_ids_are_numbered_from_zero (self : Loader embedding) :
  add_documents self [] = ([], Ok tt)
  /\ (forall documents embeddings,
        documents <> [] ->
        encode_all self documents = Ok embeddings ->
        add_documents self documents
        = ([ Encoded documents;
             Added embeddings documents (doc_ids (List.length documents)) ],
           collection_add self embeddings documents
             (doc_ids (List.length documents))))
  /\ (forall n, List.length (doc_ids n) = n /\ NoDup (doc_ids n))
  /\ (forall n m, (n <= m)%nat -> doc_ids n = firstn n (doc_ids m))
  /\ nth_error (doc_ids 12) 11 = Some "doc_11".
Proof.
  split; [reflexivity |].
  split.
  - intros documents embeddings N E. unfold add_documents. rewrite E.
    destruct documents; [congruence | reflexivity].
  - split; [intro n; split; [apply doc_ids_length | apply doc_ids_distinct] |].
    split; [exact doc_ids_prefix | reflexivity].
Qed.

(** X15.  [load_from_file] never passes an empty document, or one with
    white space around it, to the collection: the documents are the
    lines of the file, stripped, those that are blank left out, in the
    order of the file.  When the file cannot be read, or holds only
    blank lines, nothing is embedded and nothing is added. *)
Theorem only_stripped_lines_are_loaded (self : Loader embedding)
  (filepath : string) :
  (forall x, read_lines self filepath = Raise x ->
             load_from_file self filepath = [])
  /\ (forall lines,
        read_lines self filepath = Ok lines ->
        Forall (fun line => strip line = "") lines ->
        load_from_file self filepath = [])
  /\ (forall event,
        In event (load_from_file self filepath) ->
        exists lines,
          read_lines self filepath = Ok lines
          /\ documents_of lines <> []
          /\ (List.length (documents_of lines) <= List.length lines)%nat
          /\ Forall (fun d => d <> "" /\ strip d = d) (documents_of lines)
          /\ (event = Encoded (documents_of lines)
              \/ exists embeddings,
                   encode_all self (documents_of lines) = Ok embeddings
                   /\ event
                      = Added embeddings (documents_of lines)
                          (doc_ids (List.length (documents_of lines))))).
Proof.
  unfold load_from_file. split; [intros x ->; reflexivity |].
  split.
  - intros lines -> B. rewrite (documents_of_blank B). reflexivity.
  - intros event.
    destruct (read_lines self filepath) as [lines | x]; [| intros []].
    unfold add_documents.
    destruct (documents_of lines) as [| d ds] eqn:D; [intros [] |].
    rewrite <- D. intro H. exists lines. split; [reflexivity |].
    split; [rewrite D; discriminate |].
    split; [apply documents_of_length |].
    split; [apply documents_of_stripped |].
    destruct (encode_all self (documents_of lines)) as [embeddings | x] eqn:E;
      simpl in H.
    + destruct H as [<- | [<- | []]]; [left; reflexivity |].
      right. exists embeddings. split; reflexivity.
    + destruct H as [<- | []]. left; reflexivity.
Qed.

End LoadingFacts.
End LoadingFacts.

(** Conversations with the bot. *)
Module DialogueFacts.

Lemma concat_app sep (a b : list string) :
  b <> [] ->
  String.concat sep (a ++ b)
  = match a with
    | [] => EmptyString
    | _ => String.concat sep a ++ sep
    end ++ String.concat sep b.
Proof.
  intro N. induction a as [| x a IH]; [reflexivity |].
  destruct a as [| y a'].
  - simpl. destruct b; [congruence |].
    rewrite StringFacts.append_assoc. reflexivity.
  - change (String.concat sep ((x :: y :: a') ++ b))
      with (x ++ sep ++ String.concat sep ((y :: a') ++ b)).
    rewrite IH.
    change (String.concat sep (x :: y :: a'))
      with (x ++ sep ++ String.concat sep (y :: a')).
    rewrite !StringFacts.append_assoc. reflexivity.
Qed.

Section DialogueFacts.
Context {float complex : Type} {RT : PyRuntime float complex}.
Variable ast_parse : string -> outcome (ast.expr float complex).
Variable embedding : Type.

Import SparrowBot ChatSpec DialogueSpec.

(** What [chat] leaves in the memory: the user's message, alone or
    followed by one assistant message. *)
Lemma chat_memory_after w (self : t embedding) user_message :
  memory_after (chat ast_parse w self user_message)
  = recorded w self user_message
  \/ exists reply,
       memory_after (chat ast_parse w self user_message)
       = Memory.add_message (now w 1) "assistant" reply
           (recorded w self user_message).
Proof.
  destruct (Tools.extract_and_calculate ast_parse user_message)
    as [result |] eqn:Hc.
  - destruct (Tools.format_calculator_response result true)
      as [reply | x] eqn:F.
    + rewrite (@SparrowBotFacts.chat_on_calculation
                 _ _ _ ast_parse embedding w self user_message _ _ Hc F).
      right. eexists; reflexivity.
    + rewrite (@SparrowBotFacts.chat_on_unprintable_value
                 _ _ _ ast_parse embedding w self user_message _ _ Hc F).
      left. reflexivity.
  - rewrite (@SparrowBotFacts.chat_without_calculation
               _ _ _ ast_parse embedding w self user_message Hc).
    unfold chat_reply, _build_context_prompt, _retrieve_relevant_facts.
    simpl. destruct (model self) as [backend |].
    + destruct (VectorStore.query _ _ _); [| left; reflexivity].
      destruct (generate_content backend _);
        [right; eexists; reflexivity | left; reflexivity].
    + destruct (VectorStore.query _ _ _) as [[| fact rest] |];
        [| | left; reflexivity].
      * destruct (random_choice w fallbacks);
          [right; eexists; reflexivity | left; reflexivity].
      * destruct (random_choice w templates);
          [right; eexists; reflexivity | left; reflexivity].
Qed.

Lemma chat_within_capacity w (self : t embedding) user_message :
  within_capacity (memory self) ->
  within_capacity (memory_after (chat ast_parse w self user_message))
  /\ Memory.max_turns (memory_after (chat ast_parse w self user_message))
     = Memory.max_turns (memory self).
Proof.
  intro W.
  assert (R : within_capacity (recorded w self user_message))
    by (apply WindowFacts.add_message_within_capacity; exact W).
  assert (M : Memory.max_turns (recorded w self user_message)
              = Memory.max_turns (memory self))
    by apply MemoryFacts.add_message_max_turns.
  destruct (chat_memory_after w self user_message) as [-> | [reply ->]].
  - split; assumption.
  - split; [apply WindowFacts.add_message_within_capacity; exact R |].
    rewrite MemoryFacts.add_message_max_turns. exact M.
Qed.

Lemma perform_keeps (b : t embedding) (a : action) :
  within_capacity (memory b) ->
  within_capacity (memory (perform ast_parse b a))
  /\ Memory.max_turns (memory (perform ast_parse b a))
     = Memory.max_turns (memory b)
  /\ model (perform ast_parse b a) = model b
  /\ vector_store (perform ast_parse b a) = vector_store b.
Proof.
  intro W. destruct a as [w message |]; simpl.
  - destruct (chat_within_capacity w b message W) as [W' M]. auto.
  - destruct W as [Hm _]. repeat split; simpl; try assumption. lia.
Qed.

(** X16.  Whatever is said to a bot built by [__init__], and however
    often it is reset, its memory has room for ten turns and never holds
    more than twenty messages; its model and its store stay the ones it
    was built with. *)
Theorem the_bot_remembers_twenty_messages_at_most
  (model : option Backend) (store : VectorStore.t embedding)
  (actions : list action) :
  Memory.max_turns
    (memory (perform_all ast_parse actions (__init__ model store))) = 10%Z
  /\ (List.length
        (Memory.conversation_history
           (memory (perform_all ast_parse actions (__init__ model store))))
      <= 20)%nat
  /\ (0 <= Memory.get_turn_count
             (memory (perform_all ast_parse actions (__init__ model store)))
      <= 10)%Z
  /\ SparrowBot.model (perform_all ast_parse actions (__init__ model store))
     = model
  /\ vector_store (perform_all ast_parse actions (__init__ model store))
     = store.
Proof.
  assert (H : forall b : t embedding,
             within_capacity (memory b) ->
             within_capacity (memory (perform_all ast_parse actions b))
             /\ Memory.max_turns (memory (perform_all ast_parse actions b))
                = Memory.max_turns (memory b)
             /\ SparrowBot.model (perform_all ast_parse actions b)
                = SparrowBot.model b
             /\ vector_store (perform_all ast_parse actions b)
                = vector_store b).
  { induction actions as [| a rest IH]; intros b W; [auto |].
    simpl. destruct (perform_keeps b a W) as [W' [M [Mo V]]].
    destruct (IH _ W') as [W'' [M' [Mo' V']]].
    repeat split; try exact (proj1 W''); try exact (proj2 W''); congruence. }
  destruct (H (__init__ model store)) as [[_ L] [M [Mo V]]];
    [split; simpl; lia |].
  simpl in M, Mo, V. rewrite M in L.
  split; [exact M |]. split; [lia |].
  split; [| split; assumption].
  unfold Memory.get_turn_count.
  split; [apply Z.div_pos; lia | apply Z.div_le_upper_bound; lia].
Qed.

Lemma random_choice_same w1 w2 (seq : list string) :
  (forall n, randbelow w1 n = randbelow w2 n) ->
  random_choice w1 seq = random_choice w2 seq.
Proof. intro H. unfold random_choice. rewrite H. reflexivity. Qed.

Lemma context_prompt_same facts a b user_message :
  same_dialogue a b ->
  context_prompt facts a user_message = context_prompt facts b user_message.
Proof.
  intro H. unfold context_prompt.
  rewrite (WindowFacts.same_dialogue_turns H).
  rewrite (WindowFacts.same_dialogue_context H). reflexivity.
Qed.

(** X17.  The clock reaches nothing but the timestamps.  Two calls of
    [chat] with the same message, at different times, on bots with the
    same model and store whose memories agree up to timestamps, and
    with the same draws of the random generator, make the same calls
    with the same prompt and return the same reply; the memories they
    leave still agree up to timestamps. *)
Theorem the_clock_reaches_only_the_timestamps
  (w1 w2 : World) (self1 self2 : t embedding) (user_message : string) :
  (forall n, randbelow w1 n = randbelow w2 n) ->
  model self1 = model self2 ->
  vector_store self1 = vector_store self2 ->
  same_dialogue (memory self1) (memory self2) ->
  events (chat ast_parse w1 self1 user_message)
  = events (chat ast_parse w2 self2 user_message)
  /\ returned (chat ast_parse w1 self1 user_message)
     = returned (chat ast_parse w2 self2 user_message)
  /\ same_dialogue (memory_after (chat ast_parse w1 self1 user_message))
       (memory_after (chat ast_parse w2 self2 user_message)).
Proof.
  intros Hr Hm Hv Hd.
  assert (R : same_dialogue (recorded w1 self1 user_message)
                (recorded w2 self2 user_message))
    by (apply WindowFacts.same_dialogue_add; exact Hd).
  destruct (Tools.extract_and_calculate ast_parse user_message)
    as [result |] eqn:Hc.
  - destruct (Tools.format_calculator_response result true)
      as [reply | x] eqn:F.
    + rewrite !(@SparrowBotFacts.chat_on_calculation
                  _ _ _ ast_parse embedding _ _ user_message _ _ Hc F).
      simpl. repeat split;
        try (apply WindowFacts.same_dialogue_add; exact R);
        reflexivity.
    + rewrite !(@SparrowBotFacts.chat_on_unprintable_value
                  _ _ _ ast_parse embedding _ _ user_message _ _ Hc F).
      simpl. repeat split; try exact (proj1 R); try exact (proj2 R);
        reflexivity.
  - rewrite !(@SparrowBotFacts.chat_without_calculation
                _ _ _ ast_parse embedding _ _ user_message Hc).
    unfold chat_reply, _build_context_prompt, _retrieve_relevant_facts.
    simpl. rewrite <- Hm, <- Hv.
    destruct (model self1) as [backend |].
    + destruct (VectorStore.query (vector_store self1) user_message 2)
        as [facts | x]; simpl;
        [| repeat split; try exact (proj1 R); try exact (proj2 R);
           reflexivity].
      fold (recorded w1 self1 user_message).
      fold (recorded w2 self2 user_message).
      rewrite (context_prompt_same facts user_message R).
      destruct (generate_content backend _); simpl;
        repeat split;
        try (apply WindowFacts.same_dialogue_add; exact R);
        try exact (proj1 R); try exact (proj2 R); reflexivity.
    + destruct (VectorStore.query (vector_store self1) user_message 1)
        as [[| fact rest] | x]; simpl.
      * rewrite (@random_choice_same w1 w2 fallbacks Hr).
        destruct (random_choice w2 fallbacks); simpl; repeat split;
          try (apply WindowFacts.same_dialogue_add; exact R);
          try exact (proj1 R); try exact (proj2 R); reflexivity.
      * rewrite (@random_choice_same w1 w2 templates Hr).
        destruct (random_choice w2 templates); simpl; repeat split;
          try (apply WindowFacts.same_dialogue_add; exact R);
          try exact (proj1 R); try exact (proj2 R); reflexivity.
      * repeat split; try exact (proj1 R); try exact (proj2 R); reflexivity.
Qed.

End DialogueFacts.
End DialogueFacts.

(** The prompt sent to the model, and the model [__init__] sets up. *)
Module PromptFacts.
Section PromptFacts.
Context {float complex : Type} {RT : PyRuntime float complex}.
Variable ast_parse : string -> outcome (ast.expr float complex).
Variable embedding : Type.

Import SparrowBot ChatSpec DialogueSpec.

(** The history once the user's message is recorded: what is kept of
    the older messages, then the message. *)
Lemma recorded_history w (self : t embedding) user_message :
  within_capacity (memory self) ->
  exists older,
    Memory.conversation_history (recorded w self user_message)
    = (older
       ++ [ {| Memory.role := "user"; Memory.content := user_message;
               Memory.timestamp := now w 0 |} ])%list
    /\ (Memory.conversation_history (memory self) = [] -> older = [])
    /\ (Memory.conversation_history (memory self) <> [] -> older <> []).
Proof.
  intros [Hm Hl]. unfold recorded.
  rewrite MemoryFacts.add_message_history by exact Hm.
  destruct (Z.ltb_spec
              (Z.of_nat
                 (List.length (Memory.conversation_history (memory self))))
              (Memory.max_turns (memory self) * 2)%Z) as [B | B].
  - exists (Memory.conversation_history (memory self)).
    split; [| split; auto].
    apply MemoryFacts.lastn_all. rewrite length_app. simpl. lia.
  - exists (tl (Memory.conversation_history (memory self))).
    replace (Z.to_nat (Memory.max_turns (memory self) * 2))
      with (List.length (Memory.conversation_history (memory self))) by lia.
    destruct (Memory.conversation_history (memory self)) as [| x [| y h]] eqn:E;
      simpl in *; try lia.
    split; [| split; [discriminate | discriminate]].
    unfold lastn. simpl.
    replace (List.length h + 1 - List.length h)%nat with 1%nat by lia.
    rewrite length_app. simpl.
    replace (List.length h + 1 - List.length h)%nat with 1%nat by lia.
    reflexivity.
Qed.

Lemma context_string_ends_with_the_message (m : Memory.t) older t content :
  older <> [] ->
  Memory.conversation_history m
  = (older ++ [ {| Memory.role := "user"; Memory.content := content;
                   Memory.timestamp := t |} ])%list ->
  (Memory.get_turn_count m > 0)%Z
  /\ exists before,
       Memory.get_context_string m = before ++ "User: " ++ content.
Proof.
  intros N H. split.
  - unfold Memory.get_turn_count. rewrite H, length_app.
    assert (L : (2 <= List.length older + List.length
                   [ {| Memory.role := "user"; Memory.content := content;
                        Memory.timestamp := t |} ])%nat).
    { destruct older as [| x older]; [congruence |].
      cbn [List.length]. lia. }
    assert (1 <= Z.of_nat (List.length older + List.length
                   [ {| Memory.role := "user"; Memory.content := content;
                        Memory.timestamp := t |} ]) / 2)%Z
      by (apply Z.div_le_lower_bound; lia).
    lia.
  - unfold Memory.get_context_string. rewrite H.
    destruct older as [| x older]; [congruence |].
    change ((x :: older) ++ [ {| Memory.role := "user";
                                 Memory.content := content;
                                 Memory.timestamp := t |} ])%list
      with (x :: (older ++ [ {| Memory.role := "user";
                                Memory.content := content;
                                Memory.timestamp := t |} ]))%list.
    cbv iota. unfold PyStr.join.
    change (x :: (older ++ [ {| Memory.role := "user";
                                Memory.content := content;
                                Memory.timestamp := t |} ]))%list
      with ((x :: older) ++ [ {| Memory.role := "user";
                                 Memory.content := content;
                                 Memory.timestamp := t |} ])%list.
    rewrite map_app, DialogueFacts.concat_app by discriminate.
    eexists. simpl. reflexivity.
Qed.

(** X18.  With a model configured, for a message that is not a
    calculation and a store that answers, [chat] sends the model one
    prompt, built after the user's message was recorded.  On the first
    message of a conversation the prompt has no "Recent conversation"
    part: it is the prompt of an empty memory.  On any later message
    the prompt holds the recent conversation, whose last line is the
    user's message itself, and then the message again as the current
    one. *)
Theorem the_prompt_repeats_the_current_message
  (w : World) (self : t embedding) (backend : Backend)
  (facts : list string) (user_message : string) :
  model self = Some backend ->
  Tools.extract_and_calculate ast_parse user_message = None ->
  VectorStore.query (vector_store self) user_message 2 = Ok facts ->
  within_capacity (memory self) ->
  events (chat ast_parse w self user_message)
  = [ Retrieved user_message 2;
      Generated
        (context_prompt facts (recorded w self user_message) user_message) ]
  /\ (Memory.conversation_history (memory self) = [] ->
      context_prompt facts (recorded w self user_message) user_message
      = context_prompt facts
          (Memory.__init__ (Memory.max_turns (memory self))) user_message)
  /\ (Memory.conversation_history (memory self) <> [] ->
      exists head before,
        context_prompt facts (recorded w self user_message) user_message
        = head ++ PyStr.newline ++ "Recent conversation:" ++ PyStr.newline
          ++ before ++ "User: " ++ user_message ++ PyStr.newline
          ++ PyStr.newline ++ "Current user message: " ++ user_message).
Proof.
  intros Hm Hc Hq W.
  destruct (@recorded_history w self user_message W) as [older [H [E N]]].
  split; [| split].
  - rewrite (@SparrowBotFacts.chat_without_calculation
               _ _ _ ast_parse embedding w self user_message Hc).
    unfold chat_reply, _build_context_prompt, _retrieve_relevant_facts.
    simpl. rewrite Hm, Hq.
    fold (recorded w self user_message).
    destruct (generate_content backend _); reflexivity.
  - intro Z. unfold context_prompt, Memory.get_turn_count.
    rewrite H, (E Z). reflexivity.
  - intro Z.
    destruct (@context_string_ends_with_the_message
                (recorded w self user_message) older (now w 0) user_message
                (N Z) H) as [T [before B]].
    unfold context_prompt.
    destruct (Memory.get_turn_count (recorded w self user_message) >? 0)%Z
      eqn:G; [| lia].
    unfold PyStr.join. rewrite DialogueFacts.concat_app by discriminate.
    rewrite B.
    eexists. exists before. f_equal.
    simpl. rewrite !StringFacts.append_assoc. reflexivity.
Qed.

(** X19.  The model [__init__] sets up.  An empty [api_key] counts as
    none: the key of the environment is used.  Any other [api_key] is
    used whatever the environment holds.  The model is configured at
    most once and never with an empty key, and a configuration that
    raises leaves the bot without a model instead of failing. *)
Theorem an_empty_key_is_no_key
  (configure : string -> outcome Backend) (api_key getenv : option string) :
  init_model configure (Some "") getenv = init_model configure None getenv
  /\ (forall key other,
        key <> "" ->
        init_model configure (Some key) other
        = init_model configure (Some key) getenv
        /\ fst (init_model configure (Some key) getenv) = [key])
  /\ (List.length (fst (init_model configure api_key getenv)) <= 1)%nat
  /\ ~ In "" (fst (init_model configure api_key getenv))
  /\ (forall model,
        snd (init_model configure api_key getenv) = Some model <->
        exists key,
          fst (init_model configure api_key getenv) = [key]
          /\ configure key = Ok model)
  /\ (init_api_key api_key getenv = None ->
      init_model configure api_key getenv = ([], None)).
Proof.
  split; [reflexivity |].
  split.
  { intros key other N. unfold init_model, init_api_key.
    destruct key as [| c key]; [congruence |]. simpl.
    destruct (configure (String c key)); auto. }
  unfold init_model.
  destruct (init_api_key api_key getenv) as [[| c key] |]; simpl.
  - repeat split; try lia; try tauto; try discriminate.
    intros [key [H _]]. discriminate H.
  - destruct (configure (String c key)) as [m | x] eqn:E; simpl.
    + repeat split; try lia; try discriminate.
      * intros [H | []]. discriminate H.
      * intro H. inversion H; subst.
        exists (String c key). split; [reflexivity | exact E].
      * intros [k [H1 H2]]. inversion H1; subst k. congruence.
    + repeat split; try lia; try discriminate.
      * intros [H | []]. discriminate H.
      * intros [k [H1 H2]]. inversion H1; subst k. congruence.
  - repeat split; try lia; try tauto; try discriminate.
    intros [key [H _]]. discriminate H.
Qed.

End PromptFacts.
End PromptFacts.

Module DialogueCases.
Import SparrowBot ChatSpec DialogueSpec.

(** [the_clock_reaches_only_the_timestamps] on a greeting sent at two
    times. *)
Lemma hello_now_and_later :
  returned
    (chat Binary64.parse Fixtures.world
       (Fixtures.bot (Some Fixtures.echo_backend) Fixtures.pearl_store)
       "Hello!")
  = returned
      (chat Binary64.parse Fixtures.later_world
         (Fixtures.bot (Some Fixtures.echo_backend) Fixtures.pearl_store)
         "Hello!")
  /\ memory_after
       (chat Binary64.parse Fixtures.world
          (Fixtures.bot (Some Fixtures.echo_backend) Fixtures.pearl_store)
          "Hello!")
     <> memory_after
          (chat Binary64.parse Fixtures.later_world
             (Fixtures.bot (Some Fixtures.echo_backend) Fixtures.pearl_store)
             "Hello!").
Proof.
  split.
  - refine (proj1 (proj2 (@DialogueFacts.the_clock_reaches_only_the_timestamps
                            _ _ _ Binary64.parse unit
                            Fixtures.world Fixtures.later_world
                            (Fixtures.bot (Some Fixtures.echo_backend)
                               Fixtures.pearl_store)
                            (Fixtures.bot (Some Fixtures.echo_backend)
                               Fixtures.pearl_store)
                            "Hello!" _ eq_refl eq_refl _))).
    + intro n. reflexivity.
    + split; reflexivity.
  - vm_compute. discriminate.
Defined.

(** [the_prompt_repeats_the_current_message] on the second message of a
    conversation. *)
Lemma the_second_prompt :
  events
    (chat Binary64.parse Fixtures.later_world
       (perform Binary64.parse
          (Fixtures.bot (Some Fixtures.echo_backend) Fixtures.pearl_store)
          (Say Fixtures.world "Hello!"))
       "Where is the rum?")
  = [ Retrieved "Where is the rum?" 2;
      Generated
        ("Relevant facts from your memory:" ++ PyStr.newline
         ++ "1. The Black Pearl is the fastest ship." ++ PyStr.newline
         ++ PyStr.newline ++ "Recent conversation:" ++ PyStr.newline
         ++ "User: Hello!" ++ PyStr.newline
         ++ "Jack: Aye, savvy?" ++ PyStr.newline
         ++ "User: Where is the rum?" ++ PyStr.newline
         ++ PyStr.newline ++ "Current user message: Where is the rum?") ].
Proof.
  refine (eq_trans
            (proj1 (@PromptFacts.the_prompt_repeats_the_current_message
                      _ _ _ Binary64.parse unit Fixtures.later_world
                      (perform Binary64.parse
                         (Fixtures.bot (Some Fixtures.echo_backend)
                            Fixtures.pearl_store)
                         (Say Fixtures.world "Hello!"))
                      Fixtures.echo_backend
                      ["The Black Pearl is the fastest ship."]
                      "Where is the rum?" eq_refl _ eq_refl _)) _).
  - vm_compute. reflexivity.
  - unfold within_capacity. vm_compute. split; [reflexivity | discriminate].
  - vm_compute. reflexivity.
Defined.

End DialogueCases.

(** The command loop of [main]. *)
Module MainFacts.
Section MainFacts.
Context {float complex : Type} {RT : PyRuntime float complex}.
Variable ast_parse : string -> outcome (ast.expr float complex).
Variable embedding : Type.
Variable stdin : nat -> Main.read.
Variable worlds : nat -> SparrowBot.World.

Import Main MainSpec ChatSpec.
Local Arguments SparrowBot.chat : simpl never.

Lemma commands_split x :
  PyParser.mem x commands
  = PyParser.mem x ["quit"; "exit"; "bye"]
    || PyParser.mem x ["help"; "?"]
    || String.eqb x "reset".
Proof.
  unfold commands, PyParser.mem. cbn [existsb].
  rewrite !orb_false_r, !orb_assoc. reflexivity.
Qed.

Lemma bot_chat_counts message (s t : session embedding) r :
  Main.bot_chat ast_parse worlds message s = (r, t) ->
  asked t = (asked s ++ [message])%list
  /\ chats t = S (chats s) /\ reads t = reads s /\ output t = output s
  /\ r = SparrowBot.returned
           (SparrowBot.chat ast_parse (worlds (chats s)) (bot s) message)
  /\ bot t
     = SparrowBot.set_memory (bot s)
         (SparrowBot.memory_after
            (SparrowBot.chat ast_parse (worlds (chats s)) (bot s) message)).
Proof.
  unfold Main.bot_chat. intro H. inversion H. repeat split.
Qed.

Lemma iteration_at_the_end (s : session embedding) :
  stdin (reads s) = EndOfInput ->
  Main.iteration ast_parse stdin worlds s
  = (Continue,
     {| bot := bot s; reads := S (reads s); chats := chats s;
        asked := asked s;
        output := (output s ++ [Error "EOF when reading a line"])%list |}).
Proof. intro H. unfold Main.iteration, input. rewrite H. reflexivity. Qed.

Lemma loop_at_the_end (fuel : nat) (s : session embedding) :
  (forall k, (reads s <= k)%nat -> stdin k = EndOfInput) ->
  Main.loop ast_parse stdin worlds fuel s = None.
Proof.
  revert s. induction fuel as [| fuel IH]; intros s H; [reflexivity |].
  simpl. rewrite (iteration_at_the_end s (H _ (Nat.le_refl _))).
  apply IH. simpl. intros k Hk. apply H. lia.
Qed.

(** X20.  Once the input has ended the loop never ends: every call of
    [input] raises [EOFError], the handler of [Exception] prints it and
    the loop goes on, whatever the number of passes.  A run of [main]
    whose input is empty therefore never returns: the greeting raises,
    or the loop runs for ever. *)
Theorem the_end_of_input_does_not_end_the_loop (n : nat) :
  (forall k, (n <= k)%nat -> stdin k = EndOfInput) ->
  (forall (s : session embedding) fuel,
      (n <= reads s)%nat -> Main.loop ast_parse stdin worlds fuel s = None)
  /\ (forall s : session embedding,
        (n <= reads s)%nat ->
        Main.iteration ast_parse stdin worlds s
        = (Continue,
           {| bot := bot s; reads := S (reads s); chats := chats s;
              asked := asked s;
              output :=
                (output s ++ [Error "EOF when reading a line"])%list |}))
  /\ (n = 0%nat ->
      forall fuel (b : SparrowBot.t embedding),
        (forall greeting,
            SparrowBot.returned
              (SparrowBot.chat ast_parse (worlds 0) b "Hello!") = Ok greeting ->
            Main.main ast_parse stdin worlds fuel (Ok b) = None)
        /\ forall s',
             Main.main ast_parse stdin worlds fuel (Ok b)
             <> Some (Returned s')).
Proof.
  intro H.
  assert (L : forall (s : session embedding) fuel,
             (n <= reads s)%nat ->
             Main.loop ast_parse stdin worlds fuel s = None).
  { intros s fuel Hs. apply loop_at_the_end. intros k Hk. apply H. lia. }
  split; [exact L |].
  split; [intros s Hs; apply iteration_at_the_end, H, Hs |].
  intros Z fuel b. unfold Main.main, Main.bot_chat. simpl. split.
  - intros greeting ->. rewrite L by (simpl; lia). reflexivity.
  - intro s'. destruct (SparrowBot.returned _);
      [rewrite L by (simpl; lia) |]; discriminate.
Qed.

Lemma goodbye_is_no_calculation :
  Tools.extract_and_calculate ast_parse "Goodbye!" = None.
Proof. reflexivity. Qed.

Lemma hello_is_no_calculation :
  Tools.extract_and_calculate ast_parse "Hello!" = None.
Proof. reflexivity. Qed.

(** What [chat] returns and leaves when the store raises. *)
Lemma chat_when_the_store_raises w (b : SparrowBot.t embedding) message x :
  Tools.extract_and_calculate ast_parse message = None ->
  VectorStore.query (SparrowBot.vector_store b) message (n_results b)
  = Raise x ->
  SparrowBot.returned (SparrowBot.chat ast_parse w b message) = Raise x
  /\ SparrowBot.memory_after (SparrowBot.chat ast_parse w b message)
     = recorded w b message.
Proof.
  intros Hc Hq.
  rewrite (@SparrowBotFacts.chat_without_calculation
             _ _ _ ast_parse embedding w b message Hc).
  unfold SparrowBot.chat_reply, SparrowBot._build_context_prompt,
    SparrowBot._retrieve_relevant_facts.
  unfold n_results in Hq. simpl.
  destruct (SparrowBot.model b); rewrite Hq; split; reflexivity.
Qed.

(** X21.  Where an error of the store surfaces in [main].  The
    greeting is sent outside the [try]: when the store raises on it,
    the exception leaves [main] before any input is read.  Inside the
    loop the exception is printed and the loop goes on, the user's
    message staying in the memory; this holds for the farewell too, so
    that "quit", "exit" and "bye" do not end the session while the
    store raises. *)
Theorem a_failing_store_stops_the_greeting_not_the_loop
  (s : session embedding) (x : exception) :
  (forall fuel (b : SparrowBot.t embedding),
      VectorStore.query (SparrowBot.vector_store b) "Hello!" (n_results b)
      = Raise x ->
      Main.main ast_parse stdin worlds fuel (Ok b)
      = Some (Raised x
                {| bot :=
                     SparrowBot.set_memory b (recorded (worlds 0) b "Hello!");
                   reads := 0; chats := 1; asked := ["Hello!"];
                   output := [] |}))
  /\ (forall text,
        stdin (reads s) = Line text ->
        PyParser.mem (PyStr.lower (PyStr.strip text)) ["quit"; "exit"; "bye"]
        = true ->
        VectorStore.query (SparrowBot.vector_store (bot s)) "Goodbye!"
          (n_results (bot s)) = Raise x ->
        Main.iteration ast_parse stdin worlds s
        = (Continue,
           {| bot :=
                SparrowBot.set_memory (bot s)
                  (recorded (worlds (chats s)) (bot s) "Goodbye!");
              reads := S (reads s); chats := S (chats s);
              asked := (asked s ++ ["Goodbye!"])%list;
              output := (output s ++ [Error (str_exception x)])%list |}))
  /\ (forall text,
        stdin (reads s) = Line text ->
        user_text (PyStr.strip text) ->
        Tools.extract_and_calculate ast_parse (PyStr.strip text) = None ->
        VectorStore.query (SparrowBot.vector_store (bot s)) (PyStr.strip text)
          (n_results (bot s)) = Raise x ->
        Main.iteration ast_parse stdin worlds s
        = (Continue,
           {| bot :=
                SparrowBot.set_memory (bot s)
                  (recorded (worlds (chats s)) (bot s) (PyStr.strip text));
              reads := S (reads s); chats := S (chats s);
              asked := (asked s ++ [PyStr.strip text])%list;
              output := (output s ++ [Error (str_exception x)])%list |})).
Proof.
  split; [| split].
  - intros fuel b Hq. unfold Main.main, Main.bot_chat. simpl.
    destruct (@chat_when_the_store_raises (worlds 0) b "Hello!" x
                hello_is_no_calculation Hq) as [R M].
    rewrite R, M. reflexivity.
  - intros text Hl Hm Hq. unfold Main.iteration, input. rewrite Hl.
    assert (T : PyStr.truthy (PyStr.strip text) = true)
      by (destruct (PyStr.strip text); [discriminate Hm | reflexivity]).
    rewrite T, Hm. unfold Main.bot_chat. simpl.
    destruct (@chat_when_the_store_raises (worlds (chats s)) (bot s)
                "Goodbye!" x goodbye_is_no_calculation Hq) as [R M].
    rewrite R, M. reflexivity.
  - intros text Hl [_ [N C]] Hc Hq. unfold Main.iteration, input. rewrite Hl.
    assert (T : PyStr.truthy (PyStr.strip text) = true)
      by (destruct (PyStr.strip text); [congruence | reflexivity]).
    rewrite T. rewrite commands_split in C.
    apply orb_false_iff in C. destruct C as [C C3].
    apply orb_false_iff in C. destruct C as [C1 C2].
    rewrite C1, C2, C3. unfold Main.bot_chat. simpl.
    destruct (@chat_when_the_store_raises (worlds (chats s)) (bot s)
                (PyStr.strip text) x Hc Hq) as [R M].
    rewrite R, M. reflexivity.
Qed.

(** The messages one pass of the loop sends to the bot. *)
Lemma iteration_asks (s : session embedding) :
  exists more,
    asked (snd (Main.iteration ast_parse stdin worlds s))
    = (asked s ++ more)%list
    /\ Forall (fun message => message = "Goodbye!" \/ user_text message) more
    /\ chats (snd (Main.iteration ast_parse stdin worlds s))
       = (chats s + List.length more)%nat.
Proof.
  assert (Nothing : forall t : session embedding,
             asked t = asked s -> chats t = chats s ->
             exists more,
               asked t = (asked s ++ more)%list
               /\ Forall (fun message =>
                            message = "Goodbye!" \/ user_text message) more
               /\ chats t = (chats s + List.length more)%nat).
  { intros t A C. exists []. rewrite app_nil_r. cbn [List.length].
    repeat split; [exact A | constructor | lia]. }
  assert (One : forall message (t : session embedding),
             message = "Goodbye!" \/ user_text message ->
             asked t = (asked s ++ [message])%list -> chats t = S (chats s) ->
             exists more,
               asked t = (asked s ++ more)%list
               /\ Forall (fun message =>
                            message = "Goodbye!" \/ user_text message) more
               /\ chats t = (chats s + List.length more)%nat).
  { intros message t U A C. exists [message]. cbn [List.length].
    repeat split; [exact A | constructor; [exact U | constructor] | lia]. }
  unfold Main.iteration, input.
  destruct (stdin (reads s)) as [text | |];
    [| apply Nothing; reflexivity | apply Nothing; reflexivity].
  destruct (PyStr.truthy (PyStr.strip text)) eqn:T; cbn [negb];
    [| apply Nothing; reflexivity].
  destruct (PyParser.mem (PyStr.lower (PyStr.strip text))
              ["quit"; "exit"; "bye"]) eqn:Q.
  { destruct (Main.bot_chat ast_parse worlds "Goodbye!" _) as [r t] eqn:B.
    destruct (bot_chat_counts B) as [A [C _]].
    destruct r; apply (One "Goodbye!"); auto. }
  destruct (PyParser.mem (PyStr.lower (PyStr.strip text)) ["help"; "?"])
    eqn:H; [apply Nothing; reflexivity |].
  destruct (String.eqb (PyStr.lower (PyStr.strip text)) "reset") eqn:R;
    [apply Nothing; reflexivity |].
  assert (U : user_text (PyStr.strip text)).
  { split; [apply StripFacts.strip_strip |].
    split; [destruct (PyStr.strip text); [discriminate T | discriminate] |].
    rewrite commands_split, Q, H, R. reflexivity. }
  destruct (Main.bot_chat ast_parse worlds (PyStr.strip text) _)
    as [r t] eqn:B.
  destruct (bot_chat_counts B) as [A [C _]].
  destruct r; apply (One (PyStr.strip text)); auto.
Qed.

Lemma loop_asks fuel (s s' : session embedding) :
  Main.loop ast_parse stdin worlds fuel s = Some s' ->
  exists more,
    asked s' = (asked s ++ more)%list
    /\ Forall (fun message => message = "Goodbye!" \/ user_text message) more
    /\ chats s' = (chats s + List.length more)%nat.
Proof.
  revert s. induction fuel as [| fuel IH]; intros s H; [discriminate H |].
  simpl in H. destruct (iteration_asks s) as [m1 [A1 [F1 C1]]].
  destruct (Main.iteration ast_parse stdin worlds s) as [[|] t]; simpl in *.
  - destruct (IH _ H) as [m2 [A2 [F2 C2]]].
    exists (m1 ++ m2)%list. rewrite A2, A1, app_assoc, C2, C1, length_app.
    split; [reflexivity |]. split; [apply Forall_app; auto | lia].
  - inversion H; subst t. exists m1. auto.
Qed.

(** X22.  What [main] sends to the bot.  When a run returns, the bot
    was asked "Hello!" first, and after that only "Goodbye!" or lines of
    the user that were stripped, are not empty and are not commands:
    "help", "?", "reset", "quit", "exit" and "bye", in any case of
    letters and with white space around them, never reach [chat].
    There were as many calls of [chat] as messages. *)
Theorem only_the_user_text_reaches_the_bot (fuel : nat)
  (b : SparrowBot.t embedding) (s' : session embedding) :
  Main.main ast_parse stdin worlds fuel (Ok b) = Some (Returned s') ->
  exists more,
    asked s' = "Hello!" :: more
    /\ Forall (fun message => message = "Goodbye!" \/ user_text message) more
    /\ chats s' = S (List.length more).
Proof.
  unfold Main.main, Main.bot_chat. simpl.
  destruct (SparrowBot.returned _) as [greeting | x]; [| discriminate].
  destruct (Main.loop _ _ _ _ _) as [t |] eqn:L; [| discriminate].
  intro H. inversion H; subst t.
  destruct (@loop_asks fuel _ s' L) as [more [A [F C]]].
  exists more. simpl in *. auto.
Qed.

End MainFacts.
End MainFacts.

Module MainCases.
Import Main MainSpec ChatSpec.

(** [the_end_of_input_does_not_end_the_loop] on an empty input: after a
    thousand passes [main] is still running. *)
Lemma an_empty_input_keeps_main_running :
  SparrowBot.returned
    (Fixtures.chat (Fixtures.bot None Fixtures.pearl_store) "Hello!")
  = Ok Fixtures.offline_reply
  /\ Main.main Binary64.parse Fixtures.ended_input (fun _ => Fixtures.world)
       1000 (Ok (Fixtures.bot None Fixtures.pearl_store)) = None.
Proof.
  assert (G : SparrowBot.returned
                (Fixtures.chat (Fixtures.bot None Fixtures.pearl_store)
                   "Hello!")
              = Ok Fixtures.offline_reply)
    by (vm_compute; reflexivity).
  split; [exact G |].
  refine (proj1 (proj2 (proj2
            (@MainFacts.the_end_of_input_does_not_end_the_loop
               _ _ _ Binary64.parse unit Fixtures.ended_input
               (fun _ => Fixtures.world) 0 _)) eq_refl 1000
            (Fixtures.bot None Fixtures.pearl_store)) _ G).
  intros k _. reflexivity.
Defined.

(** [a_failing_store_stops_the_greeting_not_the_loop] on a store whose
    embedding model fails: the greeting ends [main], and in a session
    that got past it "QUIT" does not end the loop. *)
Lemma quit_does_not_quit :
  (exists s',
      Main.main Binary64.parse (Fixtures.lines [" QUIT "])
        (fun _ => Fixtures.world) 10
        (Ok (Fixtures.bot None Fixtures.broken_store))
      = Some (Raised
                (OtherException "RuntimeError" "embedding model unavailable")
                s'))
  /\ fst (Main.iteration Binary64.parse (Fixtures.lines [" QUIT "])
            (fun _ => Fixtures.world)
            (start (Fixtures.bot None Fixtures.broken_store)))
     = Continue
  /\ output
       (snd (Main.iteration Binary64.parse (Fixtures.lines [" QUIT "])
               (fun _ => Fixtures.world)
               (start (Fixtures.bot None Fixtures.broken_store))))
     = [Error "embedding model unavailable"].
Proof.
  destruct (@MainFacts.a_failing_store_stops_the_greeting_not_the_loop
              _ _ _ Binary64.parse unit (Fixtures.lines [" QUIT "])
              (fun _ => Fixtures.world)
              (start (Fixtures.bot None Fixtures.broken_store))
              (OtherException "RuntimeError" "embedding model unavailable"))
    as [G [Q _]].
  split; [eexists; apply (G 10%nat); reflexivity |].
  rewrite (Q " QUIT " eq_refl eq_refl eq_refl). split; reflexivity.
Defined.

(** [only_the_user_text_reaches_the_bot] on a session of four lines:
    a command, a question, a reset and a farewell. *)
Lemma a_session_of_four_lines :
  Main.main Binary64.parse
    (Fixtures.lines ["help"; "  Where is the rum?  "; "Reset"; " QUIT "])
    (fun _ => Fixtures.world) 10
    (Ok (Fixtures.bot None Fixtures.pearl_store))
  = Some
      (Returned
         {| bot :=
              {| SparrowBot.model := None;
                 SparrowBot.vector_store := Fixtures.pearl_store;
                 SparrowBot.memory :=
                   {| Memory.max_turns := 10;
                      Memory.conversation_history :=
                        [ {| Memory.role := "user";
                             Memory.content := "Goodbye!";
                             Memory.timestamp := "t0" |};
                          {| Memory.role := "assistant";
                             Memory.content := Fixtures.offline_reply;
                             Memory.timestamp := "t1" |} ] |} |};
            reads := 4; chats := 3;
            asked := ["Hello!"; "Where is the rum?"; "Goodbye!"];
            output :=
              [ Jack Fixtures.offline_reply; Help;
                Jack Fixtures.offline_reply; Cleared;
                Farewell Fixtures.offline_reply ] |})
  /\ exists more,
       ["Hello!"; "Where is the rum?"; "Goodbye!"] = "Hello!" :: more
       /\ Forall (fun message => message = "Goodbye!" \/ user_text message)
            more
       /\ 3%nat = S (List.length more).
Proof.
  match goal with
  | |- ?ran /\ _ => assert (R : ran) by (vm_compute; reflexivity)
  end.
  split; [exact R |].
  exact (@MainFacts.only_the_user_text_reaches_the_bot
           _ _ _ Binary64.parse unit _ (fun _ => Fixtures.world) _ _ _ R).
Defined.

End MainCases.

Module LoadingCases.
Import PyStr VectorStore.

(** [only_stripped_lines_are_loaded] on a file of four lines, two of
    them blank. *)
Lemma a_knowledge_base_of_four_lines :
  load_from_file Fixtures.loader "sparrow_facts.txt"
  = [ Encoded
        [ "Jack Sparrow is the captain of the Black Pearl.";
          "The Black Pearl is the fastest ship." ];
      Added [tt; tt]
        [ "Jack Sparrow is the captain of the Black Pearl.";
          "The Black Pearl is the fastest ship." ]
        [ "doc_0"; "doc_1" ] ]
  /\ exists lines,
       read_lines Fixtures.loader "sparrow_facts.txt" = Ok lines
       /\ List.length lines = 4%nat
       /\ Forall (fun d => d <> "" /\ strip d = d) (documents_of lines).
Proof.
  split; [vm_compute; reflexivity |].
  destruct (proj2 (proj2 (LoadingFacts.only_stripped_lines_are_loaded
                            Fixtures.loader "sparrow_facts.txt"))
              (Encoded
                 [ "Jack Sparrow is the captain of the Black Pearl.";
                   "The Black Pearl is the fastest ship." ])
              (or_introl eq_refl))
    as [lines [R [_ [_ [F _]]]]].
  exists lines. split; [exact R |]. split; [| exact F].
  simpl in R. inversion R. reflexivity.
Defined.

End LoadingCases.

(** Where in the text the match is taken. *)
Module LeftmostFacts.
Import PyStr Regex RegexSpec.

Lemma append_empty (a b : string) : a ++ b = "" -> b = "".
Proof. destruct a; simpl; [auto | discriminate]. Qed.

(** [re.search] returns the match at the first position where the
    pattern matches. *)
Lemma search_leftmost p s g :
  search p s = Some g ->
  exists before rest,
    s = before ++ rest
    /\ match_here (head p) (group_class p) rest = Some g
    /\ forall b1 b2,
         before = b1 ++ b2 -> b2 <> "" ->
         match_here (head p) (group_class p) (b2 ++ rest) = None.
Proof.
  induction s as [| c s IH].
  - simpl.
    destruct (match_here (head p) (group_class p) "") as [g' |] eqn:M;
      [| discriminate].
    intro H. inversion H; subst g'. exists "", "".
    split; [reflexivity |]. split; [exact M |].
    intros b1 b2 E N. symmetry in E. apply append_empty in E. congruence.
  - simpl.
    destruct (match_here (head p) (group_class p) (String c s)) as [g' |] eqn:M.
    + intro H. inversion H; subst g'. exists "", (String c s).
      split; [reflexivity |]. split; [exact M |].
      intros b1 b2 E N. symmetry in E. apply append_empty in E. congruence.
    + intro H. destruct (IH H) as [before [rest [E [R L]]]].
      exists (String c before), rest.
      split; [simpl; congruence |]. split; [exact R |].
      intros b1 b2 E' N. destruct b1 as [| d b1].
      * simpl in E'. subst b2. simpl. rewrite <- E. exact M.
      * simpl in E'. inversion E'. eapply L; eassumption.
Qed.

(** X23.  The expression comes from the first place in the lowered
    text where the winning pattern matches: the pattern matches at no
    earlier position, and no pattern before it in the list matches
    anywhere. *)
Theorem the_leftmost_match_is_taken (text e : string) :
  Tools.extract_expression text = Some e ->
  exists earlier p later before rest g,
    Tools.patterns = (earlier ++ p :: later)%list
    /\ (forall q, In q earlier -> search q (lower text) = None)
    /\ lower text = before ++ rest
    /\ match_here (head p) (group_class p) rest = Some g
    /\ (forall b1 b2,
          before = b1 ++ b2 -> b2 <> "" ->
          match_here (head p) (group_class p) (b2 ++ rest) = None)
    /\ e = replace "^" "**" (strip g).
Proof.
  unfold Tools.extract_expression.
  destruct (Tools.first_match Tools.patterns (lower text)) as [g |] eqn:F;
    [| discriminate].
  intro H. inversion H; subst e. clear H.
  assert (G : forall ps,
             Tools.first_match ps (lower text) = Some g ->
             exists earlier p later,
               ps = (earlier ++ p :: later)%list
               /\ (forall q, In q earlier -> search q (lower text) = None)
               /\ search p (lower text) = Some g).
  { induction ps as [| p ps IH]; simpl; [discriminate |].
    destruct (search p (lower text)) as [g' |] eqn:E.
    - intro H. inversion H; subst g'. exists [], p, ps.
      split; [reflexivity |]. split; [intros q [] | exact E].
    - intro H. destruct (IH H) as [earlier [q [later [H1 [H2 H3]]]]].
      exists (p :: earlier), q, later.
      split; [simpl; congruence |]. split; [| exact H3].
      intros q' [<- | Hq]; [exact E | auto]. }
  destruct (G _ F) as [earlier [p [later [H1 [H2 H3]]]]].
  destruct (search_leftmost _ _ H3) as [before [rest [E [M L]]]].
  exists earlier, p, later, before, rest, g. auto 10.
Qed.

End LeftmostFacts.

Module LeftmostCases.
Import PyStr Regex.

(** [the_leftmost_match_is_taken] on a text with two sums. *)
Lemma the_first_sum_is_taken :
  Tools.extract_expression "Calculate 1+1 then calculate 2+2" = Some "1+1"
  /\ exists earlier p later before rest g,
       Tools.patterns = (earlier ++ p :: later)%list
       /\ (forall q, In q earlier ->
                     search q (lower "Calculate 1+1 then calculate 2+2") = None)
       /\ lower "Calculate 1+1 then calculate 2+2" = before ++ rest
       /\ match_here (head p) (group_class p) rest = Some g
       /\ (forall b1 b2,
             before = b1 ++ b2 -> b2 <> "" ->
             match_here (head p) (group_class p) (b2 ++ rest) = None)
       /\ "1+1" = replace "^" "**" (strip g).
Proof.
  assert (E : Tools.extract_expression "Calculate 1+1 then calculate 2+2"
              = Some "1+1") by (vm_compute; reflexivity).
  split; [exact E |].
  exact (@LeftmostFacts.the_leftmost_match_is_taken _ _ E).
Defined.

End LeftmostCases.

Module InterruptFacts.
Section InterruptFacts.
Context {float complex : Type} {RT : PyRuntime float complex}.
Variable ast_parse : string -> outcome (ast.expr float complex).
Variable embedding : Type.
Variable stdin : nat -> Main.read.
Variable worlds : nat -> SparrowBot.World.

Import Main.
Local Arguments SparrowBot.chat : simpl never.

(** Every pass of the loop calls [input] once. *)
Lemma iteration_reads (s : session embedding) :
  reads (snd (Main.iteration ast_parse stdin worlds s)) = S (reads s).
Proof.
  unfold Main.iteration, input.
  destruct (stdin (reads s)) as [text | |]; [| reflexivity | reflexivity].
  destruct (negb (PyStr.truthy (PyStr.strip text))); [reflexivity |].
  destruct (PyParser.mem _ _).
  - unfold Main.bot_chat. simpl.
    destruct (SparrowBot.returned _); reflexivity.
  - destruct (PyParser.mem _ _); [reflexivity |].
    destruct (String.eqb _ _); [reflexivity |].
    unfold Main.bot_chat. simpl.
    destruct (SparrowBot.returned _); reflexivity.
Qed.

Lemma iteration_interrupted (s : session embedding) :
  stdin (reads s) = Interrupt ->
  Main.iteration ast_parse stdin worlds s
  = (Break,
     {| bot := bot s; reads := S (reads s); chats := chats s;
        asked := asked s; output := (output s ++ [Interrupted])%list |}).
Proof. intro H. unfold Main.iteration, input. rewrite H. reflexivity. Qed.

Lemma loop_interrupted (d : nat) (s : session embedding) (n : nat) :
  stdin n = Interrupt -> n = (reads s + d)%nat ->
  exists s',
    Main.loop ast_parse stdin worlds (S d) s = Some s'
    /\ (reads s' <= S n)%nat.
Proof.
  intro I. revert s. induction d as [| d IH]; intros s E.
  - replace n with (reads s) in I by lia.
    simpl. rewrite (iteration_interrupted s I). eexists. split; [reflexivity |].
    simpl. lia.
  - change (Main.loop ast_parse stdin worlds (S (S d)) s)
      with (match Main.iteration ast_parse stdin worlds s with
            | (Break, s') => Some s'
            | (Continue, s') => Main.loop ast_parse stdin worlds (S d) s'
            end).
    pose proof (iteration_reads s) as R.
    destruct (Main.iteration ast_parse stdin worlds s) as [[|] t];
      simpl in R.
    + apply IH. lia.
    + eexists. split; [reflexivity |]. lia.
Qed.

(** X24.  An interrupt ends the loop.  Every pass calls [input] once,
    and whatever [chat] does in between (an exception it raises is
    printed and the loop goes on), the loop has ended by the pass in
    which [input] raises [KeyboardInterrupt]: with the interrupt at the
    [n]-th call, [n + 1] passes are enough.  At the interrupt itself
    the loop ends without a farewell: the bot is not called. *)
Theorem an_interrupt_ends_the_loop (s : session embedding) (n : nat) :
  stdin n = Interrupt -> (reads s <= n)%nat ->
  (exists s',
      Main.loop ast_parse stdin worlds (S (n - reads s)) s = Some s'
      /\ (reads s' <= S n)%nat)
  /\ (reads s = n ->
      Main.loop ast_parse stdin worlds 1 s
      = Some {| bot := bot s; reads := S (reads s); chats := chats s;
                asked := asked s;
                output := (output s ++ [Interrupted])%list |})
  /\ (forall (b : SparrowBot.t embedding) greeting,
        SparrowBot.returned
          (SparrowBot.chat ast_parse (worlds 0) b "Hello!") = Ok greeting ->
        exists s',
          Main.main ast_parse stdin worlds (S n) (Ok b) = Some (Returned s')).
Proof.
  intros I L. split; [apply loop_interrupted; [exact I | lia] |].
  split.
  - intro E. subst n. simpl. rewrite (iteration_interrupted s I). reflexivity.
  - intros b greeting G. unfold Main.main, Main.bot_chat, start.
    cbn [chats bot reads asked output]. cbv beta iota zeta.
    rewrite G. cbv beta iota.
    match goal with
    | |- context [Main.loop _ _ _ _ ?t] =>
        destruct (@loop_interrupted n t n I) as [s' [H _]];
          [simpl; lia | rewrite H]
    end.
    eexists. reflexivity.
Qed.

End InterruptFacts.
End InterruptFacts.

Module InterruptCases.
Import Main.

(** [an_interrupt_ends_the_loop] on an interrupt after one question. *)
Lemma a_question_then_an_interrupt :
  exists s',
    Main.loop Binary64.parse
      (fun n => if Nat.eqb n 1 then Interrupt else Line "Where is the rum?")
      (fun _ => Fixtures.world) 2
      (start (Fixtures.bot None Fixtures.pearl_store)) = Some s'
    /\ (reads s' <= 2)%nat.
Proof.
  refine (proj1 (@InterruptFacts.an_interrupt_ends_the_loop
                   _ _ _ Binary64.parse unit
                   (fun n => if Nat.eqb n 1 then Interrupt
                             else Line "Where is the rum?")
                   (fun _ => Fixtures.world)
                   (start (Fixtures.bot None Fixtures.pearl_store)) 1
                   eq_refl _)).
  simpl. lia.
Defined.

End InterruptCases.
